(** * Intel XGL driver: pipeline-state compiler and fence wait

    A shallow embedding of [icd/intel/pipeline.c] and [icd/intel/fence.c].
    C integers are [Z] with the conversions written out; the command array
    of a pipeline is a [list Z] updated by index; [assert] is a fatal
    failure, modelled by [None]; recoverable errors are [XGL_RESULT]s. *)

From Stdlib Require Import ZArith Lia Bool.
From stdpp Require Import base list.

Local Open Scope Z_scope.

(** ** C integer conversions *)

Module CInt.

Definition INT_MAX : Z := 2 ^ 31 - 1.
Definition INT64_MAX : Z := 2 ^ 63 - 1.

(** Conversion to [uint8_t], [uint32_t], [uint64_t]: reduction modulo 2^w. *)
Definition to_uint8 (x : Z) : Z := x mod 2 ^ 8.
Definition to_uint32 (x : Z) : Z := x mod 2 ^ 32.
Definition to_uint64 (x : Z) : Z := x mod 2 ^ 64.

(** Conversion to [int] and [int64_t]: two's complement. *)
Definition to_int (x : Z) : Z := (x + 2 ^ 31) mod 2 ^ 32 - 2 ^ 31.
Definition to_int64 (x : Z) : Z := (x + 2 ^ 63) mod 2 ^ 64 - 2 ^ 63.

End CInt.

(** ** Result codes used by the two files *)

Inductive XGL_RESULT : Type :=
| XGL_SUCCESS
| XGL_NOT_READY
| XGL_ERROR_UNAVAILABLE
| XGL_ERROR_OUT_OF_MEMORY
| XGL_ERROR_BAD_PIPELINE_DATA.

Definition XGL_RESULT_eqb (a b : XGL_RESULT) : bool :=
  match a, b with
  | XGL_SUCCESS, XGL_SUCCESS
  | XGL_NOT_READY, XGL_NOT_READY
  | XGL_ERROR_UNAVAILABLE, XGL_ERROR_UNAVAILABLE
  | XGL_ERROR_OUT_OF_MEMORY, XGL_ERROR_OUT_OF_MEMORY
  | XGL_ERROR_BAD_PIPELINE_DATA, XGL_ERROR_BAD_PIPELINE_DATA => true
  | _, _ => false
  end.

(** ** fence.c *)

Module Fence.
Import CInt.

Section Winsys.
(** The kernel winsys is outside the file: a buffer object type, the
    state of the kernel, and [intel_bo_wait], which returns an error
    code (0 on completion). *)
Variable bo : Type.
Variable kernel : Type.
Variable intel_bo_wait : kernel -> bo -> Z -> kernel * Z.

Record intel_fence : Type := { submitted_bo : option bo }.

Definition intel_fence_wait (k : kernel) (fence : intel_fence) (timeout_ns : Z)
  : kernel * XGL_RESULT :=
  match submitted_bo fence with
  | None => (k, XGL_ERROR_UNAVAILABLE)
  | Some b =>
      let '(k', err) := intel_bo_wait k b timeout_ns in
      (k', if err =? 0 then XGL_SUCCESS else XGL_NOT_READY)
  end.

(** The value of [ns] computed in the body of the loop of
    [intelWaitForFences]; [timeout] is an [XGL_UINT64]. *)
Definition wait_ns (timeout : Z) : Z :=
  if timeout <=? to_uint64 (INT64_MAX ÷ 1000 ÷ 1000 ÷ 1000)
  then to_int64
         (to_uint64 (to_uint64 (to_uint64 (timeout * 1000) * 1000) * 1000))
  else -1.

(** One call of [intel_fence_wait] as seen by the loop. *)
Record wait_call : Type := { call_fence : intel_fence; call_ns : Z }.

(** The loop of [intelWaitForFences] from index [i] on; [ret] is the
    running result and [calls] records, latest first, the arguments of
    every [intel_fence_wait] made. *)
Fixpoint wait_loop (k : kernel) (pFences : list intel_fence) (waitAll : bool)
    (timeout : Z) (ret : XGL_RESULT) (calls : list wait_call)
  : kernel * XGL_RESULT * list wait_call :=
  match pFences with
  | [] => (k, ret, calls)
  | fence :: rest =>
      let ns := wait_ns timeout in
      let '(k', r) := intel_fence_wait k fence ns in
      let calls' := {| call_fence := fence; call_ns := ns |} :: calls in
      if negb waitAll && XGL_RESULT_eqb r XGL_SUCCESS
      then (k', XGL_SUCCESS, calls')
      else
        let ret' := if XGL_RESULT_eqb r XGL_SUCCESS then ret else r in
        wait_loop k' rest waitAll timeout ret' calls'
  end.

Definition intelWaitForFences (k : kernel) (pFences : list intel_fence)
    (waitAll : bool) (timeout : Z) : kernel * XGL_RESULT * list wait_call :=
  wait_loop k pFences waitAll timeout XGL_SUCCESS [].

End Winsys.

Arguments submitted_bo {bo} _.
Arguments intel_fence_wait {bo kernel} _ _ _ _.
Arguments wait_loop {bo kernel} _ _ _ _ _ _ _.
Arguments intelWaitForFences {bo kernel} _ _ _ _ _.
Arguments call_fence {bo} _.
Arguments call_ns {bo} _.

End Fence.

(** ** pipeline.c: what the file takes from headers that are not part of
    this development *)

(** Hardware commands named in [GEN6_RENDER_CMD(3D, ...)] and
    [GEN7_RENDER_CMD(3D, ...)]. *)
Inductive render_cmd : Type :=
| GEN6_3DSTATE_URB
| GEN6_3DSTATE_VERTEX_ELEMENTS
| GEN7_3DSTATE_URB_VS
| GEN7_3DSTATE_URB_GS
| GEN7_3DSTATE_URB_HS
| GEN7_3DSTATE_URB_DS
| GEN7_3DSTATE_PUSH_CONSTANT_ALLOC_VS
| GEN7_3DSTATE_PUSH_CONSTANT_ALLOC_PS
| GEN7_3DSTATE_PUSH_CONSTANT_ALLOC_HS
| GEN7_3DSTATE_PUSH_CONSTANT_ALLOC_DS
| GEN7_3DSTATE_PUSH_CONSTANT_ALLOC_GS
| GEN7_3DSTATE_HS
| GEN7_3DSTATE_TE
| GEN7_3DSTATE_DS.

(** Vertex-fetch component controls. *)
Inductive vfcomp : Type :=
| GEN6_VFCOMP_NOSTORE
| GEN6_VFCOMP_STORE_SRC
| GEN6_VFCOMP_STORE_0
| GEN6_VFCOMP_STORE_1_FP
| GEN6_VFCOMP_STORE_1_INT
| GEN6_VFCOMP_STORE_VID
| GEN6_VFCOMP_STORE_IID.

(** Hardware primitive types; [GEN7_3DPRIM_PATCHLIST_1_plus k] stands for
    the value [GEN7_3DPRIM_PATCHLIST_1 + k]. *)
Inductive prim_type_t : Type :=
| GEN6_3DPRIM_POINTLIST
| GEN6_3DPRIM_LINELIST
| GEN6_3DPRIM_LINESTRIP
| GEN6_3DPRIM_TRILIST
| GEN6_3DPRIM_TRISTRIP
| GEN6_3DPRIM_RECTLIST
| GEN6_3DPRIM_QUADLIST
| GEN6_3DPRIM_QUADSTRIP
| GEN6_3DPRIM_LINELIST_ADJ
| GEN6_3DPRIM_LINESTRIP_ADJ
| GEN6_3DPRIM_TRILIST_ADJ
| GEN6_3DPRIM_TRISTRIP_ADJ
| GEN7_3DPRIM_PATCHLIST_1_plus (k : Z).

Inductive XGL_PRIMITIVE_TOPOLOGY : Type :=
| XGL_TOPOLOGY_POINT_LIST
| XGL_TOPOLOGY_LINE_LIST
| XGL_TOPOLOGY_LINE_STRIP
| XGL_TOPOLOGY_TRIANGLE_LIST
| XGL_TOPOLOGY_TRIANGLE_STRIP
| XGL_TOPOLOGY_RECT_LIST
| XGL_TOPOLOGY_QUAD_LIST
| XGL_TOPOLOGY_QUAD_STRIP
| XGL_TOPOLOGY_LINE_LIST_ADJ
| XGL_TOPOLOGY_LINE_STRIP_ADJ
| XGL_TOPOLOGY_TRIANGLE_LIST_ADJ
| XGL_TOPOLOGY_TRIANGLE_STRIP_ADJ
| XGL_TOPOLOGY_PATCH
| XGL_TOPOLOGY_other (v : Z).
    (** any value of the enumeration's integer type that is none of the above *)

Definition is_TOPOLOGY_PATCH (t : XGL_PRIMITIVE_TOPOLOGY) : bool :=
  match t with XGL_TOPOLOGY_PATCH => true | _ => false end.

Inductive XGL_PROVOKING_VERTEX_CONVENTION : Type :=
| XGL_PROVOKING_VERTEX_FIRST
| XGL_PROVOKING_VERTEX_LAST.

Inductive XGL_PIPELINE_SHADER_STAGE : Type :=
| XGL_SHADER_STAGE_VERTEX
| XGL_SHADER_STAGE_TESS_CONTROL
| XGL_SHADER_STAGE_TESS_EVALUATION
| XGL_SHADER_STAGE_GEOMETRY
| XGL_SHADER_STAGE_FRAGMENT
| XGL_SHADER_STAGE_COMPUTE
| XGL_SHADER_STAGE_other (v : Z).

(** The GPU description of [gpu.h], as far as pipeline.c reads it:
    [gpu_gen] is the value of [intel_gpu_gen(gpu)], to be compared with the
    values of [INTEL_GEN(...)], and [gt] the GT tier. *)
Record intel_gpu : Type := { gpu_gen : Z; gt : Z }.

(** Types, constants and format queries of [xgl.h], [genhw/genhw.h],
    [gpu.h], [format.h], [cmd.h] and [pipeline_priv.h]. Their values are not fixed
    here; every definition below takes them as they come. *)
Record Headers : Type := {
  (* opaque payloads that pipeline.c copies and never inspects *)
  XGL_FORMAT : Type;
  XGL_SHADER : Type;
  XGL_GRAPHICS_PIPELINE_CREATE_INFO : Type;
  XGL_COMPUTE_PIPELINE_CREATE_INFO : Type;
  XGL_PIPELINE_CB_STATE : Type;
  XGL_VERTEX_INPUT_BINDING_DESCRIPTION : Type;
  (* gpu.h: INTEL_GEN(6), INTEL_GEN(7), INTEL_GEN(7.5) *)
  INTEL_GEN_6 : Z;
  INTEL_GEN_7 : Z;
  INTEL_GEN_7_5 : Z;
  (* format.h *)
  icd_format_is_int : XGL_FORMAT -> bool;
  icd_format_get_channel_count : XGL_FORMAT -> Z;
  intel_format_translate_color : intel_gpu -> XGL_FORMAT -> Z;
  (* pipeline_priv.h *)
  INTEL_PSO_CMD_ENTRIES : Z;
  vb_ARRAY_SIZE : Z;                  (* ARRAY_SIZE(pipeline->vb) *)
  SHADER_VERTEX_FLAG : Z;
  SHADER_TESS_CONTROL_FLAG : Z;
  SHADER_TESS_EVAL_FLAG : Z;
  SHADER_GEOMETRY_FLAG : Z;
  SHADER_FRAGMENT_FLAG : Z;
  SHADER_COMPUTE_FLAG : Z;
  INTEL_SHADER_USE_VID : Z;
  INTEL_SHADER_USE_IID : Z;
  (* cmd.h *)
  INTEL_CMD_WA_GEN6_PRE_DEPTH_STALL_WRITE : Z;
  INTEL_CMD_WA_GEN6_PRE_COMMAND_SCOREBOARD_STALL : Z;
  INTEL_CMD_WA_GEN7_PRE_VS_DEPTH_STALL_WRITE : Z;
  INTEL_CMD_WA_GEN7_POST_COMMAND_CS_STALL : Z;
  INTEL_CMD_WA_GEN7_POST_COMMAND_DEPTH_STALL : Z;
  (* genhw.h *)
  RENDER_CMD_3D : render_cmd -> Z;    (* GEN6_RENDER_CMD(3D, op), GEN7_RENDER_CMD(3D, op) *)
  VFCOMP : vfcomp -> Z;
  GEN6_URB_DW1_VS_ENTRY_SIZE__SHIFT : Z;
  GEN6_URB_DW1_VS_ENTRY_COUNT__SHIFT : Z;
  GEN6_URB_DW2_GS_ENTRY_COUNT__SHIFT : Z;
  GEN6_URB_DW2_GS_ENTRY_SIZE__SHIFT : Z;
  GEN7_URB_ANY_DW1_OFFSET__SHIFT : Z;
  GEN7_URB_ANY_DW1_ENTRY_SIZE__SHIFT : Z;
  GEN7_PCB_ALLOC_ANY_DW1_OFFSET__SHIFT : Z;
  GEN7_PCB_ALLOC_ANY_DW1_SIZE__SHIFT : Z;
  GEN6_VE_STATE_DW0_VB_INDEX__SHIFT : Z;
  GEN6_VE_STATE_DW0_VALID : Z;
  GEN6_VE_STATE_DW0_FORMAT__SHIFT : Z;
  GEN6_VE_STATE_DW1_COMP0__SHIFT : Z;
  GEN6_VE_STATE_DW1_COMP1__SHIFT : Z;
  GEN6_VE_STATE_DW1_COMP2__SHIFT : Z;
  GEN6_VE_STATE_DW1_COMP3__SHIFT : Z
}.

(** The stage flags are masks of an [active_shaders] word, and the masks of
    the vertex stage and of the two tessellation stages do not overlap.
    Nothing else about their values is used. *)
Record stage_flags_ok (H : Headers) : Prop := {
  vertex_tess_control_disjoint :
    Z.land (SHADER_VERTEX_FLAG H) (SHADER_TESS_CONTROL_FLAG H) = 0;
  vertex_tess_eval_disjoint :
    Z.land (SHADER_VERTEX_FLAG H) (SHADER_TESS_EVAL_FLAG H) = 0;
  tess_control_tess_eval_disjoint :
    Z.land (SHADER_TESS_CONTROL_FLAG H) (SHADER_TESS_EVAL_FLAG H) = 0
}.

(** ** The API structures read by pipeline.c (fields the file uses) *)

Module Xgl.
Section WithHeaders.
Variable H : Headers.

Record XGL_PIPELINE_SHADER : Type := {
  stage : XGL_PIPELINE_SHADER_STAGE;
  shader : XGL_SHADER H
}.

Record XGL_VERTEX_INPUT_ATTRIBUTE_DESCRIPTION : Type := {
  binding : Z;
  format : XGL_FORMAT H;
  offsetInBytes : Z
}.

Record XGL_PIPELINE_VERTEX_INPUT_CREATE_INFO : Type := {
  bindingCount : Z;
  pVertexBindingDescriptions : list (XGL_VERTEX_INPUT_BINDING_DESCRIPTION H);
  attributeCount : Z;
  pVertexAttributeDescriptions : list XGL_VERTEX_INPUT_ATTRIBUTE_DESCRIPTION
}.

Record XGL_PIPELINE_IA_STATE_CREATE_INFO : Type := {
  topology : XGL_PRIMITIVE_TOPOLOGY;
  disableVertexReuse : bool;
  provokingVertex : XGL_PROVOKING_VERTEX_CONVENTION;
  primitiveRestartEnable : bool;
  primitiveRestartIndex : Z
}.

Record XGL_PIPELINE_DB_STATE_CREATE_INFO : Type := {
  db_format : XGL_FORMAT H          (* XGL_PIPELINE_DB_STATE_CREATE_INFO.format *)
}.

Record XGL_PIPELINE_RS_STATE_CREATE_INFO : Type := {
  depthClipEnable : bool;
  rasterizerDiscardEnable : bool;
  pointSize : Z                     (* an XGL_FLOAT, copied as it is *)
}.

Record XGL_PIPELINE_TESS_STATE_CREATE_INFO : Type := {
  patchControlPoints : Z;
  optimalTessFactor : Z             (* an XGL_FLOAT, copied as it is *)
}.

(** A node of the create-info chain: the [struct_type] of its header
    together with the structure that this tag announces. The [next]
    pointers are the order of the list that holds the nodes. *)
Inductive intel_pipeline_create_info_header : Type :=
| XGL_STRUCTURE_TYPE_GRAPHICS_PIPELINE_CREATE_INFO
    (graphics : XGL_GRAPHICS_PIPELINE_CREATE_INFO H)
| XGL_STRUCTURE_TYPE_PIPELINE_VERTEX_INPUT_CREATE_INFO
    (vi : XGL_PIPELINE_VERTEX_INPUT_CREATE_INFO)
| XGL_STRUCTURE_TYPE_PIPELINE_IA_STATE_CREATE_INFO
    (ia : XGL_PIPELINE_IA_STATE_CREATE_INFO)
| XGL_STRUCTURE_TYPE_PIPELINE_DB_STATE_CREATE_INFO
    (db : XGL_PIPELINE_DB_STATE_CREATE_INFO)
| XGL_STRUCTURE_TYPE_PIPELINE_CB_STATE_CREATE_INFO
    (cb : XGL_PIPELINE_CB_STATE H)
| XGL_STRUCTURE_TYPE_PIPELINE_RS_STATE_CREATE_INFO
    (rs : XGL_PIPELINE_RS_STATE_CREATE_INFO)
| XGL_STRUCTURE_TYPE_PIPELINE_TESS_STATE_CREATE_INFO
    (tess : XGL_PIPELINE_TESS_STATE_CREATE_INFO)
| XGL_STRUCTURE_TYPE_PIPELINE_SHADER_STAGE_CREATE_INFO
    (shader : XGL_PIPELINE_SHADER)
| XGL_STRUCTURE_TYPE_COMPUTE_PIPELINE_CREATE_INFO
    (compute : XGL_COMPUTE_PIPELINE_CREATE_INFO H)
| XGL_STRUCTURE_TYPE_other (struct_type : Z).

End WithHeaders.

Arguments stage {H} _.
Arguments shader {H} _.
Arguments binding {H} _.
Arguments format {H} _.
Arguments offsetInBytes {H} _.
Arguments bindingCount {H} _.
Arguments pVertexBindingDescriptions {H} _.
Arguments attributeCount {H} _.
Arguments pVertexAttributeDescriptions {H} _.
Arguments db_format {H} _.
Arguments XGL_STRUCTURE_TYPE_GRAPHICS_PIPELINE_CREATE_INFO {H} _.
Arguments XGL_STRUCTURE_TYPE_PIPELINE_VERTEX_INPUT_CREATE_INFO {H} _.
Arguments XGL_STRUCTURE_TYPE_PIPELINE_IA_STATE_CREATE_INFO {H} _.
Arguments XGL_STRUCTURE_TYPE_PIPELINE_DB_STATE_CREATE_INFO {H} _.
Arguments XGL_STRUCTURE_TYPE_PIPELINE_CB_STATE_CREATE_INFO {H} _.
Arguments XGL_STRUCTURE_TYPE_PIPELINE_RS_STATE_CREATE_INFO {H} _.
Arguments XGL_STRUCTURE_TYPE_PIPELINE_TESS_STATE_CREATE_INFO {H} _.
Arguments XGL_STRUCTURE_TYPE_PIPELINE_SHADER_STAGE_CREATE_INFO {H} _.
Arguments XGL_STRUCTURE_TYPE_COMPUTE_PIPELINE_CREATE_INFO {H} _.
Arguments XGL_STRUCTURE_TYPE_other {H} _.

End Xgl.

(** ** The descriptor assembler: [pipeline_create_info_init] *)

Module Assembler.
Import Xgl.

Section WithHeaders.
Variable H : Headers.

Record intel_pipeline_create_info : Type := {
  graphics : XGL_GRAPHICS_PIPELINE_CREATE_INFO H;
  vi : XGL_PIPELINE_VERTEX_INPUT_CREATE_INFO H;
  ia : XGL_PIPELINE_IA_STATE_CREATE_INFO;
  db : XGL_PIPELINE_DB_STATE_CREATE_INFO H;
  cb : XGL_PIPELINE_CB_STATE H;
  rs : XGL_PIPELINE_RS_STATE_CREATE_INFO;
  tess : XGL_PIPELINE_TESS_STATE_CREATE_INFO;
  vs : XGL_PIPELINE_SHADER H;
  tcs : XGL_PIPELINE_SHADER H;
  tes : XGL_PIPELINE_SHADER H;
  gs : XGL_PIPELINE_SHADER H;
  fs : XGL_PIPELINE_SHADER H;
  compute : XGL_COMPUTE_PIPELINE_CREATE_INFO H
}.

(** The destination of one [memcpy(dst, src, size)]: a slot of the
    descriptor together with the structure copied into it. *)
Definition set_graphics (x : XGL_GRAPHICS_PIPELINE_CREATE_INFO H)
    (i : intel_pipeline_create_info) :=
  {| graphics := x; vi := vi i; ia := ia i; db := db i; cb := cb i; rs := rs i;
     tess := tess i; vs := vs i; tcs := tcs i; tes := tes i; gs := gs i; fs := fs i;
     compute := compute i |}.
Definition set_vi (x : XGL_PIPELINE_VERTEX_INPUT_CREATE_INFO H)
    (i : intel_pipeline_create_info) :=
  {| graphics := graphics i; vi := x; ia := ia i; db := db i; cb := cb i; rs := rs i;
     tess := tess i; vs := vs i; tcs := tcs i; tes := tes i; gs := gs i; fs := fs i;
     compute := compute i |}.
Definition set_ia (x : XGL_PIPELINE_IA_STATE_CREATE_INFO)
    (i : intel_pipeline_create_info) :=
  {| graphics := graphics i; vi := vi i; ia := x; db := db i; cb := cb i; rs := rs i;
     tess := tess i; vs := vs i; tcs := tcs i; tes := tes i; gs := gs i; fs := fs i;
     compute := compute i |}.
Definition set_db (x : XGL_PIPELINE_DB_STATE_CREATE_INFO H)
    (i : intel_pipeline_create_info) :=
  {| graphics := graphics i; vi := vi i; ia := ia i; db := x; cb := cb i; rs := rs i;
     tess := tess i; vs := vs i; tcs := tcs i; tes := tes i; gs := gs i; fs := fs i;
     compute := compute i |}.
Definition set_cb (x : XGL_PIPELINE_CB_STATE H) (i : intel_pipeline_create_info) :=
  {| graphics := graphics i; vi := vi i; ia := ia i; db := db i; cb := x; rs := rs i;
     tess := tess i; vs := vs i; tcs := tcs i; tes := tes i; gs := gs i; fs := fs i;
     compute := compute i |}.
Definition set_rs (x : XGL_PIPELINE_RS_STATE_CREATE_INFO)
    (i : intel_pipeline_create_info) :=
  {| graphics := graphics i; vi := vi i; ia := ia i; db := db i; cb := cb i; rs := x;
     tess := tess i; vs := vs i; tcs := tcs i; tes := tes i; gs := gs i; fs := fs i;
     compute := compute i |}.
Definition set_tess (x : XGL_PIPELINE_TESS_STATE_CREATE_INFO)
    (i : intel_pipeline_create_info) :=
  {| graphics := graphics i; vi := vi i; ia := ia i; db := db i; cb := cb i; rs := rs i;
     tess := x; vs := vs i; tcs := tcs i; tes := tes i; gs := gs i; fs := fs i;
     compute := compute i |}.
Definition set_vs (x : XGL_PIPELINE_SHADER H) (i : intel_pipeline_create_info) :=
  {| graphics := graphics i; vi := vi i; ia := ia i; db := db i; cb := cb i; rs := rs i;
     tess := tess i; vs := x; tcs := tcs i; tes := tes i; gs := gs i; fs := fs i;
     compute := compute i |}.
Definition set_tcs (x : XGL_PIPELINE_SHADER H) (i : intel_pipeline_create_info) :=
  {| graphics := graphics i; vi := vi i; ia := ia i; db := db i; cb := cb i; rs := rs i;
     tess := tess i; vs := vs i; tcs := x; tes := tes i; gs := gs i; fs := fs i;
     compute := compute i |}.
Definition set_tes (x : XGL_PIPELINE_SHADER H) (i : intel_pipeline_create_info) :=
  {| graphics := graphics i; vi := vi i; ia := ia i; db := db i; cb := cb i; rs := rs i;
     tess := tess i; vs := vs i; tcs := tcs i; tes := x; gs := gs i; fs := fs i;
     compute := compute i |}.
Definition set_gs (x : XGL_PIPELINE_SHADER H) (i : intel_pipeline_create_info) :=
  {| graphics := graphics i; vi := vi i; ia := ia i; db := db i; cb := cb i; rs := rs i;
     tess := tess i; vs := vs i; tcs := tcs i; tes := tes i; gs := x; fs := fs i;
     compute := compute i |}.
Definition set_fs (x : XGL_PIPELINE_SHADER H) (i : intel_pipeline_create_info) :=
  {| graphics := graphics i; vi := vi i; ia := ia i; db := db i; cb := cb i; rs := rs i;
     tess := tess i; vs := vs i; tcs := tcs i; tes := tes i; gs := gs i; fs := x;
     compute := compute i |}.
Definition set_compute (x : XGL_COMPUTE_PIPELINE_CREATE_INFO H)
    (i : intel_pipeline_create_info) :=
  {| graphics := graphics i; vi := vi i; ia := ia i; db := db i; cb := cb i; rs := rs i;
     tess := tess i; vs := vs i; tcs := tcs i; tes := tes i; gs := gs i; fs := fs i;
     compute := x |}.

(** The body of the [switch]: [Some] of the copy to perform, or [None]
    where the C code returns [XGL_ERROR_BAD_PIPELINE_DATA]. *)
Definition copy_of (header : intel_pipeline_create_info_header H)
  : option (intel_pipeline_create_info -> intel_pipeline_create_info) :=
  match header with
  | XGL_STRUCTURE_TYPE_GRAPHICS_PIPELINE_CREATE_INFO x => Some (set_graphics x)
  | XGL_STRUCTURE_TYPE_PIPELINE_VERTEX_INPUT_CREATE_INFO x => Some (set_vi x)
  | XGL_STRUCTURE_TYPE_PIPELINE_IA_STATE_CREATE_INFO x => Some (set_ia x)
  | XGL_STRUCTURE_TYPE_PIPELINE_DB_STATE_CREATE_INFO x => Some (set_db x)
  | XGL_STRUCTURE_TYPE_PIPELINE_CB_STATE_CREATE_INFO x => Some (set_cb x)
  | XGL_STRUCTURE_TYPE_PIPELINE_RS_STATE_CREATE_INFO x => Some (set_rs x)
  | XGL_STRUCTURE_TYPE_PIPELINE_TESS_STATE_CREATE_INFO x => Some (set_tess x)
  | XGL_STRUCTURE_TYPE_PIPELINE_SHADER_STAGE_CREATE_INFO sh =>
      match stage sh with
      | XGL_SHADER_STAGE_VERTEX => Some (set_vs sh)
      | XGL_SHADER_STAGE_TESS_CONTROL => Some (set_tcs sh)
      | XGL_SHADER_STAGE_TESS_EVALUATION => Some (set_tes sh)
      | XGL_SHADER_STAGE_GEOMETRY => Some (set_gs sh)
      | XGL_SHADER_STAGE_FRAGMENT => Some (set_fs sh)
      | _ => None
      end
  | XGL_STRUCTURE_TYPE_COMPUTE_PIPELINE_CREATE_INFO x => Some (set_compute x)
  | XGL_STRUCTURE_TYPE_other _ => None
  end.

(** The [while (header)] loop; [info] is the descriptor so far. On
    failure the descriptor is returned as it stands at the [return]. *)
Fixpoint create_info_walk (info : intel_pipeline_create_info)
    (chain : list (intel_pipeline_create_info_header H))
  : XGL_RESULT * intel_pipeline_create_info :=
  match chain with
  | [] => (XGL_SUCCESS, info)
  | header :: next =>
      match copy_of header with
      | None => (XGL_ERROR_BAD_PIPELINE_DATA, info)
      | Some memcpy_to_dst => create_info_walk (memcpy_to_dst info) next
      end
  end.

(** [zeroed] is the descriptor after [memset(info, 0, sizeof( *info))]. *)
Definition pipeline_create_info_init (zeroed : intel_pipeline_create_info)
    (header : list (intel_pipeline_create_info_header H))
  : XGL_RESULT * intel_pipeline_create_info :=
  create_info_walk zeroed header.

End WithHeaders.

Arguments graphics {H} _.
Arguments vi {H} _.
Arguments ia {H} _.
Arguments db {H} _.
Arguments cb {H} _.
Arguments rs {H} _.
Arguments tess {H} _.
Arguments vs {H} _.
Arguments tcs {H} _.
Arguments tes {H} _.
Arguments gs {H} _.
Arguments fs {H} _.
Arguments compute {H} _.
Arguments copy_of {H} _.
Arguments create_info_walk {H} _ _.
Arguments pipeline_create_info_init {H} _ _.

End Assembler.

(** ** pipeline.c *)

Module Pipeline.
Import CInt.

Section WithHeaders.
Variable H : Headers.

Record intel_dev : Type := { gpu : intel_gpu }.

(** What the shader compiler leaves for a stage, as far as this file
    reads it. *)
Record intel_pipeline_shader : Type := {
  in_count : Z;
  out_count : Z;
  uses : Z
}.

Record intel_pipeline : Type := {
  dev : intel_dev;
  cmds : list Z;
  cmd_len : Z;
  topology : XGL_PRIMITIVE_TOPOLOGY;
  disable_vs_cache : bool;
  provoking_vertex_tri : Z;
  provoking_vertex_trifan : Z;
  provoking_vertex_line : Z;
  prim_type : prim_type_t;
  primitive_restart : bool;
  primitive_restart_index : Z;
  depthClipEnable : bool;
  rasterizerDiscardEnable : bool;
  pointSize : Z;
  active_shaders : Z;
  vs : intel_pipeline_shader;
  gs : intel_pipeline_shader;
  vb_count : Z;
  vb : list (XGL_VERTEX_INPUT_BINDING_DESCRIPTION H);
  wa_flags : Z;
  db_format : XGL_FORMAT H;
  cb_state : XGL_PIPELINE_CB_STATE H;
  tess_state : Xgl.XGL_PIPELINE_TESS_STATE_CREATE_INFO
}.

(** Assignments to fields of [*pipeline], one definition per group of
    fields that the file writes together. *)
Definition set_cmds (p : intel_pipeline) (cmds_ : list Z) : intel_pipeline :=
  {| dev := dev p; cmds := cmds_; cmd_len := cmd_len p; topology := topology p;
     disable_vs_cache := disable_vs_cache p;
     provoking_vertex_tri := provoking_vertex_tri p;
     provoking_vertex_trifan := provoking_vertex_trifan p;
     provoking_vertex_line := provoking_vertex_line p; prim_type := prim_type p;
     primitive_restart := primitive_restart p;
     primitive_restart_index := primitive_restart_index p;
     depthClipEnable := depthClipEnable p;
     rasterizerDiscardEnable := rasterizerDiscardEnable p;
     pointSize := pointSize p; active_shaders := active_shaders p; vs := vs p;
     gs := gs p; vb_count := vb_count p; vb := vb p; wa_flags := wa_flags p;
     db_format := db_format p; cb_state := cb_state p;
     tess_state := tess_state p |}.
Definition set_cmd_len (p : intel_pipeline) (cmd_len_ : Z) : intel_pipeline :=
  {| dev := dev p; cmds := cmds p; cmd_len := cmd_len_; topology := topology p;
     disable_vs_cache := disable_vs_cache p;
     provoking_vertex_tri := provoking_vertex_tri p;
     provoking_vertex_trifan := provoking_vertex_trifan p;
     provoking_vertex_line := provoking_vertex_line p; prim_type := prim_type p;
     primitive_restart := primitive_restart p;
     primitive_restart_index := primitive_restart_index p;
     depthClipEnable := depthClipEnable p;
     rasterizerDiscardEnable := rasterizerDiscardEnable p;
     pointSize := pointSize p; active_shaders := active_shaders p; vs := vs p;
     gs := gs p; vb_count := vb_count p; vb := vb p; wa_flags := wa_flags p;
     db_format := db_format p; cb_state := cb_state p;
     tess_state := tess_state p |}.
Definition set_dev (p : intel_pipeline) (dev_ : intel_dev) : intel_pipeline :=
  {| dev := dev_; cmds := cmds p; cmd_len := cmd_len p; topology := topology p;
     disable_vs_cache := disable_vs_cache p;
     provoking_vertex_tri := provoking_vertex_tri p;
     provoking_vertex_trifan := provoking_vertex_trifan p;
     provoking_vertex_line := provoking_vertex_line p; prim_type := prim_type p;
     primitive_restart := primitive_restart p;
     primitive_restart_index := primitive_restart_index p;
     depthClipEnable := depthClipEnable p;
     rasterizerDiscardEnable := rasterizerDiscardEnable p;
     pointSize := pointSize p; active_shaders := active_shaders p; vs := vs p;
     gs := gs p; vb_count := vb_count p; vb := vb p; wa_flags := wa_flags p;
     db_format := db_format p; cb_state := cb_state p;
     tess_state := tess_state p |}.
Definition set_ia (p : intel_pipeline) (topology_ : XGL_PRIMITIVE_TOPOLOGY)
    (disable_vs_cache_ : bool) (provoking_vertex_tri_ : Z)
    (provoking_vertex_trifan_ : Z) (provoking_vertex_line_ : Z) : intel_pipeline :=
  {| dev := dev p; cmds := cmds p; cmd_len := cmd_len p; topology := topology_;
     disable_vs_cache := disable_vs_cache_;
     provoking_vertex_tri := provoking_vertex_tri_;
     provoking_vertex_trifan := provoking_vertex_trifan_;
     provoking_vertex_line := provoking_vertex_line_; prim_type := prim_type p;
     primitive_restart := primitive_restart p;
     primitive_restart_index := primitive_restart_index p;
     depthClipEnable := depthClipEnable p;
     rasterizerDiscardEnable := rasterizerDiscardEnable p;
     pointSize := pointSize p; active_shaders := active_shaders p; vs := vs p;
     gs := gs p; vb_count := vb_count p; vb := vb p; wa_flags := wa_flags p;
     db_format := db_format p; cb_state := cb_state p;
     tess_state := tess_state p |}.
Definition set_prim_type (p : intel_pipeline) (prim_type_ : prim_type_t) : intel_pipeline :=
  {| dev := dev p; cmds := cmds p; cmd_len := cmd_len p; topology := topology p;
     disable_vs_cache := disable_vs_cache p;
     provoking_vertex_tri := provoking_vertex_tri p;
     provoking_vertex_trifan := provoking_vertex_trifan p;
     provoking_vertex_line := provoking_vertex_line p; prim_type := prim_type_;
     primitive_restart := primitive_restart p;
     primitive_restart_index := primitive_restart_index p;
     depthClipEnable := depthClipEnable p;
     rasterizerDiscardEnable := rasterizerDiscardEnable p;
     pointSize := pointSize p; active_shaders := active_shaders p; vs := vs p;
     gs := gs p; vb_count := vb_count p; vb := vb p; wa_flags := wa_flags p;
     db_format := db_format p; cb_state := cb_state p;
     tess_state := tess_state p |}.
Definition set_primitive_restart (p : intel_pipeline) (primitive_restart_ : bool)
  : intel_pipeline :=
  {| dev := dev p; cmds := cmds p; cmd_len := cmd_len p; topology := topology p;
     disable_vs_cache := disable_vs_cache p;
     provoking_vertex_tri := provoking_vertex_tri p;
     provoking_vertex_trifan := provoking_vertex_trifan p;
     provoking_vertex_line := provoking_vertex_line p; prim_type := prim_type p;
     primitive_restart := primitive_restart_;
     primitive_restart_index := primitive_restart_index p;
     depthClipEnable := depthClipEnable p;
     rasterizerDiscardEnable := rasterizerDiscardEnable p;
     pointSize := pointSize p; active_shaders := active_shaders p; vs := vs p;
     gs := gs p; vb_count := vb_count p; vb := vb p; wa_flags := wa_flags p;
     db_format := db_format p; cb_state := cb_state p;
     tess_state := tess_state p |}.
Definition set_primitive_restart_index (p : intel_pipeline)
    (primitive_restart_index_ : Z) : intel_pipeline :=
  {| dev := dev p; cmds := cmds p; cmd_len := cmd_len p; topology := topology p;
     disable_vs_cache := disable_vs_cache p;
     provoking_vertex_tri := provoking_vertex_tri p;
     provoking_vertex_trifan := provoking_vertex_trifan p;
     provoking_vertex_line := provoking_vertex_line p; prim_type := prim_type p;
     primitive_restart := primitive_restart p;
     primitive_restart_index := primitive_restart_index_;
     depthClipEnable := depthClipEnable p;
     rasterizerDiscardEnable := rasterizerDiscardEnable p;
     pointSize := pointSize p; active_shaders := active_shaders p; vs := vs p;
     gs := gs p; vb_count := vb_count p; vb := vb p; wa_flags := wa_flags p;
     db_format := db_format p; cb_state := cb_state p;
     tess_state := tess_state p |}.
Definition set_rs (p : intel_pipeline) (depthClipEnable_ : bool)
    (rasterizerDiscardEnable_ : bool) (pointSize_ : Z) : intel_pipeline :=
  {| dev := dev p; cmds := cmds p; cmd_len := cmd_len p; topology := topology p;
     disable_vs_cache := disable_vs_cache p;
     provoking_vertex_tri := provoking_vertex_tri p;
     provoking_vertex_trifan := provoking_vertex_trifan p;
     provoking_vertex_line := provoking_vertex_line p; prim_type := prim_type p;
     primitive_restart := primitive_restart p;
     primitive_restart_index := primitive_restart_index p;
     depthClipEnable := depthClipEnable_;
     rasterizerDiscardEnable := rasterizerDiscardEnable_; pointSize := pointSize_;
     active_shaders := active_shaders p; vs := vs p; gs := gs p;
     vb_count := vb_count p; vb := vb p; wa_flags := wa_flags p;
     db_format := db_format p; cb_state := cb_state p;
     tess_state := tess_state p |}.
Definition set_vb (p : intel_pipeline) (vb_count_ : Z)
    (vb_ : list (XGL_VERTEX_INPUT_BINDING_DESCRIPTION H)) : intel_pipeline :=
  {| dev := dev p; cmds := cmds p; cmd_len := cmd_len p; topology := topology p;
     disable_vs_cache := disable_vs_cache p;
     provoking_vertex_tri := provoking_vertex_tri p;
     provoking_vertex_trifan := provoking_vertex_trifan p;
     provoking_vertex_line := provoking_vertex_line p; prim_type := prim_type p;
     primitive_restart := primitive_restart p;
     primitive_restart_index := primitive_restart_index p;
     depthClipEnable := depthClipEnable p;
     rasterizerDiscardEnable := rasterizerDiscardEnable p;
     pointSize := pointSize p; active_shaders := active_shaders p; vs := vs p;
     gs := gs p; vb_count := vb_count_; vb := vb_; wa_flags := wa_flags p;
     db_format := db_format p; cb_state := cb_state p;
     tess_state := tess_state p |}.
Definition set_wa_flags (p : intel_pipeline) (wa_flags_ : Z) : intel_pipeline :=
  {| dev := dev p; cmds := cmds p; cmd_len := cmd_len p; topology := topology p;
     disable_vs_cache := disable_vs_cache p;
     provoking_vertex_tri := provoking_vertex_tri p;
     provoking_vertex_trifan := provoking_vertex_trifan p;
     provoking_vertex_line := provoking_vertex_line p; prim_type := prim_type p;
     primitive_restart := primitive_restart p;
     primitive_restart_index := primitive_restart_index p;
     depthClipEnable := depthClipEnable p;
     rasterizerDiscardEnable := rasterizerDiscardEnable p;
     pointSize := pointSize p; active_shaders := active_shaders p; vs := vs p;
     gs := gs p; vb_count := vb_count p; vb := vb p; wa_flags := wa_flags_;
     db_format := db_format p; cb_state := cb_state p;
     tess_state := tess_state p |}.
Definition set_fixed_state (p : intel_pipeline) (db_format_ : XGL_FORMAT H)
    (cb_state_ : XGL_PIPELINE_CB_STATE H)
    (tess_state_ : Xgl.XGL_PIPELINE_TESS_STATE_CREATE_INFO) : intel_pipeline :=
  {| dev := dev p; cmds := cmds p; cmd_len := cmd_len p; topology := topology p;
     disable_vs_cache := disable_vs_cache p;
     provoking_vertex_tri := provoking_vertex_tri p;
     provoking_vertex_trifan := provoking_vertex_trifan p;
     provoking_vertex_line := provoking_vertex_line p; prim_type := prim_type p;
     primitive_restart := primitive_restart p;
     primitive_restart_index := primitive_restart_index p;
     depthClipEnable := depthClipEnable p;
     rasterizerDiscardEnable := rasterizerDiscardEnable p;
     pointSize := pointSize p; active_shaders := active_shaders p; vs := vs p;
     gs := gs p; vb_count := vb_count p; vb := vb p; wa_flags := wa_flags p;
     db_format := db_format_; cb_state := cb_state_; tess_state := tess_state_ |}.

(** *** The command array *)

(** [a[i] = v] on the array of command words; an index outside the
    array (undefined in C) leaves it untouched. *)
Definition arr_set (a : list Z) (i : Z) (v : Z) : list Z :=
  if 0 <=? i then <[Z.to_nat i := v]> a else a.

Definition arr_get (a : list Z) (i : Z) : option Z :=
  if 0 <=? i then a !! Z.to_nat i else None.

(** [dw[k] = v] where [dw] points at [pipeline->cmds[base]]: the value is
    converted to [uint32_t]. *)
Definition store (p : intel_pipeline) (dw : Z) (k : Z) (v : Z) : intel_pipeline :=
  set_cmds p (arr_set (cmds p) (dw + k) (to_uint32 v)).

(** [assert(cond)]: carry on, or stop for good. *)
Definition assert (cond : bool) : option unit :=
  if cond then Some tt else None.

(** [INTEL_GPU_ASSERT(gpu, lo, hi)] *)
Definition INTEL_GPU_ASSERT (g : intel_gpu) (lo hi : Z) : option unit :=
  assert ((lo <=? gpu_gen g) && (gpu_gen g <=? hi)).

(** Returns the index in [cmds] that [ptr] points at, and the pipeline
    with [cmd_len] advanced. *)
Definition pipeline_cmd_ptr (pipeline : intel_pipeline) (len : Z)
  : option (Z * intel_pipeline) :=
  _ ← assert (cmd_len pipeline + len <? INTEL_PSO_CMD_ENTRIES H);
  let ptr := cmd_len pipeline in
  Some (ptr, set_cmd_len pipeline (cmd_len pipeline + len)).

(** *** Input assembly and rasterizer state *)

Definition pipeline_build_ia (pipeline : intel_pipeline)
    (info : Assembler.intel_pipeline_create_info H)
  : XGL_RESULT * intel_pipeline :=
  let ia := Assembler.ia info in
  let pipeline :=
    match Xgl.provokingVertex ia with
    | XGL_PROVOKING_VERTEX_FIRST =>
        set_ia pipeline (Xgl.topology ia) (Xgl.disableVertexReuse ia) 0 1 0
    | _ =>
        set_ia pipeline (Xgl.topology ia) (Xgl.disableVertexReuse ia) 2 2 1
    end in
  let restart (pipeline : intel_pipeline) : XGL_RESULT * intel_pipeline :=
    if Xgl.primitiveRestartEnable ia
    then (XGL_SUCCESS,
          set_primitive_restart_index (set_primitive_restart pipeline true)
            (Xgl.primitiveRestartIndex ia))
    else (XGL_SUCCESS, set_primitive_restart pipeline false) in
  match Xgl.topology ia with
  | XGL_TOPOLOGY_POINT_LIST => restart (set_prim_type pipeline GEN6_3DPRIM_POINTLIST)
  | XGL_TOPOLOGY_LINE_LIST => restart (set_prim_type pipeline GEN6_3DPRIM_LINELIST)
  | XGL_TOPOLOGY_LINE_STRIP => restart (set_prim_type pipeline GEN6_3DPRIM_LINESTRIP)
  | XGL_TOPOLOGY_TRIANGLE_LIST => restart (set_prim_type pipeline GEN6_3DPRIM_TRILIST)
  | XGL_TOPOLOGY_TRIANGLE_STRIP => restart (set_prim_type pipeline GEN6_3DPRIM_TRISTRIP)
  | XGL_TOPOLOGY_RECT_LIST => restart (set_prim_type pipeline GEN6_3DPRIM_RECTLIST)
  | XGL_TOPOLOGY_QUAD_LIST => restart (set_prim_type pipeline GEN6_3DPRIM_QUADLIST)
  | XGL_TOPOLOGY_QUAD_STRIP => restart (set_prim_type pipeline GEN6_3DPRIM_QUADSTRIP)
  | XGL_TOPOLOGY_LINE_LIST_ADJ => restart (set_prim_type pipeline GEN6_3DPRIM_LINELIST_ADJ)
  | XGL_TOPOLOGY_LINE_STRIP_ADJ => restart (set_prim_type pipeline GEN6_3DPRIM_LINESTRIP_ADJ)
  | XGL_TOPOLOGY_TRIANGLE_LIST_ADJ => restart (set_prim_type pipeline GEN6_3DPRIM_TRILIST_ADJ)
  | XGL_TOPOLOGY_TRIANGLE_STRIP_ADJ => restart (set_prim_type pipeline GEN6_3DPRIM_TRISTRIP_ADJ)
  | XGL_TOPOLOGY_PATCH =>
      let patchControlPoints := Xgl.patchControlPoints (Assembler.tess info) in
      if (patchControlPoints =? 0) || (patchControlPoints >? 32)
      then (XGL_ERROR_BAD_PIPELINE_DATA, pipeline)
      else restart (set_prim_type pipeline
                      (GEN7_3DPRIM_PATCHLIST_1_plus (patchControlPoints - 1)))
  | XGL_TOPOLOGY_other _ => (XGL_ERROR_BAD_PIPELINE_DATA, pipeline)
  end.

Definition pipeline_rs_state (pipeline : intel_pipeline)
    (rs_state : Xgl.XGL_PIPELINE_RS_STATE_CREATE_INFO)
  : XGL_RESULT * intel_pipeline :=
  (XGL_SUCCESS,
   set_rs pipeline (Xgl.depthClipEnable rs_state)
     (Xgl.rasterizerDiscardEnable rs_state) (Xgl.pointSize rs_state)).

(** *** The stage/topology validator *)

(** A C integer used as a condition. *)
Definition truthy (x : Z) : bool := negb (x =? 0).

Definition pipeline_validate (pipeline : intel_pipeline) : XGL_RESULT :=
  let active_shaders := active_shaders pipeline in
  if negb (truthy (Z.land active_shaders (SHADER_VERTEX_FLAG H)))
  then XGL_ERROR_BAD_PIPELINE_DATA
  else if negb (Bool.eqb
                  (Z.land active_shaders (SHADER_TESS_CONTROL_FLAG H) =? 0)
                  (Z.land active_shaders (SHADER_TESS_EVAL_FLAG H) =? 0))
  then XGL_ERROR_BAD_PIPELINE_DATA
  else if truthy (Z.land active_shaders (SHADER_COMPUTE_FLAG H)) &&
          truthy (Z.land active_shaders
                    (Z.lor (Z.lor (Z.lor (Z.lor (SHADER_VERTEX_FLAG H)
                                            (SHADER_TESS_CONTROL_FLAG H))
                                     (SHADER_TESS_EVAL_FLAG H))
                              (SHADER_GEOMETRY_FLAG H))
                       (SHADER_FRAGMENT_FLAG H)))
  then XGL_ERROR_BAD_PIPELINE_DATA
  else if truthy (Z.land active_shaders
                    (Z.lor (SHADER_TESS_CONTROL_FLAG H) (SHADER_TESS_EVAL_FLAG H))) &&
          negb (is_TOPOLOGY_PATCH (topology pipeline))
  then XGL_ERROR_BAD_PIPELINE_DATA
  else if is_TOPOLOGY_PATCH (topology pipeline) &&
          truthy (Z.land active_shaders
                    (Z.lnot (Z.lor (SHADER_TESS_CONTROL_FLAG H)
                               (SHADER_TESS_EVAL_FLAG H))))
  then XGL_ERROR_BAD_PIPELINE_DATA
  else XGL_SUCCESS.

(** *** URB allocation *)

(** [(entry_size + row - 1) / row] in [int] arithmetic, then the
    [if (!alloc_size) alloc_size = 1;] that follows it. *)
Definition urb_alloc_size (row : Z) (entry_size : Z) : Z :=
  let alloc_size := to_int (to_int (to_int (entry_size + row) - 1) ÷ row) in
  if alloc_size =? 0 then 1 else alloc_size.

(** [((in_count >= out_count) ? in_count : out_count)] stored in an
    [int], then [*= sizeof(float) * 4]. *)
Definition entry_size_bytes (count : Z) : Z := to_int (to_int count * (4 * 4)).

Definition vs_slot_count (vs : intel_pipeline_shader) : Z :=
  if in_count vs >=? out_count vs then in_count vs else out_count vs.

(** The values computed by [pipeline_build_urb_alloc_gen6] and
    [pipeline_build_urb_alloc_gen7] before they are packed. *)
Record urb_layout : Type := {
  urb_size : Z;
  urb_offset : Z;
  vs_size : Z;
  gs_size : Z;
  vs_alloc_size : Z;
  gs_alloc_size : Z;
  vs_entry_count : Z;
  gs_entry_count : Z
}.

Definition gen6_urb_size (g : intel_gpu) : Z :=
  to_int ((if gt g =? 2 then 64 else 32) * 1024).

(** Everything in [pipeline_build_urb_alloc_gen6] up to the call of
    [pipeline_cmd_ptr]; [None] where an [assert] fails. *)
Definition urb_layout_gen6 (pipeline : intel_pipeline) : option urb_layout :=
  let gpu := gpu (dev pipeline) in
  let urb_size := gen6_urb_size gpu in
  _ ← INTEL_GPU_ASSERT gpu (INTEL_GEN_6 H) (INTEL_GEN_6 H);
  let vs_entry_size := entry_size_bytes (vs_slot_count (vs pipeline)) in
  let gs_entry_size := entry_size_bytes (out_count (gs pipeline)) in
  let '(vs_size, gs_size) :=
    if truthy (Z.land (active_shaders pipeline) (SHADER_GEOMETRY_FLAG H))
    then (urb_size ÷ 2, urb_size ÷ 2)
    else (urb_size, 0) in
  let vs_alloc_size := urb_alloc_size 128 vs_entry_size in
  let gs_alloc_size := urb_alloc_size 128 gs_entry_size in
  _ ← assert ((vs_alloc_size <=? 5) && (gs_alloc_size <=? 5));
  let vs_entry_count := Z.land (vs_size ÷ 128 ÷ vs_alloc_size) (Z.lnot 3) in
  let vs_entry_count := if vs_entry_count >? 256 then 256 else vs_entry_count in
  _ ← assert (vs_entry_count >=? 24);
  let gs_entry_count := Z.land (gs_size ÷ 128 ÷ gs_alloc_size) (Z.lnot 3) in
  let gs_entry_count := if gs_entry_count >? 256 then 256 else gs_entry_count in
  Some {| urb_size := urb_size; urb_offset := 0;
          vs_size := vs_size; gs_size := gs_size;
          vs_alloc_size := vs_alloc_size; gs_alloc_size := gs_alloc_size;
          vs_entry_count := vs_entry_count; gs_entry_count := gs_entry_count |}.

Definition pipeline_build_urb_alloc_gen6 (pipeline : intel_pipeline)
  : option intel_pipeline :=
  u ← urb_layout_gen6 pipeline;
  let cmd_len := 3 in
  let dw0 := Z.lor (RENDER_CMD_3D H GEN6_3DSTATE_URB) (cmd_len - 2) in
  '(dw, pipeline) ← pipeline_cmd_ptr pipeline cmd_len;
  let pipeline := store pipeline dw 0 dw0 in
  let pipeline :=
    store pipeline dw 1
      (Z.lor (Z.shiftl (vs_alloc_size u - 1) (GEN6_URB_DW1_VS_ENTRY_SIZE__SHIFT H))
             (Z.shiftl (vs_entry_count u) (GEN6_URB_DW1_VS_ENTRY_COUNT__SHIFT H))) in
  let pipeline :=
    store pipeline dw 2
      (Z.lor (Z.shiftl (gs_entry_count u) (GEN6_URB_DW2_GS_ENTRY_COUNT__SHIFT H))
             (Z.shiftl (gs_alloc_size u - 1) (GEN6_URB_DW2_GS_ENTRY_SIZE__SHIFT H))) in
  Some pipeline.

Definition gen7_urb_size (g : intel_gpu) : Z :=
  to_int ((if gt g =? 3 then 512 else if gt g =? 2 then 256 else 128) * 1024).

Definition gen7_urb_offset (g : intel_gpu) : Z :=
  to_int ((if gt g =? 3 then 32 else 16) * 1024).

(** [vs_alloc_size] of the newer generation, with the banking rule. *)
Definition gen7_vs_alloc_size (vs_entry_size : Z) : Z :=
  let vs_alloc_size := urb_alloc_size 64 vs_entry_size in
  if vs_alloc_size =? 5 then 6 else vs_alloc_size.

Definition gen7_gs_alloc_size (gs_entry_size : Z) : Z :=
  urb_alloc_size 64 gs_entry_size.

(** The two tables of maximal entry counts: [(max_vs_entry_count,
    max_gs_entry_count)]. *)
Definition gen7_max_entry_counts (g : intel_gpu) : Z * Z :=
  if gpu_gen g >=? INTEL_GEN_7_5 H
  then (if gt g >=? 2 then 1664 else 640, if gt g >=? 2 then 640 else 256)
  else (if gt g =? 2 then 704 else 512, if gt g =? 2 then 320 else 192).

Definition urb_layout_gen7 (pipeline : intel_pipeline) : option urb_layout :=
  let gpu := gpu (dev pipeline) in
  let urb_size := gen7_urb_size gpu in
  let urb_offset := gen7_urb_offset gpu in
  _ ← INTEL_GPU_ASSERT gpu (INTEL_GEN_7 H) (INTEL_GEN_7_5 H);
  let vs_entry_size := entry_size_bytes (vs_slot_count (vs pipeline)) in
  let gs_entry_size := entry_size_bytes (out_count (gs pipeline)) in
  let '(vs_size, gs_size) :=
    if truthy (Z.land (active_shaders pipeline) (SHADER_GEOMETRY_FLAG H))
    then (to_int (urb_size - urb_offset) ÷ 2, to_int (urb_size - urb_offset) ÷ 2)
    else (to_int (urb_size - urb_offset), 0) in
  let vs_alloc_size := gen7_vs_alloc_size vs_entry_size in
  let gs_alloc_size := gen7_gs_alloc_size gs_entry_size in
  let vs_entry_count := Z.land (vs_size ÷ 64 ÷ vs_alloc_size) (Z.lnot 7) in
  _ ← assert (vs_entry_count >=? 32);
  let gs_entry_count := Z.land (gs_size ÷ 64 ÷ gs_alloc_size) (Z.lnot 7) in
  let '(max_vs_entry_count, max_gs_entry_count) := gen7_max_entry_counts gpu in
  let vs_entry_count :=
    if vs_entry_count >=? max_vs_entry_count then max_vs_entry_count
    else vs_entry_count in
  let gs_entry_count :=
    if gs_entry_count >=? max_gs_entry_count then max_gs_entry_count
    else gs_entry_count in
  Some {| urb_size := urb_size; urb_offset := urb_offset;
          vs_size := vs_size; gs_size := gs_size;
          vs_alloc_size := vs_alloc_size; gs_alloc_size := gs_alloc_size;
          vs_entry_count := vs_entry_count; gs_entry_count := gs_entry_count |}.

Definition pipeline_build_urb_alloc_gen7 (pipeline : intel_pipeline)
  : option intel_pipeline :=
  u ← urb_layout_gen7 pipeline;
  let cmd_len := 2 in
  let urb_offset := urb_offset u in
  '(dw, pipeline) ← pipeline_cmd_ptr pipeline (cmd_len * 4);
  let pipeline :=
    store pipeline dw 0 (Z.lor (RENDER_CMD_3D H GEN7_3DSTATE_URB_VS) (cmd_len - 2)) in
  let pipeline :=
    store pipeline dw 1
      (Z.lor (Z.lor (Z.shiftl (urb_offset ÷ 8192) (GEN7_URB_ANY_DW1_OFFSET__SHIFT H))
                    (Z.shiftl (vs_alloc_size u - 1)
                       (GEN7_URB_ANY_DW1_ENTRY_SIZE__SHIFT H)))
             (vs_entry_count u)) in
  let dw := dw + 2 in
  let urb_offset :=
    if truthy (gs_size u) then to_int (urb_offset + vs_size u) else urb_offset in
  let pipeline :=
    store pipeline dw 0 (Z.lor (RENDER_CMD_3D H GEN7_3DSTATE_URB_GS) (cmd_len - 2)) in
  let pipeline :=
    store pipeline dw 1
      (Z.lor (Z.lor (Z.shiftl (urb_offset ÷ 8192) (GEN7_URB_ANY_DW1_OFFSET__SHIFT H))
                    (Z.shiftl (gs_alloc_size u - 1)
                       (GEN7_URB_ANY_DW1_ENTRY_SIZE__SHIFT H)))
             (gs_entry_count u)) in
  let dw := dw + 2 in
  let pipeline :=
    store pipeline dw 0 (Z.lor (RENDER_CMD_3D H GEN7_3DSTATE_URB_HS) (cmd_len - 2)) in
  let pipeline :=
    store pipeline dw 1
      (Z.shiftl (urb_offset ÷ 8192) (GEN7_URB_ANY_DW1_OFFSET__SHIFT H)) in
  let dw := dw + 2 in
  let pipeline :=
    store pipeline dw 0 (Z.lor (RENDER_CMD_3D H GEN7_3DSTATE_URB_DS) (cmd_len - 2)) in
  let pipeline :=
    store pipeline dw 1
      (Z.shiftl (urb_offset ÷ 8192) (GEN7_URB_ANY_DW1_OFFSET__SHIFT H)) in
  Some pipeline.

(** *** Push-constant allocation *)

(** The [dw[1]] of a [3DSTATE_PUSH_CONSTANT_ALLOC_x]. *)
Definition pcb_alloc_dw1 (offset size : Z) : Z :=
  Z.lor (Z.shiftl offset (GEN7_PCB_ALLOC_ANY_DW1_OFFSET__SHIFT H))
        (Z.shiftl size (GEN7_PCB_ALLOC_ANY_DW1_SIZE__SHIFT H)).

(** The [(offset, size)] in KiB that the function arrives at, starting
    from its locals [offset = 0] and [size = 8192]. Each branch that the C
    code guards with an [assert] that cannot hold is a fatal stop. *)
Definition push_const_offset_size : option (Z * Z) :=
  let offset := 0 in
  let size := 8192 in
  let end_ := to_int (to_uint32 (offset + size) / 1024) in
  _ ← assert (negb (end_ >? 16));
  let offset := to_uint32 (offset + 1023) / 1024 in
  _ ← assert (negb (offset >? 15));
  _ ← assert (negb (offset >? to_uint32 end_) || (size =? 0));
  let offset := if offset >? to_uint32 end_ then to_uint32 end_ else offset in
  let size := to_uint32 (end_ - offset) in
  _ ← assert (negb (size >? 15));
  Some (offset, size).

Definition pipeline_build_push_const_alloc_gen7 (pipeline : intel_pipeline)
  : option intel_pipeline :=
  let cmd_len := 2 in
  _ ← INTEL_GPU_ASSERT (gpu (dev pipeline)) (INTEL_GEN_7 H) (INTEL_GEN_7_5 H);
  '(offset, size) ← push_const_offset_size;
  '(dw, pipeline) ← pipeline_cmd_ptr pipeline (cmd_len * 5);
  let pipeline :=
    store pipeline dw 0
      (Z.lor (RENDER_CMD_3D H GEN7_3DSTATE_PUSH_CONSTANT_ALLOC_VS) (cmd_len - 2)) in
  let pipeline := store pipeline dw 1 (pcb_alloc_dw1 offset size) in
  let dw := dw + 2 in
  let pipeline :=
    store pipeline dw 0
      (Z.lor (RENDER_CMD_3D H GEN7_3DSTATE_PUSH_CONSTANT_ALLOC_PS) (cmd_len - 2)) in
  let pipeline := store pipeline dw 1 (pcb_alloc_dw1 size size) in
  let dw := dw + 2 in
  let pipeline :=
    store pipeline dw 0
      (Z.lor (RENDER_CMD_3D H GEN7_3DSTATE_PUSH_CONSTANT_ALLOC_HS) (cmd_len - 2)) in
  let pipeline := store pipeline dw 1 (pcb_alloc_dw1 0 0) in
  let dw := dw + 2 in
  let pipeline :=
    store pipeline dw 0
      (Z.lor (RENDER_CMD_3D H GEN7_3DSTATE_PUSH_CONSTANT_ALLOC_DS) (cmd_len - 2)) in
  let pipeline := store pipeline dw 1 (pcb_alloc_dw1 0 0) in
  let dw := dw + 2 in
  let pipeline :=
    store pipeline dw 0
      (Z.lor (RENDER_CMD_3D H GEN7_3DSTATE_PUSH_CONSTANT_ALLOC_GS) (cmd_len - 2)) in
  let pipeline := store pipeline dw 1 (pcb_alloc_dw1 0 0) in
  Some pipeline.

(** *** Vertex elements *)

(** [int comps[4]], holding component controls. *)
Record comps_t : Type := {
  comps0 : vfcomp; comps1 : vfcomp; comps2 : vfcomp; comps3 : vfcomp
}.

(** The labels of the [switch] on the channel count, each falling
    through to the next. *)
Definition case_1 (c : comps_t) : comps_t :=
  {| comps0 := GEN6_VFCOMP_STORE_SRC; comps1 := comps1 c;
     comps2 := comps2 c; comps3 := comps3 c |}.
Definition case_2 (c : comps_t) : comps_t :=
  case_1 {| comps0 := comps0 c; comps1 := GEN6_VFCOMP_STORE_SRC;
            comps2 := comps2 c; comps3 := comps3 c |}.
Definition case_3 (c : comps_t) : comps_t :=
  case_2 {| comps0 := comps0 c; comps1 := comps1 c;
            comps2 := GEN6_VFCOMP_STORE_SRC; comps3 := comps3 c |}.
Definition case_4 (c : comps_t) : comps_t :=
  case_3 {| comps0 := comps0 c; comps1 := comps1 c;
            comps2 := comps2 c; comps3 := GEN6_VFCOMP_STORE_SRC |}.

Definition attr_comps (attr : Xgl.XGL_VERTEX_INPUT_ATTRIBUTE_DESCRIPTION H) : comps_t :=
  let comps :=
    {| comps0 := GEN6_VFCOMP_STORE_0;
       comps1 := GEN6_VFCOMP_STORE_0;
       comps2 := GEN6_VFCOMP_STORE_0;
       comps3 := if icd_format_is_int H (Xgl.format attr)
                 then GEN6_VFCOMP_STORE_1_INT else GEN6_VFCOMP_STORE_1_FP |} in
  let n := icd_format_get_channel_count H (Xgl.format attr) in
  if n =? 4 then case_4 comps
  else if n =? 3 then case_3 comps
  else if n =? 2 then case_2 comps
  else if n =? 1 then case_1 comps
  else comps.

(** The [dw[1]] of a VERTEX_ELEMENT_STATE. *)
Definition ve_dw1 (comps : comps_t) : Z :=
  Z.lor (Z.lor (Z.lor
    (Z.shiftl (VFCOMP H (comps0 comps)) (GEN6_VE_STATE_DW1_COMP0__SHIFT H))
    (Z.shiftl (VFCOMP H (comps1 comps)) (GEN6_VE_STATE_DW1_COMP1__SHIFT H)))
    (Z.shiftl (VFCOMP H (comps2 comps)) (GEN6_VE_STATE_DW1_COMP2__SHIFT H)))
    (Z.shiftl (VFCOMP H (comps3 comps)) (GEN6_VE_STATE_DW1_COMP3__SHIFT H)).

Definition ve_dw0 (g : intel_gpu) (attr : Xgl.XGL_VERTEX_INPUT_ATTRIBUTE_DESCRIPTION H) : Z :=
  let format := intel_format_translate_color H g (Xgl.format attr) in
  Z.lor (Z.lor (Z.lor
    (Z.shiftl (Xgl.binding attr) (GEN6_VE_STATE_DW0_VB_INDEX__SHIFT H))
    (GEN6_VE_STATE_DW0_VALID H))
    (Z.shiftl format (GEN6_VE_STATE_DW0_FORMAT__SHIFT H)))
    (Xgl.offsetInBytes attr).

(** The [for] loop over the attributes still to encode; [dw] is the
    index the pointer has reached. *)
Fixpoint vertex_elements_loop
    (attrs : list (Xgl.XGL_VERTEX_INPUT_ATTRIBUTE_DESCRIPTION H))
    (dw : Z) (pipeline : intel_pipeline) : option (Z * intel_pipeline) :=
  match attrs with
  | [] => Some (dw, pipeline)
  | attr :: attrs' =>
      _ ← assert (Xgl.offsetInBytes attr <=? 2047);
      let pipeline := store pipeline dw 0 (ve_dw0 (gpu (dev pipeline)) attr) in
      let pipeline := store pipeline dw 1 (ve_dw1 (attr_comps attr)) in
      vertex_elements_loop attrs' (dw + 2) pipeline
  end.

Definition uses_vid_or_iid (vs : intel_pipeline_shader) : bool :=
  truthy (Z.land (uses vs) (Z.lor (INTEL_SHADER_USE_VID H) (INTEL_SHADER_USE_IID H))).

Definition pipeline_build_vertex_elements (pipeline : intel_pipeline)
    (info : Assembler.intel_pipeline_create_info H) : option intel_pipeline :=
  let vs := vs pipeline in
  let vi := Assembler.vi info in
  _ ← INTEL_GPU_ASSERT (gpu (dev pipeline)) (INTEL_GEN_6 H) (INTEL_GEN_7_5 H);
  let cmd_len := to_uint8 (1 + 2 * Xgl.attributeCount vi) in
  let cmd_len := if uses_vid_or_iid vs then to_uint8 (cmd_len + 2) else cmd_len in
  if cmd_len =? 1 then Some pipeline
  else
    '(dw, pipeline) ← pipeline_cmd_ptr pipeline cmd_len;
    let pipeline :=
      store pipeline dw 0
        (Z.lor (RENDER_CMD_3D H GEN6_3DSTATE_VERTEX_ELEMENTS) (cmd_len - 2)) in
    let dw := dw + 1 in
    '(dw, pipeline) ←
      vertex_elements_loop
        (take (Z.to_nat (Xgl.attributeCount vi)) (Xgl.pVertexAttributeDescriptions vi))
        dw pipeline;
    if uses_vid_or_iid vs then
      let comps :=
        {| comps0 := if truthy (Z.land (uses vs) (INTEL_SHADER_USE_VID H))
                     then GEN6_VFCOMP_STORE_VID else GEN6_VFCOMP_STORE_0;
           comps1 := if truthy (Z.land (uses vs) (INTEL_SHADER_USE_IID H))
                     then GEN6_VFCOMP_STORE_IID else GEN6_VFCOMP_NOSTORE;
           comps2 := GEN6_VFCOMP_NOSTORE;
           comps3 := GEN6_VFCOMP_NOSTORE |} in
      let pipeline := store pipeline dw 0 (GEN6_VE_STATE_DW0_VALID H) in
      let pipeline := store pipeline dw 1 (ve_dw1 comps) in
      Some pipeline
    else Some pipeline.

(** *** Fixed-function stubs of the newer generation *)

Definition pipeline_build_gs (pipeline : intel_pipeline) : option intel_pipeline :=
  Some pipeline.

(** [dw[k] = 0] for [k] from [1] to [n]. *)
Fixpoint store_zeros (pipeline : intel_pipeline) (dw : Z) (n : nat) : intel_pipeline :=
  match n with
  | O => pipeline
  | S n' => store (store_zeros pipeline dw n') dw (Z.of_nat n) 0
  end.

Definition build_zero_cmd (op : render_cmd) (cmd_len : Z) (pipeline : intel_pipeline)
  : option intel_pipeline :=
  let dw0 := Z.lor (RENDER_CMD_3D H op) (cmd_len - 2) in
  _ ← INTEL_GPU_ASSERT (gpu (dev pipeline)) (INTEL_GEN_7 H) (INTEL_GEN_7_5 H);
  '(dw, pipeline) ← pipeline_cmd_ptr pipeline cmd_len;
  let pipeline := store pipeline dw 0 dw0 in
  Some (store_zeros pipeline dw (Z.to_nat (cmd_len - 1))).

Definition pipeline_build_hs : intel_pipeline -> option intel_pipeline :=
  build_zero_cmd GEN7_3DSTATE_HS 7.
Definition pipeline_build_te : intel_pipeline -> option intel_pipeline :=
  build_zero_cmd GEN7_3DSTATE_TE 4.
Definition pipeline_build_ds : intel_pipeline -> option intel_pipeline :=
  build_zero_cmd GEN7_3DSTATE_DS 6.

(** *** The build *)

Section Collaborators.
(** [pipeline_build_shaders] lives in another file, and the object
    allocator [intel_base_create] in a third: the first resolves the
    shader stages of the pipeline, the second returns a fresh object or
    [None] for a null pointer. [zeroed] is a descriptor filled with
    zero bytes. *)
Variable pipeline_build_shaders :
  intel_pipeline -> Assembler.intel_pipeline_create_info H ->
  XGL_RESULT * intel_pipeline.
Variable intel_base_create : intel_dev -> option intel_pipeline.
Variable zeroed : Assembler.intel_pipeline_create_info H.

Definition wa_flags_gen7 : Z :=
  Z.lor (Z.lor (Z.lor (Z.lor
    (INTEL_CMD_WA_GEN6_PRE_DEPTH_STALL_WRITE H)
    (INTEL_CMD_WA_GEN6_PRE_COMMAND_SCOREBOARD_STALL H))
    (INTEL_CMD_WA_GEN7_PRE_VS_DEPTH_STALL_WRITE H))
    (INTEL_CMD_WA_GEN7_POST_COMMAND_CS_STALL H))
    (INTEL_CMD_WA_GEN7_POST_COMMAND_DEPTH_STALL H).

Definition wa_flags_gen6 : Z :=
  Z.lor (INTEL_CMD_WA_GEN6_PRE_DEPTH_STALL_WRITE H)
        (INTEL_CMD_WA_GEN6_PRE_COMMAND_SCOREBOARD_STALL H).

(** [None]: an [assert] stopped the process. *)
Definition pipeline_build_all (pipeline : intel_pipeline)
    (info : Assembler.intel_pipeline_create_info H)
  : option (XGL_RESULT * intel_pipeline) :=
  let '(ret, pipeline) := pipeline_build_shaders pipeline info in
  if negb (XGL_RESULT_eqb ret XGL_SUCCESS) then Some (ret, pipeline)
  else
    let vi := Assembler.vi info in
    if (Xgl.bindingCount vi >? vb_ARRAY_SIZE H) ||
       (Xgl.attributeCount vi >? vb_ARRAY_SIZE H)
    then Some (XGL_ERROR_BAD_PIPELINE_DATA, pipeline)
    else
      let vb_count := Xgl.bindingCount vi in
      let pipeline :=
        set_vb pipeline vb_count
          (take (Z.to_nat vb_count) (Xgl.pVertexBindingDescriptions vi)
             ++ drop (Z.to_nat vb_count) (vb pipeline)) in
      pipeline ← pipeline_build_vertex_elements pipeline info;
      pipeline ←
        (if gpu_gen (gpu (dev pipeline)) >=? INTEL_GEN_7 H then
           pipeline ← pipeline_build_urb_alloc_gen7 pipeline;
           pipeline ← pipeline_build_push_const_alloc_gen7 pipeline;
           pipeline ← pipeline_build_gs pipeline;
           pipeline ← pipeline_build_hs pipeline;
           pipeline ← pipeline_build_te pipeline;
           pipeline ← pipeline_build_ds pipeline;
           Some (set_wa_flags pipeline wa_flags_gen7)
         else
           pipeline ← pipeline_build_urb_alloc_gen6 pipeline;
           Some (set_wa_flags pipeline wa_flags_gen6));
      let '(ret, pipeline) := pipeline_build_ia pipeline info in
      let '(ret, pipeline) :=
        if XGL_RESULT_eqb ret XGL_SUCCESS
        then pipeline_rs_state pipeline (Assembler.rs info)
        else (ret, pipeline) in
      if XGL_RESULT_eqb ret XGL_SUCCESS
      then Some (ret,
                 set_fixed_state pipeline
                   (Xgl.db_format (Assembler.db info))
                   (Assembler.cb info) (Assembler.tess info))
      else Some (ret, pipeline).

(** How [graphics_pipeline_create] ends, by the [return] taken. *)
Inductive create_outcome : Type :=
| Rejected_by_info_init (ret : XGL_RESULT)
    (** the first [return ret]: no object was allocated *)
| Out_of_memory
    (** [intel_base_create] gave a null pointer *)
| Destroyed (ret : XGL_RESULT) (pipeline : intel_pipeline)
    (** [pipeline_destroy] ran on the object in this state *)
| Created (pipeline : intel_pipeline).
    (** [*pipeline_ret = pipeline] *)

Definition graphics_pipeline_create (dev : intel_dev)
    (info_ : list (Xgl.intel_pipeline_create_info_header H))
  : option create_outcome :=
  let '(ret, info) := Assembler.pipeline_create_info_init zeroed info_ in
  if negb (XGL_RESULT_eqb ret XGL_SUCCESS) then Some (Rejected_by_info_init ret)
  else
    match intel_base_create dev with
    | None => Some Out_of_memory
    | Some pipeline =>
        let pipeline := set_dev pipeline dev in
        '(ret, pipeline) ← pipeline_build_all pipeline info;
        let ret :=
          if XGL_RESULT_eqb ret XGL_SUCCESS then pipeline_validate pipeline
          else ret in
        if negb (XGL_RESULT_eqb ret XGL_SUCCESS)
        then Some (Destroyed ret pipeline)
        else Some (Created pipeline)
    end.

(** The value returned to the caller, and what [*pipeline_ret]
    receives. *)
Definition create_result (o : create_outcome) : XGL_RESULT :=
  match o with
  | Rejected_by_info_init ret => ret
  | Out_of_memory => XGL_ERROR_OUT_OF_MEMORY
  | Destroyed ret _ => ret
  | Created _ => XGL_SUCCESS
  end.

Definition pipeline_ret (o : create_outcome) : option intel_pipeline :=
  match o with
  | Created pipeline => Some pipeline
  | _ => None
  end.

(** The number of command words written into an object by the time
    the function returns; none where no object was allocated. *)
Definition words_emitted (o : create_outcome) : Z :=
  match o with
  | Destroyed _ pipeline | Created pipeline => cmd_len pipeline
  | _ => 0
  end.

End Collaborators.

End WithHeaders.

Arguments dev {H}.
Arguments cmds {H}.
Arguments cmd_len {H}.
Arguments topology {H}.
Arguments disable_vs_cache {H}.
Arguments provoking_vertex_tri {H}.
Arguments provoking_vertex_trifan {H}.
Arguments provoking_vertex_line {H}.
Arguments prim_type {H}.
Arguments primitive_restart {H}.
Arguments primitive_restart_index {H}.
Arguments depthClipEnable {H}.
Arguments rasterizerDiscardEnable {H}.
Arguments pointSize {H}.
Arguments active_shaders {H}.
Arguments vs {H}.
Arguments gs {H}.
Arguments vb_count {H}.
Arguments vb {H}.
Arguments wa_flags {H}.
Arguments db_format {H}.
Arguments cb_state {H}.
Arguments tess_state {H}.
Arguments set_cmds {H}.
Arguments set_cmd_len {H}.
Arguments set_dev {H}.
Arguments set_ia {H}.
Arguments set_prim_type {H}.
Arguments set_primitive_restart {H}.
Arguments set_primitive_restart_index {H}.
Arguments set_rs {H}.
Arguments set_vb {H}.
Arguments set_wa_flags {H}.
Arguments set_fixed_state {H}.
Arguments store {H}.
Arguments pipeline_cmd_ptr {H}.
Arguments pipeline_build_ia {H}.
Arguments pipeline_rs_state {H}.
Arguments pipeline_validate {H}.
Arguments urb_layout_gen6 {H}.
Arguments pipeline_build_urb_alloc_gen6 {H}.
Arguments urb_layout_gen7 {H}.
Arguments pipeline_build_urb_alloc_gen7 {H}.
Arguments pipeline_build_push_const_alloc_gen7 {H}.
Arguments attr_comps {H}.
Arguments ve_dw0 {H}.
Arguments vertex_elements_loop {H}.
Arguments pipeline_build_vertex_elements {H}.
Arguments pipeline_build_gs {H}.
Arguments store_zeros {H}.
Arguments build_zero_cmd {H}.
Arguments pipeline_build_hs {H}.
Arguments pipeline_build_te {H}.
Arguments pipeline_build_ds {H}.
Arguments pipeline_build_all {H}.
Arguments graphics_pipeline_create {H}.
Arguments create_result {H}.
Arguments pipeline_ret {H}.
Arguments words_emitted {H}.
Arguments Rejected_by_info_init {H}.
Arguments Out_of_memory {H}.
Arguments Destroyed {H}.
Arguments Created {H}.

End Pipeline.

(** ** A concrete set of headers

    One bit per stage in the order of the stage enumerators, the field
    positions of the two hardware generations, formats named by their
    channel count and integer-ness. Used to run the definitions. *)

Module Sample.

Record sample_format : Type := { channels : Z; is_int : bool }.

Definition render_cmd_3d (op : render_cmd) : Z :=
  let '(opcode, subopcode) :=
    match op with
    | GEN6_3DSTATE_URB => (0, 5)
    | GEN6_3DSTATE_VERTEX_ELEMENTS => (0, 9)
    | GEN7_3DSTATE_URB_VS => (0, 48)
    | GEN7_3DSTATE_URB_HS => (0, 49)
    | GEN7_3DSTATE_URB_DS => (0, 50)
    | GEN7_3DSTATE_URB_GS => (0, 51)
    | GEN7_3DSTATE_PUSH_CONSTANT_ALLOC_VS => (1, 18)
    | GEN7_3DSTATE_PUSH_CONSTANT_ALLOC_HS => (1, 19)
    | GEN7_3DSTATE_PUSH_CONSTANT_ALLOC_DS => (1, 20)
    | GEN7_3DSTATE_PUSH_CONSTANT_ALLOC_GS => (1, 21)
    | GEN7_3DSTATE_PUSH_CONSTANT_ALLOC_PS => (1, 22)
    | GEN7_3DSTATE_HS => (0, 27)
    | GEN7_3DSTATE_TE => (0, 28)
    | GEN7_3DSTATE_DS => (0, 29)
    end in
  Z.lor (Z.lor (Z.lor (Z.shiftl 3 29) (Z.shiftl 3 27)) (Z.shiftl opcode 24))
        (Z.shiftl subopcode 16).

Definition vfcomp_code (c : vfcomp) : Z :=
  match c with
  | GEN6_VFCOMP_NOSTORE => 0
  | GEN6_VFCOMP_STORE_SRC => 1
  | GEN6_VFCOMP_STORE_0 => 2
  | GEN6_VFCOMP_STORE_1_FP => 3
  | GEN6_VFCOMP_STORE_1_INT => 4
  | GEN6_VFCOMP_STORE_VID => 5
  | GEN6_VFCOMP_STORE_IID => 6
  end.

Definition headers : Headers := {|
  XGL_FORMAT := sample_format;
  XGL_SHADER := Z;
  XGL_GRAPHICS_PIPELINE_CREATE_INFO := Z;
  XGL_COMPUTE_PIPELINE_CREATE_INFO := Z;
  XGL_PIPELINE_CB_STATE := Z;
  XGL_VERTEX_INPUT_BINDING_DESCRIPTION := Z;
  INTEL_GEN_6 := 600;
  INTEL_GEN_7 := 700;
  INTEL_GEN_7_5 := 750;
  icd_format_is_int := is_int;
  icd_format_get_channel_count := channels;
  intel_format_translate_color := fun _ f => channels f;
  INTEL_PSO_CMD_ENTRIES := 128;
  vb_ARRAY_SIZE := 32;
  SHADER_VERTEX_FLAG := Z.shiftl 1 0;
  SHADER_TESS_CONTROL_FLAG := Z.shiftl 1 1;
  SHADER_TESS_EVAL_FLAG := Z.shiftl 1 2;
  SHADER_GEOMETRY_FLAG := Z.shiftl 1 3;
  SHADER_FRAGMENT_FLAG := Z.shiftl 1 4;
  SHADER_COMPUTE_FLAG := Z.shiftl 1 5;
  INTEL_SHADER_USE_VID := Z.shiftl 1 0;
  INTEL_SHADER_USE_IID := Z.shiftl 1 1;
  INTEL_CMD_WA_GEN6_PRE_DEPTH_STALL_WRITE := Z.shiftl 1 0;
  INTEL_CMD_WA_GEN6_PRE_COMMAND_SCOREBOARD_STALL := Z.shiftl 1 1;
  INTEL_CMD_WA_GEN7_PRE_VS_DEPTH_STALL_WRITE := Z.shiftl 1 2;
  INTEL_CMD_WA_GEN7_POST_COMMAND_CS_STALL := Z.shiftl 1 3;
  INTEL_CMD_WA_GEN7_POST_COMMAND_DEPTH_STALL := Z.shiftl 1 4;
  RENDER_CMD_3D := render_cmd_3d;
  VFCOMP := vfcomp_code;
  GEN6_URB_DW1_VS_ENTRY_SIZE__SHIFT := 16;
  GEN6_URB_DW1_VS_ENTRY_COUNT__SHIFT := 0;
  GEN6_URB_DW2_GS_ENTRY_COUNT__SHIFT := 8;
  GEN6_URB_DW2_GS_ENTRY_SIZE__SHIFT := 0;
  GEN7_URB_ANY_DW1_OFFSET__SHIFT := 25;
  GEN7_URB_ANY_DW1_ENTRY_SIZE__SHIFT := 16;
  GEN7_PCB_ALLOC_ANY_DW1_OFFSET__SHIFT := 16;
  GEN7_PCB_ALLOC_ANY_DW1_SIZE__SHIFT := 0;
  GEN6_VE_STATE_DW0_VB_INDEX__SHIFT := 26;
  GEN6_VE_STATE_DW0_VALID := Z.shiftl 1 25;
  GEN6_VE_STATE_DW0_FORMAT__SHIFT := 16;
  GEN6_VE_STATE_DW1_COMP0__SHIFT := 28;
  GEN6_VE_STATE_DW1_COMP1__SHIFT := 24;
  GEN6_VE_STATE_DW1_COMP2__SHIFT := 20;
  GEN6_VE_STATE_DW1_COMP3__SHIFT := 16
|}.

Definition shader_none : Pipeline.intel_pipeline_shader :=
  {| Pipeline.in_count := 0; Pipeline.out_count := 0; Pipeline.uses := 0 |}.

(** An object for a device with [n] command words of which [len] are in
    use, the given active stages, topology and resolved vertex and geometry
    stages, and every other field zero. *)
Definition pipeline_of (g : intel_gpu) (n : nat) (len : Z) (active : Z)
    (t : XGL_PRIMITIVE_TOPOLOGY) (vs gs : Pipeline.intel_pipeline_shader)
  : Pipeline.intel_pipeline headers :=
  {| Pipeline.dev := {| Pipeline.gpu := g |};
     Pipeline.cmds := replicate n 0;
     Pipeline.cmd_len := len;
     Pipeline.topology := t;
     Pipeline.disable_vs_cache := false;
     Pipeline.provoking_vertex_tri := 0;
     Pipeline.provoking_vertex_trifan := 0;
     Pipeline.provoking_vertex_line := 0;
     Pipeline.prim_type := GEN6_3DPRIM_POINTLIST;
     Pipeline.primitive_restart := false;
     Pipeline.primitive_restart_index := 0;
     Pipeline.depthClipEnable := false;
     Pipeline.rasterizerDiscardEnable := false;
     Pipeline.pointSize := 0;
     Pipeline.active_shaders := active;
     Pipeline.vs := vs;
     Pipeline.gs := gs;
     Pipeline.vb_count := 0;
     Pipeline.vb := ([] : list (XGL_VERTEX_INPUT_BINDING_DESCRIPTION headers));
     Pipeline.wa_flags := 0;
     Pipeline.db_format := ({| channels := 0; is_int := false |} : XGL_FORMAT headers);
     Pipeline.cb_state := (0 : XGL_PIPELINE_CB_STATE headers);
     Pipeline.tess_state := {| Xgl.patchControlPoints := 0; Xgl.optimalTessFactor := 0 |} |}.

(** A fresh object: nothing in use, no stage active. *)
Definition fresh_pipeline (g : intel_gpu) (n : nat) : Pipeline.intel_pipeline headers :=
  pipeline_of g n 0 0 (XGL_TOPOLOGY_other 0) shader_none shader_none.

(** A descriptor of zero bytes, with the first enumerator of each
    enumeration for its zero. *)
Definition shader_zero : Xgl.XGL_PIPELINE_SHADER headers :=
  {| Xgl.stage := XGL_SHADER_STAGE_VERTEX; Xgl.shader := (0 : XGL_SHADER headers) |}.

Definition zeroed : Assembler.intel_pipeline_create_info headers :=
  {| Assembler.graphics := (0 : XGL_GRAPHICS_PIPELINE_CREATE_INFO headers);
     Assembler.vi :=
       {| Xgl.bindingCount := 0; Xgl.pVertexBindingDescriptions := [];
          Xgl.attributeCount := 0; Xgl.pVertexAttributeDescriptions := [] |};
     Assembler.ia :=
       {| Xgl.topology := XGL_TOPOLOGY_POINT_LIST; Xgl.disableVertexReuse := false;
          Xgl.provokingVertex := XGL_PROVOKING_VERTEX_FIRST;
          Xgl.primitiveRestartEnable := false; Xgl.primitiveRestartIndex := 0 |};
     Assembler.db := {| Xgl.db_format := ({| channels := 0; is_int := false |}
                                            : XGL_FORMAT headers) |};
     Assembler.cb := (0 : XGL_PIPELINE_CB_STATE headers);
     Assembler.rs :=
       {| Xgl.depthClipEnable := false; Xgl.rasterizerDiscardEnable := false;
          Xgl.pointSize := 0 |};
     Assembler.tess := {| Xgl.patchControlPoints := 0; Xgl.optimalTessFactor := 0 |};
     Assembler.vs := shader_zero;
     Assembler.tcs := shader_zero;
     Assembler.tes := shader_zero;
     Assembler.gs := shader_zero;
     Assembler.fs := shader_zero;
     Assembler.compute := (0 : XGL_COMPUTE_PIPELINE_CREATE_INFO headers) |}.

(** A stand-in for the shader compiler: a stage is active when its slot
    holds a shader other than 0; the vertex stage reads nothing and writes
    four slots. *)
Definition resolve_shaders (pipeline : Pipeline.intel_pipeline headers)
    (info : Assembler.intel_pipeline_create_info headers)
  : XGL_RESULT * Pipeline.intel_pipeline headers :=
  let flag (sh : Xgl.XGL_PIPELINE_SHADER headers) (f : Z) : Z :=
    if (Xgl.shader sh : Z) =? 0 then 0 else f in
  let active :=
    Z.lor (Z.lor (Z.lor (Z.lor
      (flag (Assembler.vs info) (SHADER_VERTEX_FLAG headers))
      (flag (Assembler.tcs info) (SHADER_TESS_CONTROL_FLAG headers)))
      (flag (Assembler.tes info) (SHADER_TESS_EVAL_FLAG headers)))
      (flag (Assembler.gs info) (SHADER_GEOMETRY_FLAG headers)))
      (flag (Assembler.fs info) (SHADER_FRAGMENT_FLAG headers)) in
  (XGL_SUCCESS,
   pipeline_of (Pipeline.gpu (Pipeline.dev pipeline))
     (length (Pipeline.cmds pipeline)) (Pipeline.cmd_len pipeline) active
     (Pipeline.topology pipeline)
     {| Pipeline.in_count := 0; Pipeline.out_count := 4; Pipeline.uses := 0 |}
     shader_none).

(** A stand-in for the allocator, which never fails. *)
Definition allocate (dev : Pipeline.intel_dev) : option (Pipeline.intel_pipeline headers) :=
  Some (fresh_pipeline (Pipeline.gpu dev) 128).

(** The fragments of the scenarios. *)
Definition scenario_ia : Xgl.XGL_PIPELINE_IA_STATE_CREATE_INFO :=
  {| Xgl.topology := XGL_TOPOLOGY_TRIANGLE_LIST; Xgl.disableVertexReuse := false;
     Xgl.provokingVertex := XGL_PROVOKING_VERTEX_FIRST;
     Xgl.primitiveRestartEnable := false; Xgl.primitiveRestartIndex := 0 |}.

Definition scenario_vs : Xgl.XGL_PIPELINE_SHADER headers :=
  {| Xgl.stage := XGL_SHADER_STAGE_VERTEX; Xgl.shader := (11 : XGL_SHADER headers) |}.

Definition scenario_fs : Xgl.XGL_PIPELINE_SHADER headers :=
  {| Xgl.stage := XGL_SHADER_STAGE_FRAGMENT; Xgl.shader := (12 : XGL_SHADER headers) |}.

Definition scenario_vi : Xgl.XGL_PIPELINE_VERTEX_INPUT_CREATE_INFO headers :=
  {| Xgl.bindingCount := 0; Xgl.pVertexBindingDescriptions := [];
     Xgl.attributeCount := 0; Xgl.pVertexAttributeDescriptions := [] |}.

Definition scenario_cs : Xgl.XGL_PIPELINE_SHADER headers :=
  {| Xgl.stage := XGL_SHADER_STAGE_COMPUTE; Xgl.shader := (13 : XGL_SHADER headers) |}.

Definition scenario_chain : list (Xgl.intel_pipeline_create_info_header headers) :=
  [ Xgl.XGL_STRUCTURE_TYPE_GRAPHICS_PIPELINE_CREATE_INFO
      (1 : XGL_GRAPHICS_PIPELINE_CREATE_INFO headers);
    Xgl.XGL_STRUCTURE_TYPE_PIPELINE_IA_STATE_CREATE_INFO scenario_ia;
    Xgl.XGL_STRUCTURE_TYPE_PIPELINE_SHADER_STAGE_CREATE_INFO scenario_vs;
    Xgl.XGL_STRUCTURE_TYPE_PIPELINE_SHADER_STAGE_CREATE_INFO scenario_fs;
    Xgl.XGL_STRUCTURE_TYPE_PIPELINE_VERTEX_INPUT_CREATE_INFO scenario_vi ].

(** A tessellation pipeline: vertex, tessellation-control and
    tessellation-evaluation shaders and patches of three control points. *)
Definition tessellation_chain : list (Xgl.intel_pipeline_create_info_header headers) :=
  [ Xgl.XGL_STRUCTURE_TYPE_GRAPHICS_PIPELINE_CREATE_INFO
      (1 : XGL_GRAPHICS_PIPELINE_CREATE_INFO headers);
    Xgl.XGL_STRUCTURE_TYPE_PIPELINE_IA_STATE_CREATE_INFO
      {| Xgl.topology := XGL_TOPOLOGY_PATCH; Xgl.disableVertexReuse := false;
         Xgl.provokingVertex := XGL_PROVOKING_VERTEX_FIRST;
         Xgl.primitiveRestartEnable := false; Xgl.primitiveRestartIndex := 0 |};
    Xgl.XGL_STRUCTURE_TYPE_PIPELINE_TESS_STATE_CREATE_INFO
      {| Xgl.patchControlPoints := 3; Xgl.optimalTessFactor := 0 |};
    Xgl.XGL_STRUCTURE_TYPE_PIPELINE_SHADER_STAGE_CREATE_INFO scenario_vs;
    Xgl.XGL_STRUCTURE_TYPE_PIPELINE_SHADER_STAGE_CREATE_INFO
      {| Xgl.stage := XGL_SHADER_STAGE_TESS_CONTROL;
         Xgl.shader := (14 : XGL_SHADER headers) |};
    Xgl.XGL_STRUCTURE_TYPE_PIPELINE_SHADER_STAGE_CREATE_INFO
      {| Xgl.stage := XGL_SHADER_STAGE_TESS_EVALUATION;
         Xgl.shader := (15 : XGL_SHADER headers) |};
    Xgl.XGL_STRUCTURE_TYPE_PIPELINE_SHADER_STAGE_CREATE_INFO scenario_fs ].

Definition compute_shader_fragment : Xgl.intel_pipeline_create_info_header headers :=
  Xgl.XGL_STRUCTURE_TYPE_PIPELINE_SHADER_STAGE_CREATE_INFO scenario_cs.

Definition gen6_gt2 : intel_gpu := {| gpu_gen := 600; gt := 2 |}.
Definition gen7_gt2 : intel_gpu := {| gpu_gen := 700; gt := 2 |}.

End Sample.

(** ** The properties in the words of the specification *)

Module Stated.
Import CInt.

(** The nanosecond timeout of a wait of [t] seconds: the product, or the
    "infinite" sentinel where the product would not fit. *)
Definition timeout_in_ns (t : Z) : Z :=
  if t <=? INT64_MAX / 10 ^ 9 then t * 10 ^ 9 else -1.

(** A kernel wait that also keeps, latest first, the buffer and the timeout
    of every wait that reaches it. *)
Definition recording {bo kernel : Type}
    (intel_bo_wait : kernel -> bo -> Z -> kernel * Z)
    (k : kernel * list (bo * Z)) (b : bo) (timeout_ns : Z)
  : (kernel * list (bo * Z)) * Z :=
  let '(k', err) := intel_bo_wait k.1 b timeout_ns in
  ((k', (b, timeout_ns) :: k.2), err).

(** The waits that reach the kernel when every fence of the array is waited
    on with [ns]: one for each fence that was submitted, in array order. *)
Definition submitted_waits {bo : Type} (pFences : list (Fence.intel_fence bo)) (ns : Z)
  : list (bo * Z) :=
  omap (fun fence =>
          match Fence.submitted_bo fence with
          | Some b => Some (b, ns)
          | None => None
          end) pFences.

(** A stage (or any stage of a group) is active when the mask of the stage
    meets the active-stage word. *)
Definition stage_active (active flag : Z) : Prop := Z.land active flag <> 0.

(** The active stages are among those of [mask]: every bit set in the
    active-stage word is set in [mask]. *)
Definition stages_within (active mask : Z) : Prop :=
  forall i, 0 <= i -> Z.testbit active i = true -> Z.testbit mask i = true.

(** The number of rows of [row_bits] bits that an entry of
    [entry_size] bytes takes, rounded up, and one row at the least. *)
Definition row_count (row_bits : Z) (entry_size : Z) : Z :=
  let rows := (8 * entry_size + row_bits - 1) / row_bits in
  if rows =? 0 then 1 else rows.

Definition remap_5_to_6 (rows : Z) : Z := if rows =? 5 then 6 else rows.

(** The pipeline has its array of [INTEL_PSO_CMD_ENTRIES] words and a
    length that is not negative. *)
Definition sink_ok {H : Headers} (pipeline : Pipeline.intel_pipeline H) : Prop :=
  0 <= Pipeline.cmd_len pipeline /\
  Z.of_nat (length (Pipeline.cmds pipeline)) = INTEL_PSO_CMD_ENTRIES H.





(** The slots of the normalized descriptor. *)
Inductive slot : Type :=
| slot_graphics | slot_vi | slot_ia | slot_db | slot_cb | slot_rs | slot_tess
| slot_vs | slot_tcs | slot_tes | slot_gs | slot_fs | slot_compute.

#[global] Instance slot_eq_dec : EqDecision slot.
Proof. solve_decision. Defined.

(** The slot that a fragment is for: by its type tag and, for a
    shader-stage fragment, by its stage enumerator. [None] for a fragment
    that is not recognized. *)
Definition slot_of {H : Headers} (header : Xgl.intel_pipeline_create_info_header H)
  : option slot :=
  match header with
  | Xgl.XGL_STRUCTURE_TYPE_GRAPHICS_PIPELINE_CREATE_INFO _ => Some slot_graphics
  | Xgl.XGL_STRUCTURE_TYPE_PIPELINE_VERTEX_INPUT_CREATE_INFO _ => Some slot_vi
  | Xgl.XGL_STRUCTURE_TYPE_PIPELINE_IA_STATE_CREATE_INFO _ => Some slot_ia
  | Xgl.XGL_STRUCTURE_TYPE_PIPELINE_DB_STATE_CREATE_INFO _ => Some slot_db
  | Xgl.XGL_STRUCTURE_TYPE_PIPELINE_CB_STATE_CREATE_INFO _ => Some slot_cb
  | Xgl.XGL_STRUCTURE_TYPE_PIPELINE_RS_STATE_CREATE_INFO _ => Some slot_rs
  | Xgl.XGL_STRUCTURE_TYPE_PIPELINE_TESS_STATE_CREATE_INFO _ => Some slot_tess
  | Xgl.XGL_STRUCTURE_TYPE_PIPELINE_SHADER_STAGE_CREATE_INFO sh =>
      match Xgl.stage sh with
      | XGL_SHADER_STAGE_VERTEX => Some slot_vs
      | XGL_SHADER_STAGE_TESS_CONTROL => Some slot_tcs
      | XGL_SHADER_STAGE_TESS_EVALUATION => Some slot_tes
      | XGL_SHADER_STAGE_GEOMETRY => Some slot_gs
      | XGL_SHADER_STAGE_FRAGMENT => Some slot_fs
      | XGL_SHADER_STAGE_COMPUTE | XGL_SHADER_STAGE_other _ => None
      end
  | Xgl.XGL_STRUCTURE_TYPE_COMPUTE_PIPELINE_CREATE_INFO _ => Some slot_compute
  | Xgl.XGL_STRUCTURE_TYPE_other _ => None
  end.

(** What a slot of the descriptor holds, as the fragment it was copied
    from. *)
Definition slot_content {H : Headers} (s : slot)
    (info : Assembler.intel_pipeline_create_info H)
  : Xgl.intel_pipeline_create_info_header H :=
  match s with
  | slot_graphics =>
      Xgl.XGL_STRUCTURE_TYPE_GRAPHICS_PIPELINE_CREATE_INFO (Assembler.graphics info)
  | slot_vi => Xgl.XGL_STRUCTURE_TYPE_PIPELINE_VERTEX_INPUT_CREATE_INFO (Assembler.vi info)
  | slot_ia => Xgl.XGL_STRUCTURE_TYPE_PIPELINE_IA_STATE_CREATE_INFO (Assembler.ia info)
  | slot_db => Xgl.XGL_STRUCTURE_TYPE_PIPELINE_DB_STATE_CREATE_INFO (Assembler.db info)
  | slot_cb => Xgl.XGL_STRUCTURE_TYPE_PIPELINE_CB_STATE_CREATE_INFO (Assembler.cb info)
  | slot_rs => Xgl.XGL_STRUCTURE_TYPE_PIPELINE_RS_STATE_CREATE_INFO (Assembler.rs info)
  | slot_tess => Xgl.XGL_STRUCTURE_TYPE_PIPELINE_TESS_STATE_CREATE_INFO (Assembler.tess info)
  | slot_vs => Xgl.XGL_STRUCTURE_TYPE_PIPELINE_SHADER_STAGE_CREATE_INFO (Assembler.vs info)
  | slot_tcs => Xgl.XGL_STRUCTURE_TYPE_PIPELINE_SHADER_STAGE_CREATE_INFO (Assembler.tcs info)
  | slot_tes => Xgl.XGL_STRUCTURE_TYPE_PIPELINE_SHADER_STAGE_CREATE_INFO (Assembler.tes info)
  | slot_gs => Xgl.XGL_STRUCTURE_TYPE_PIPELINE_SHADER_STAGE_CREATE_INFO (Assembler.gs info)
  | slot_fs => Xgl.XGL_STRUCTURE_TYPE_PIPELINE_SHADER_STAGE_CREATE_INFO (Assembler.fs info)
  | slot_compute =>
      Xgl.XGL_STRUCTURE_TYPE_COMPUTE_PIPELINE_CREATE_INFO (Assembler.compute info)
  end.

(** The last fragment of the chain that is for slot [s], if there is one. *)
Definition last_for_slot {H : Headers} (s : slot)
    (chain : list (Xgl.intel_pipeline_create_info_header H))
  : option (Xgl.intel_pipeline_create_info_header H) :=
  last (filter (fun header => slot_of header = Some s) chain).

Section Rules.
Variable H : Headers.
Variable active : Z.
Variable topology : XGL_PRIMITIVE_TOPOLOGY.

Definition vertex_absent : Prop :=
  ~ stage_active active (SHADER_VERTEX_FLAG H).

Definition one_tessellation_stage_only : Prop :=
  (stage_active active (SHADER_TESS_CONTROL_FLAG H) /\
   ~ stage_active active (SHADER_TESS_EVAL_FLAG H)) \/
  (~ stage_active active (SHADER_TESS_CONTROL_FLAG H) /\
   stage_active active (SHADER_TESS_EVAL_FLAG H)).

Definition compute_with_graphics : Prop :=
  stage_active active (SHADER_COMPUTE_FLAG H) /\
  (stage_active active (SHADER_VERTEX_FLAG H) \/
   stage_active active (SHADER_TESS_CONTROL_FLAG H) \/
   stage_active active (SHADER_TESS_EVAL_FLAG H) \/
   stage_active active (SHADER_GEOMETRY_FLAG H) \/
   stage_active active (SHADER_FRAGMENT_FLAG H)).

Definition tessellation_without_patch : Prop :=
  (stage_active active (SHADER_TESS_CONTROL_FLAG H) \/
   stage_active active (SHADER_TESS_EVAL_FLAG H)) /\
  topology <> XGL_TOPOLOGY_PATCH.

Definition patch_with_other_stage : Prop :=
  topology = XGL_TOPOLOGY_PATCH /\
  ~ stages_within active
      (Z.lor (SHADER_TESS_CONTROL_FLAG H) (SHADER_TESS_EVAL_FLAG H)).

Definition some_rule_violated : Prop :=
  vertex_absent \/ one_tessellation_stage_only \/ compute_with_graphics \/
  tessellation_without_patch \/ patch_with_other_stage.

End Rules.

End Stated.

(** ** fence.c: creation and status *)

#[global] Instance XGL_RESULT_eq_dec : EqDecision XGL_RESULT.
Proof. solve_decision. Defined.

Module FenceStatus.

Section Winsys.
(** [intel_bo_is_busy] asks the kernel, like [intel_bo_wait]. *)
Variable bo : Type.
Variable kernel : Type.
Variable intel_bo_is_busy : kernel -> bo -> kernel * bool.
Variable intel_bo_wait : kernel -> bo -> Z -> kernel * Z.

Definition intel_fence_get_status (k : kernel) (fence : Fence.intel_fence bo)
  : kernel * XGL_RESULT :=
  match Fence.submitted_bo fence with
  | None => (k, XGL_ERROR_UNAVAILABLE)
  | Some b =>
      let '(k', busy) := intel_bo_is_busy k b in
      (k', if busy then XGL_NOT_READY else XGL_SUCCESS)
  end.

(** [icd_alloc] and [intel_base_dbg_create] may return a null pointer:
    [alloc_fence] and [alloc_dbg] tell whether they return an object, and
    [dbg] is [dev->base.dbg]. The second component is what [*fence_ret]
    receives, [None] where it is not written; the fence is as the [memset]
    leaves it. *)
Definition intel_fence_create (alloc_fence dbg alloc_dbg : bool)
  : XGL_RESULT * option (Fence.intel_fence bo) :=
  if negb alloc_fence then (XGL_ERROR_OUT_OF_MEMORY, None)
  else
    let fence := {| Fence.submitted_bo := None |} in
    if dbg && negb alloc_dbg then (XGL_ERROR_OUT_OF_MEMORY, None)
    else (XGL_SUCCESS, Some fence).

(** The results of [intel_fence_wait] on each fence in turn, all with the
    same timeout, the kernel state passing from one wait to the next. *)
Fixpoint wait_each (k : kernel) (pFences : list (Fence.intel_fence bo)) (ns : Z)
  : list XGL_RESULT :=
  match pFences with
  | [] => []
  | fence :: rest =>
      let '(k', r) := Fence.intel_fence_wait intel_bo_wait k fence ns in
      r :: wait_each k' rest ns
  end.

End Winsys.

Arguments intel_fence_get_status {bo kernel} _ _ _.
Arguments intel_fence_create {bo} _ _ _.
Arguments wait_each {bo kernel} _ _ _ _.

(** The last result that is not a success, and success when there is none. *)
Definition last_failure (results : list XGL_RESULT) : XGL_RESULT :=
  default XGL_SUCCESS (last (filter (fun r => r <> XGL_SUCCESS) results)).

End FenceStatus.

(** What an encoder may do to a pipeline. *)
Module Behaviour.
Import CInt.

Section WithHeaders.
Variable H : Headers.

(** [pipeline'] has the array, the device, the active stages and the
    resolved shaders of [pipeline], and the same words below index [below]. *)
Definition same_below (below : Z) (pipeline pipeline' : Pipeline.intel_pipeline H)
  : Prop :=
  length (Pipeline.cmds pipeline') = length (Pipeline.cmds pipeline) /\
  Pipeline.dev pipeline' = Pipeline.dev pipeline /\
  Pipeline.active_shaders pipeline' = Pipeline.active_shaders pipeline /\
  Pipeline.vs pipeline' = Pipeline.vs pipeline /\
  Pipeline.gs pipeline' = Pipeline.gs pipeline /\
  forall i, i < below ->
    Pipeline.arr_get (Pipeline.cmds pipeline') i
      = Pipeline.arr_get (Pipeline.cmds pipeline) i.

(** [pipeline'] is [pipeline] with [n] command words more: the length has
    advanced by [n] and the words that were there are untouched. *)
Definition appended (pipeline pipeline' : Pipeline.intel_pipeline H) (n : Z) : Prop :=
  Pipeline.cmd_len pipeline' = Pipeline.cmd_len pipeline + n /\
  same_below (Pipeline.cmd_len pipeline) pipeline pipeline'.

(** The length of the vertex-elements command as the function computes
    it, and 0 where it returns without a command. *)
Definition vertex_element_words (vs : Pipeline.intel_pipeline_shader)
    (attributeCount : Z) : Z :=
  let cmd_len := to_uint8 (1 + 2 * attributeCount) in
  let cmd_len :=
    if Pipeline.uses_vid_or_iid H vs then to_uint8 (cmd_len + 2) else cmd_len in
  if cmd_len =? 1 then 0 else cmd_len.

(** The words that follow the vertex-elements command in a build: the URB
    command on the older generation; the URB and push-constant commands and
    the three stubs on the newer. *)
Definition generation_words (g : intel_gpu) : Z :=
  if gpu_gen g >=? INTEL_GEN_7 H then 8 + 10 + 7 + 4 + 6 else 3.

End WithHeaders.

Arguments same_below {H} _ _ _.
Arguments appended {H} _ _ _.

End Behaviour.

(** * Properties *)

(** ** Integer conversions *)

Module CIntFacts.
Import CInt.

Lemma to_int_small x : - 2 ^ 31 <= x < 2 ^ 31 -> to_int x = x.
Proof. intros Hx. unfold to_int. rewrite Z.mod_small; lia. Qed.

Lemma to_int64_small x : - 2 ^ 63 <= x < 2 ^ 63 -> to_int64 x = x.
Proof. intros Hx. unfold to_int64. rewrite Z.mod_small; lia. Qed.

Lemma to_uint64_small x : 0 <= x < 2 ^ 64 -> to_uint64 x = x.
Proof. intros Hx. unfold to_uint64. rewrite Z.mod_small; lia. Qed.

Lemma to_uint8_small x : 0 <= x < 2 ^ 8 -> to_uint8 x = x.
Proof. intros Hx. unfold to_uint8. rewrite Z.mod_small; lia. Qed.

Lemma to_int64_range x : - 2 ^ 63 <= to_int64 x <= INT64_MAX.
Proof.
  unfold to_int64, INT64_MAX.
  pose proof (Z.mod_pos_bound (x + 2 ^ 63) (2 ^ 64)). lia.
Qed.

End CIntFacts.

(** ** The timeout of [intelWaitForFences] *)

Section FenceFacts.
Import CInt CIntFacts Fence Stated.

Context {bo kernel : Type} (intel_bo_wait : kernel -> bo -> Z -> kernel * Z).

Lemma wait_ns_correct t : 0 <= t < 2 ^ 64 -> wait_ns t = timeout_in_ns t.
Proof.
  intros Ht. unfold wait_ns, timeout_in_ns.
  replace (to_uint64 (INT64_MAX ÷ 1000 ÷ 1000 ÷ 1000)) with 9223372036
    by reflexivity.
  replace (INT64_MAX / 10 ^ 9) with 9223372036 by reflexivity.
  destruct (Z.leb_spec t 9223372036) as [Hle | Hgt]; [| reflexivity].
  rewrite (to_uint64_small (t * 1000)) by lia.
  rewrite (to_uint64_small (t * 1000 * 1000)) by lia.
  rewrite (to_uint64_small (t * 1000 * 1000 * 1000)) by lia.
  rewrite to_int64_small by lia. lia.
Qed.

Lemma timeout_in_ns_range t :
  0 <= t -> - 1 <= timeout_in_ns t <= INT64_MAX.
Proof.
  intros Ht. unfold timeout_in_ns.
  replace (INT64_MAX / 10 ^ 9) with 9223372036 by reflexivity.
  destruct (Z.leb_spec t 9223372036); unfold INT64_MAX; lia.
Qed.

(** The loop only ever adds calls, every one with the same [ns], and it
    makes at least one when there is a fence. *)
Lemma wait_loop_calls pFences :
  forall k waitAll t ret calls,
    exists new,
      (wait_loop intel_bo_wait k pFences waitAll t ret calls).2 = new ++ calls /\
      Forall (fun c => call_ns c = wait_ns t) new /\
      (pFences <> [] -> new <> []).
Proof.
  induction pFences as [| fence rest IH]; intros k waitAll t ret calls.
  - exists []. simpl. split; [reflexivity | split; [constructor | congruence]].
  - simpl. destruct (intel_fence_wait intel_bo_wait k fence (wait_ns t)) as [k' r].
    destruct (negb waitAll && XGL_RESULT_eqb r XGL_SUCCESS).
    + exists [{| call_fence := fence; call_ns := wait_ns t |}]. simpl.
      split; [reflexivity |]. split; [| congruence].
      constructor; [reflexivity | constructor].
    + destruct (IH k' waitAll t (if XGL_RESULT_eqb r XGL_SUCCESS then ret else r)
                  ({| call_fence := fence; call_ns := wait_ns t |} :: calls))
        as (new & Heq & Hall & _).
      exists (new ++ [{| call_fence := fence; call_ns := wait_ns t |}]).
      split; [rewrite Heq, <- app_assoc; reflexivity |].
      split; [| intros _ Hnil; destruct new; discriminate Hnil].
      apply Forall_app. split; [exact Hall |].
      constructor; [reflexivity | constructor].
Qed.

(** What a wait records when the kernel keeps what reaches it. *)
Lemma intel_fence_wait_recording k seen (fence : intel_fence bo) ns :
  intel_fence_wait (recording intel_bo_wait) (k, seen) fence ns =
    ((intel_fence_wait intel_bo_wait k fence ns).1,
     match submitted_bo fence with Some b => (b, ns) :: seen | None => seen end,
     (intel_fence_wait intel_bo_wait k fence ns).2).
Proof.
  unfold intel_fence_wait, recording.
  destruct (submitted_bo fence) as [b |]; [| reflexivity].
  cbn [fst snd]. destruct (intel_bo_wait k b ns) as [k' err]. reflexivity.
Qed.

(** The loop on a recording kernel: it behaves as on the kernel itself, and
    the kernel sees the waits of the fences the loop gets to, each with the
    same [ns]. *)
Lemma wait_loop_recording pFences :
  forall k seen waitAll t ret calls,
    let recorded :=
      wait_loop (recording intel_bo_wait) (k, seen) pFences waitAll t ret calls in
    let plain := wait_loop intel_bo_wait k pFences waitAll t ret calls in
    exists new,
      recorded.1.1 = (plain.1.1, new ++ seen) /\
      recorded.1.2 = plain.1.2 /\ recorded.2 = plain.2 /\
      Forall (fun w => w.2 = wait_ns t) new /\
      (waitAll = true -> reverse new = submitted_waits pFences (wait_ns t)) /\
      (forall fence rest b,
         pFences = fence :: rest -> submitted_bo fence = Some b ->
         last new = Some (b, wait_ns t)).
Proof.
  induction pFences as [| fence rest IH]; intros k seen waitAll t ret calls.
  - exists []. cbn [wait_loop fst snd app].
    repeat split; [constructor | intros f r b Hnil; discriminate Hnil].
  - cbv zeta. cbn [wait_loop]. cbv zeta. rewrite intel_fence_wait_recording.
    destruct (intel_fence_wait intel_bo_wait k fence (wait_ns t)) as [k' r].
    cbn [fst snd].
    set (mine := match submitted_bo fence with
                 | Some b => [(b, wait_ns t)]
                 | None => []
                 end).
    assert (Hseen : match submitted_bo fence with
                    | Some b => (b, wait_ns t) :: seen
                    | None => seen
                    end = mine ++ seen)
      by (subst mine; destruct (submitted_bo fence); reflexivity).
    rewrite Hseen.
    assert (Hmine : Forall (fun w : bo * Z => w.2 = wait_ns t) mine)
      by (subst mine; destruct (submitted_bo fence); repeat constructor).
    assert (Hfirst : forall fence0 rest0 b,
              fence :: rest = fence0 :: rest0 -> submitted_bo fence0 = Some b ->
              mine = [(b, wait_ns t)]).
    { intros fence0 rest0 b Heq Hb. injection Heq as <- _.
      subst mine. rewrite Hb. reflexivity. }
    destruct (negb waitAll && XGL_RESULT_eqb r XGL_SUCCESS) eqn:Hstop.
    + exists mine. cbn [fst snd].
      split; [reflexivity |]. split; [reflexivity |]. split; [reflexivity |].
      split; [exact Hmine |]. split.
      * intros ->. discriminate Hstop.
      * intros fence0 rest0 b Heq Hb. rewrite (Hfirst fence0 rest0 b Heq Hb).
        reflexivity.
    + destruct (IH k' (mine ++ seen) waitAll t
                  (if XGL_RESULT_eqb r XGL_SUCCESS then ret else r)
                  ({| call_fence := fence; call_ns := wait_ns t |} :: calls))
        as (new & Hk & Hr & Hc & Hall & Hrev & _).
      cbv zeta in Hk, Hr, Hc.
      exists (new ++ mine).
      split; [rewrite Hk, app_assoc; reflexivity |].
      split; [exact Hr |]. split; [exact Hc |].
      split; [apply Forall_app; split; [exact Hall | exact Hmine] |]. split.
      * intros Hw. rewrite reverse_app, (Hrev Hw). subst mine.
        unfold submitted_waits. cbn [omap list_omap].
        destruct (submitted_bo fence); reflexivity.
      * intros fence0 rest0 b Heq Hb. rewrite (Hfirst fence0 rest0 b Heq Hb).
        apply last_snoc.
Qed.

(** C9. For every 64-bit unsigned timeout [t], the nanosecond value that
    [intelWaitForFences] passes down is [t * 10^9] when
    [t <= INT64_MAX / 10^9] and the sentinel [-1] for every larger [t], and
    it always fits a signed 64-bit integer. That value is what reaches the
    kernel wait: on a kernel that keeps what it receives, which changes
    nothing else, every wait received carries it, the wait on the first fence
    is received when that fence was submitted, and with [waitAll] the waits
    received are those of all the submitted fences in order. The calls of the
    per-fence wait that the loop makes carry the same value, and there is one
    at least when there is a fence. *)
Theorem wait_for_fences_timeout k pFences waitAll t :
  0 <= t < 2 ^ 64 ->
  let ns := if t <=? INT64_MAX / 10 ^ 9 then t * 10 ^ 9 else -1 in
  let plain := intelWaitForFences intel_bo_wait k pFences waitAll t in
  let recorded :=
    intelWaitForFences (recording intel_bo_wait) (k, []) pFences waitAll t in
  let seen := recorded.1.1.2 in
  - 2 ^ 63 <= ns <= INT64_MAX /\
  (recorded.1.1.1 = plain.1.1 /\ recorded.1.2 = plain.1.2 /\ recorded.2 = plain.2) /\
  Forall (fun w => w.2 = ns) seen /\
  (forall fence rest b,
     pFences = fence :: rest -> submitted_bo fence = Some b ->
     last seen = Some (b, ns)) /\
  (waitAll = true -> reverse seen = submitted_waits pFences ns) /\
  (pFences <> [] -> plain.2 <> []) /\
  Forall (fun c => call_ns c = ns /\ - 2 ^ 63 <= call_ns c <= INT64_MAX) plain.2.
Proof.
  intros Ht ns plain recorded seen.
  assert (Hns : wait_ns t = ns) by (rewrite wait_ns_correct by exact Ht; reflexivity).
  assert (Hrange : - 2 ^ 63 <= ns <= INT64_MAX).
  { pose proof (timeout_in_ns_range t ltac:(lia)) as Hr.
    rewrite <- wait_ns_correct, Hns in Hr by exact Ht. lia. }
  split; [exact Hrange |].
  subst seen recorded plain. unfold intelWaitForFences.
  destruct (wait_loop_recording pFences k [] waitAll t XGL_SUCCESS [])
    as (new & Hk & Hr & Hc & Hall & Hrev & Hfirst).
  cbv zeta in Hk, Hr, Hc. rewrite app_nil_r in Hk. rewrite Hns in Hall, Hrev, Hfirst.
  rewrite Hk. cbn [fst snd].
  split; [split; [reflexivity | split; [exact Hr | exact Hc]] |].
  split; [exact Hall |]. split; [exact Hfirst |]. split; [exact Hrev |].
  destruct (wait_loop_calls pFences k waitAll t XGL_SUCCESS [])
    as (news & Heq & Hcalls & Hne).
  rewrite Heq, app_nil_r. split; [exact Hne |].
  eapply Forall_impl; [exact Hcalls |].
  intros c Hcall. cbv beta in Hcall. rewrite Hcall, Hns.
  split; [reflexivity | exact Hrange].
Qed.

End FenceFacts.

(** Two fences, the second never submitted, a kernel that reports
    completion, and the largest timeout that is not clamped: the kernel
    receives one wait, of 9223372036000000000 nanoseconds. *)
Lemma wait_for_fences_timeout_witness :
  0 <= 9223372036 < 2 ^ 64 /\
  reverse
    (Fence.intelWaitForFences
       (Stated.recording (fun (k : unit) (_ : unit) (_ : Z) => (k, 0))) (tt, [])
       [{| Fence.submitted_bo := Some tt |}; {| Fence.submitted_bo := None |}]
       true 9223372036).1.1.2
  = [(tt, 9223372036000000000)].
Proof.
  split; [lia |].
  destruct (wait_for_fences_timeout (fun (k : unit) (_ : unit) (_ : Z) => (k, 0)) tt
              [{| Fence.submitted_bo := Some tt |}; {| Fence.submitted_bo := None |}]
              true 9223372036 ltac:(lia))
    as (_ & _ & _ & _ & Hall & _).
  exact (Hall eq_refl).
Defined.

(** ** The command buffer sink *)

Section SinkFacts.
Import Pipeline.
Context {H : Headers}.
Implicit Types pipeline : intel_pipeline H.

Lemma pipeline_cmd_ptr_fits pipeline len :
  cmd_len pipeline + len < INTEL_PSO_CMD_ENTRIES H ->
  pipeline_cmd_ptr pipeline len =
    Some (cmd_len pipeline, set_cmd_len pipeline (cmd_len pipeline + len)).
Proof.
  intros Hlt. unfold pipeline_cmd_ptr.
  destruct (Z.ltb_spec (cmd_len pipeline + len) (INTEL_PSO_CMD_ENTRIES H)); [| lia].
  reflexivity.
Qed.

Lemma pipeline_cmd_ptr_full pipeline len :
  INTEL_PSO_CMD_ENTRIES H <= cmd_len pipeline + len ->
  pipeline_cmd_ptr pipeline len = None.
Proof.
  intros Hge. unfold pipeline_cmd_ptr.
  destruct (Z.ltb_spec (cmd_len pipeline + len) (INTEL_PSO_CMD_ENTRIES H)); [lia |].
  reflexivity.
Qed.

(** C3, as the code has it. A reservation of [len] words at length
    [cmd_len] succeeds exactly when [cmd_len + len] is strictly below the
    capacity; it then returns the window that starts at index [cmd_len],
    advances the length to [cmd_len + len] and leaves the words alone. It
    fails for every [cmd_len + len] at or above the capacity. *)
Theorem pipeline_cmd_ptr_reserves pipeline len :
  (cmd_len pipeline + len < INTEL_PSO_CMD_ENTRIES H <->
   exists ptr pipeline',
     pipeline_cmd_ptr pipeline len = Some (ptr, pipeline') /\
     ptr = cmd_len pipeline /\
     cmd_len pipeline' = cmd_len pipeline + len /\
     cmds pipeline' = cmds pipeline) /\
  (INTEL_PSO_CMD_ENTRIES H <= cmd_len pipeline + len <->
   pipeline_cmd_ptr pipeline len = None).
Proof.
  split; split.
  - intros Hlt. eexists _, _. rewrite pipeline_cmd_ptr_fits by exact Hlt.
    repeat split.
  - intros (ptr & pipeline' & Hsome & _).
    destruct (Z.lt_ge_cases (cmd_len pipeline + len) (INTEL_PSO_CMD_ENTRIES H))
      as [Hlt | Hge]; [exact Hlt |].
    rewrite pipeline_cmd_ptr_full in Hsome by exact Hge. discriminate Hsome.
  - apply pipeline_cmd_ptr_full.
  - intros Hnone.
    destruct (Z.lt_ge_cases (cmd_len pipeline + len) (INTEL_PSO_CMD_ENTRIES H))
      as [Hlt | Hge]; [| exact Hge].
    rewrite pipeline_cmd_ptr_fits in Hnone by exact Hlt. discriminate Hnone.
Qed.

End SinkFacts.

(** C3, as stated, fails where the reservation fills the buffer exactly:
    with 128 entries, 120 in use and 8 requested, the sum does not exceed the
    capacity and the reservation fails all the same. *)
Lemma pipeline_cmd_ptr_exact_fit_fails :
  let pipeline :=
    Sample.pipeline_of Sample.gen6_gt2 128 120 0 XGL_TOPOLOGY_TRIANGLE_LIST
      Sample.shader_none Sample.shader_none in
  Pipeline.cmd_len pipeline + 8 <= INTEL_PSO_CMD_ENTRIES Sample.headers /\
  Pipeline.pipeline_cmd_ptr pipeline 8 = None.
Proof. split; [vm_compute; discriminate | reflexivity]. Qed.

(** ** The stage/topology validator *)

Section ValidatorFacts.
Import Pipeline Stated.
Context {H : Headers}.
Implicit Types pipeline : intel_pipeline H.

Lemma stages_within_land a m : Z.land a (Z.lnot m) = 0 <-> stages_within a m.
Proof.
  split.
  - intros Hz i Hi Ha.
    assert (Hb : Z.testbit (Z.land a (Z.lnot m)) i = false)
      by (rewrite Hz; apply Z.bits_0).
    rewrite Z.land_spec, Z.lnot_spec, Ha in Hb by exact Hi.
    destruct (Z.testbit m i); [reflexivity | discriminate Hb].
  - intros Hs. apply Z.bits_inj'. intros i Hi.
    rewrite Z.bits_0, Z.land_spec, Z.lnot_spec by exact Hi.
    destruct (Z.testbit a i) eqn:Ha; [| reflexivity].
    rewrite (Hs i Hi Ha). reflexivity.
Qed.

Lemma stage_active_lor a x y :
  stage_active a (Z.lor x y) <-> stage_active a x \/ stage_active a y.
Proof.
  unfold stage_active. rewrite Z.land_lor_distr_r, Z.lor_eq_0_iff.
  destruct (Z.eq_dec (Z.land a x) 0), (Z.eq_dec (Z.land a y) 0); tauto.
Qed.

Lemma truthy_active a flag : truthy (Z.land a flag) = true <-> stage_active a flag.
Proof.
  unfold truthy, stage_active.
  destruct (Z.eqb_spec (Z.land a flag) 0); simpl; split; congruence.
Qed.

Lemma truthy_inactive a flag : truthy (Z.land a flag) = false <-> ~ stage_active a flag.
Proof.
  unfold truthy, stage_active.
  destruct (Z.eqb_spec (Z.land a flag) 0); simpl; split; try congruence; tauto.
Qed.

Lemma is_TOPOLOGY_PATCH_true t : is_TOPOLOGY_PATCH t = true <-> t = XGL_TOPOLOGY_PATCH.
Proof. destruct t; simpl; split; congruence. Qed.

Lemma is_TOPOLOGY_PATCH_false t : is_TOPOLOGY_PATCH t = false <-> t <> XGL_TOPOLOGY_PATCH.
Proof. destruct t; simpl; split; congruence. Qed.

(** The validator returns one of two values. *)
Lemma pipeline_validate_two_results pipeline :
  pipeline_validate pipeline = XGL_SUCCESS \/
  pipeline_validate pipeline = XGL_ERROR_BAD_PIPELINE_DATA.
Proof.
  unfold pipeline_validate.
  repeat match goal with |- context [if ?b then _ else _] => destruct b end; auto.
Qed.

Lemma eqb_0_truthy x : (x =? 0) = negb (truthy x).
Proof. unfold truthy. rewrite negb_involutive. reflexivity. Qed.

(** Turns the outcome of every test of the validator into the fact it
    stands for. *)
Ltac reflect_tests :=
  repeat match goal with
    | E : truthy (Z.land _ _) = true |- _ => apply truthy_active in E
    | E : truthy (Z.land _ _) = false |- _ => apply truthy_inactive in E
    | E : is_TOPOLOGY_PATCH _ = true |- _ => apply is_TOPOLOGY_PATCH_true in E
    | E : is_TOPOLOGY_PATCH _ = false |- _ => apply is_TOPOLOGY_PATCH_false in E
    end;
  rewrite ?stage_active_lor in *.

Ltac rejected := split; [discriminate | intros Hn; exfalso; apply Hn; tauto].
Ltac accepted := split; [intros _; tauto | reflexivity].

Lemma pipeline_validate_success pipeline :
  pipeline_validate pipeline = XGL_SUCCESS <->
  ~ some_rule_violated H (active_shaders pipeline) (topology pipeline).
Proof.
  unfold pipeline_validate, some_rule_violated, vertex_absent,
    one_tessellation_stage_only, compute_with_graphics,
    tessellation_without_patch, patch_with_other_stage.
  set (a := active_shaders pipeline). set (t := topology pipeline).
  rewrite <- (stages_within_land a), !eqb_0_truthy.
  change (Z.land a (Z.lnot (Z.lor (SHADER_TESS_CONTROL_FLAG H) (SHADER_TESS_EVAL_FLAG H)))
          <> 0)
    with (stage_active a
            (Z.lnot (Z.lor (SHADER_TESS_CONTROL_FLAG H) (SHADER_TESS_EVAL_FLAG H)))).
  (* rule 1 *)
  destruct (truthy (Z.land a (SHADER_VERTEX_FLAG H))) eqn:Ev; simpl; reflect_tests;
    [| rejected].
  (* rule 2 *)
  destruct (truthy (Z.land a (SHADER_TESS_CONTROL_FLAG H))) eqn:E1,
           (truthy (Z.land a (SHADER_TESS_EVAL_FLAG H))) eqn:E2;
    simpl; reflect_tests; try rejected.
  (* rules 3 to 5, with both or neither tessellation stage *)
  all: destruct (truthy (Z.land a (SHADER_COMPUTE_FLAG H))) eqn:Ec; simpl;
    [destruct (truthy (Z.land a
       (Z.lor (Z.lor (Z.lor (Z.lor (SHADER_VERTEX_FLAG H) (SHADER_TESS_CONTROL_FLAG H))
                        (SHADER_TESS_EVAL_FLAG H)) (SHADER_GEOMETRY_FLAG H))
          (SHADER_FRAGMENT_FLAG H)))) eqn:Eg; simpl; reflect_tests;
       [rejected | exfalso; tauto] |].
  all: destruct (truthy (Z.land a
         (Z.lor (SHADER_TESS_CONTROL_FLAG H) (SHADER_TESS_EVAL_FLAG H)))) eqn:Et;
    simpl; reflect_tests; try (exfalso; tauto).
  all: destruct (is_TOPOLOGY_PATCH t) eqn:Ep; simpl; reflect_tests; try rejected.
  all: destruct (truthy (Z.land a
         (Z.lnot (Z.lor (SHADER_TESS_CONTROL_FLAG H) (SHADER_TESS_EVAL_FLAG H)))))
         eqn:E5; simpl; reflect_tests; first [rejected | accepted].
Qed.

Lemma some_rule_violated_decidable a t :
  Decidable.decidable (some_rule_violated H a t).
Proof.
  unfold some_rule_violated, vertex_absent, one_tessellation_stage_only,
    compute_with_graphics, tessellation_without_patch, patch_with_other_stage.
  assert (Hp : Decidable.decidable (t = XGL_TOPOLOGY_PATCH))
    by (destruct t; (left; reflexivity) || (right; discriminate)).
  assert (Hw : Decidable.decidable
                 (stages_within a
                    (Z.lor (SHADER_TESS_CONTROL_FLAG H) (SHADER_TESS_EVAL_FLAG H)))).
  { unfold Decidable.decidable. rewrite <- stages_within_land. lia. }
  assert (Ha : forall flag, Decidable.decidable (stage_active a flag))
    by (intros flag; unfold Decidable.decidable, stage_active; lia).
  repeat first [ apply Ha | exact Hp | exact Hw
               | apply Decidable.dec_or | apply Decidable.dec_and
               | apply Decidable.dec_not ].
Qed.

Lemma pipeline_validate_error pipeline :
  pipeline_validate pipeline = XGL_ERROR_BAD_PIPELINE_DATA <->
  some_rule_violated H (active_shaders pipeline) (topology pipeline).
Proof.
  pose proof (pipeline_validate_success pipeline) as [Hs1 Hs2].
  destruct (pipeline_validate_two_results pipeline) as [Hr | Hr]; rewrite Hr in *.
  - split; [discriminate |]. intros Hv. exfalso. exact (Hs1 eq_refl Hv).
  - split; [intros _ | reflexivity].
    destruct (some_rule_violated_decidable (active_shaders pipeline) (topology pipeline))
      as [Hv | Hn]; [exact Hv |].
    specialize (Hs2 Hn). discriminate Hs2.
Qed.

(** C1. The validator is a function of the active-stage word and the
    topology alone: two pipelines that agree on both get the same result. It
    returns success exactly when none of the five rules (vertex stage absent;
    exactly one tessellation stage; compute together with a graphics stage;
    tessellation without patch-list; patch-list with a stage outside the two
    tessellation stages) is violated, and the bad-pipeline-data error exactly
    when one is. The error is the same for each rule, so the first violated
    rule decides. *)
Theorem pipeline_validate_rules pipeline :
  (forall pipeline',
     active_shaders pipeline' = active_shaders pipeline ->
     topology pipeline' = topology pipeline ->
     pipeline_validate pipeline' = pipeline_validate pipeline) /\
  (pipeline_validate pipeline = XGL_SUCCESS <->
   ~ some_rule_violated H (active_shaders pipeline) (topology pipeline)) /\
  (pipeline_validate pipeline = XGL_ERROR_BAD_PIPELINE_DATA <->
   some_rule_violated H (active_shaders pipeline) (topology pipeline)).
Proof.
  split; [| split; [apply pipeline_validate_success | apply pipeline_validate_error]].
  intros pipeline' Hactive Htopology. unfold pipeline_validate.
  rewrite Hactive, Htopology. reflexivity.
Qed.

(** Stages within the two tessellation stages leave the vertex stage out. *)
Lemma within_tessellation_no_vertex a :
  stage_flags_ok H ->
  stages_within a (Z.lor (SHADER_TESS_CONTROL_FLAG H) (SHADER_TESS_EVAL_FLAG H)) ->
  ~ stage_active a (SHADER_VERTEX_FLAG H).
Proof.
  intros [Hvc Hve _] Hw Hact. apply Hact. apply Z.bits_inj'. intros i Hi.
  rewrite Z.bits_0, Z.land_spec.
  destruct (Z.testbit a i) eqn:Ha; [simpl | reflexivity].
  specialize (Hw i Hi Ha). rewrite Z.lor_spec in Hw.
  assert (Hc : Z.testbit (Z.land (SHADER_VERTEX_FLAG H) (SHADER_TESS_CONTROL_FLAG H)) i
               = false) by (rewrite Hvc; apply Z.bits_0).
  assert (He : Z.testbit (Z.land (SHADER_VERTEX_FLAG H) (SHADER_TESS_EVAL_FLAG H)) i
               = false) by (rewrite Hve; apply Z.bits_0).
  rewrite Z.land_spec in Hc, He.
  destruct (Z.testbit (SHADER_VERTEX_FLAG H) i); [| reflexivity].
  simpl in Hc, He. rewrite Hc, He in Hw. discriminate Hw.
Qed.

(** C2, as the code has it by design. With patch-list topology, every
    pipeline whose active stages are within the two tessellation stages is
    rejected: it lacks the vertex stage, which the first rule requires. The
    rejection owes nothing to the topology, since the same active stages are
    rejected with any other; so no active-stage word within those two stages
    makes a patch-list pipeline pass. Patch-list pipelines with further
    stages are not spoken of here. *)
Theorem patch_list_validation pipeline :
  stage_flags_ok H ->
  topology pipeline = XGL_TOPOLOGY_PATCH ->
  stages_within (active_shaders pipeline)
    (Z.lor (SHADER_TESS_CONTROL_FLAG H) (SHADER_TESS_EVAL_FLAG H)) ->
  vertex_absent H (active_shaders pipeline) /\
  pipeline_validate pipeline = XGL_ERROR_BAD_PIPELINE_DATA /\
  pipeline_validate pipeline <> XGL_SUCCESS /\
  (forall pipeline',
     active_shaders pipeline' = active_shaders pipeline ->
     pipeline_validate pipeline' = XGL_ERROR_BAD_PIPELINE_DATA).
Proof.
  intros Hok Hpatch Hw.
  pose proof (within_tessellation_no_vertex _ Hok Hw) as Hno.
  assert (Hall : forall pipeline',
            active_shaders pipeline' = active_shaders pipeline ->
            pipeline_validate pipeline' = XGL_ERROR_BAD_PIPELINE_DATA).
  { intros pipeline' Hsame. apply pipeline_validate_error. left.
    unfold vertex_absent. rewrite Hsame. exact Hno. }
  split; [exact Hno |]. split; [exact (Hall pipeline eq_refl) |].
  split; [rewrite (Hall pipeline eq_refl); discriminate | exact Hall].
Qed.

(** With its fifth rule as written, the validator lets no pipeline with
    patch-list topology through. *)
Corollary patch_list_rejected pipeline :
  stage_flags_ok H ->
  topology pipeline = XGL_TOPOLOGY_PATCH ->
  pipeline_validate pipeline = XGL_ERROR_BAD_PIPELINE_DATA.
Proof.
  intros Hok Hpatch.
  destruct (pipeline_validate_two_results pipeline) as [Hs | Hb]; [| exact Hb].
  apply pipeline_validate_error. left.
  apply (within_tessellation_no_vertex _ Hok).
  assert (Hdec : Decidable.decidable
                   (stages_within (active_shaders pipeline)
                      (Z.lor (SHADER_TESS_CONTROL_FLAG H) (SHADER_TESS_EVAL_FLAG H)))).
  { unfold Decidable.decidable. rewrite <- stages_within_land. lia. }
  destruct Hdec as [Hw | Hn]; [exact Hw |].
  apply pipeline_validate_success in Hs.
  exfalso. apply Hs. do 4 right. split; [exact Hpatch | exact Hn].
Qed.

End ValidatorFacts.

(** The pipeline of the first scenario, vertex and fragment stages with a
    triangle list, passes; so does any other with the same stages and
    topology. *)
Lemma pipeline_validate_rules_witness :
  let pipeline :=
    Sample.pipeline_of Sample.gen6_gt2 128 3 17 XGL_TOPOLOGY_TRIANGLE_LIST
      Sample.shader_none Sample.shader_none in
  let pipeline' :=
    Sample.pipeline_of Sample.gen7_gt2 64 0 17 XGL_TOPOLOGY_TRIANGLE_LIST
      Sample.shader_none Sample.shader_none in
  Pipeline.pipeline_validate pipeline' = Pipeline.pipeline_validate pipeline /\
  Pipeline.pipeline_validate pipeline = XGL_SUCCESS /\
  ~ Stated.some_rule_violated Sample.headers (Pipeline.active_shaders pipeline)
      (Pipeline.topology pipeline).
Proof.
  intros pipeline pipeline'.
  destruct (pipeline_validate_rules pipeline) as (Hpure & [Hsuccess _] & _).
  split; [exact (Hpure pipeline' eq_refl eq_refl) |].
  split; [reflexivity | exact (Hsuccess eq_refl)].
Defined.

Lemma sample_stage_flags_ok : stage_flags_ok Sample.headers.
Proof. constructor; reflexivity. Defined.

(** C2, as stated, fails: both tessellation stages and nothing else, with
    patch-list topology. The active stages are within the two tessellation
    stages and the validator rejects the pipeline. *)
Lemma patch_list_tessellation_only_rejected :
  let pipeline :=
    Sample.pipeline_of Sample.gen7_gt2 128 0 6 XGL_TOPOLOGY_PATCH
      Sample.shader_none Sample.shader_none in
  Pipeline.topology pipeline = XGL_TOPOLOGY_PATCH /\
  Stated.stages_within (Pipeline.active_shaders pipeline)
    (Z.lor (SHADER_TESS_CONTROL_FLAG Sample.headers)
       (SHADER_TESS_EVAL_FLAG Sample.headers)) /\
  Pipeline.pipeline_validate pipeline <> XGL_SUCCESS.
Proof.
  split; [reflexivity |]. split; [| vm_compute; discriminate].
  apply stages_within_land. reflexivity.
Qed.

Lemma patch_list_validation_witness :
  let pipeline :=
    Sample.pipeline_of Sample.gen7_gt2 128 0 6 XGL_TOPOLOGY_PATCH
      Sample.shader_none Sample.shader_none in
  stage_flags_ok Sample.headers /\
  Pipeline.topology pipeline = XGL_TOPOLOGY_PATCH /\
  Stated.stages_within (Pipeline.active_shaders pipeline)
    (Z.lor (SHADER_TESS_CONTROL_FLAG Sample.headers)
       (SHADER_TESS_EVAL_FLAG Sample.headers)) /\
  Pipeline.pipeline_validate pipeline = XGL_ERROR_BAD_PIPELINE_DATA.
Proof.
  intros pipeline.
  assert (Hw : Stated.stages_within (Pipeline.active_shaders pipeline)
                 (Z.lor (SHADER_TESS_CONTROL_FLAG Sample.headers)
                    (SHADER_TESS_EVAL_FLAG Sample.headers)))
    by (apply stages_within_land; reflexivity).
  split; [exact sample_stage_flags_ok |]. split; [reflexivity |].
  split; [exact Hw |].
  exact (proj1 (proj2 (patch_list_validation pipeline sample_stage_flags_ok
                         eq_refl Hw))).
Defined.

(** ** The command array *)

Section ArrayFacts.
Import Pipeline CInt.

Lemma arr_set_length a i v : length (arr_set a i v) = length a.
Proof. unfold arr_set. destruct (0 <=? i); [apply length_insert | reflexivity]. Qed.

Lemma arr_get_set_eq a i v :
  0 <= i < Z.of_nat (length a) -> arr_get (arr_set a i v) i = Some v.
Proof.
  intros Hi. unfold arr_get, arr_set.
  destruct (Z.leb_spec 0 i); [| lia].
  apply list_lookup_insert_eq. lia.
Qed.

Lemma arr_get_set_same a i j v :
  i = j -> 0 <= i < Z.of_nat (length a) -> arr_get (arr_set a j v) i = Some v.
Proof. intros <-. apply arr_get_set_eq. Qed.

Lemma arr_get_set_ne a i j v : i <> j -> arr_get (arr_set a j v) i = arr_get a i.
Proof.
  intros Hne. unfold arr_get, arr_set.
  destruct (Z.leb_spec 0 i); [| reflexivity].
  destruct (Z.leb_spec 0 j); [| reflexivity].
  apply list_lookup_insert_ne. lia.
Qed.

Lemma assert_bind_Some {A : Type} (cond : bool) (k : unit -> option A) (r : A) :
  (assert cond ≫= k) = Some r -> cond = true /\ k tt = Some r.
Proof. destruct cond; [intros Hk; split; [reflexivity | exact Hk] | discriminate]. Qed.

Lemma assert_bind_true {A : Type} (cond : bool) (k : unit -> option A) :
  cond = true -> (assert cond ≫= k) = k tt.
Proof. intros ->. reflexivity. Qed.

Lemma Some_bind {A B : Type} (x : A) (k : A -> option B) : (Some x ≫= k) = k x.
Proof. reflexivity. Qed.

Context {H : Headers}.
Implicit Types pipeline : intel_pipeline H.

Lemma cmds_set_cmd_len pipeline len : cmds (set_cmd_len pipeline len) = cmds pipeline.
Proof. reflexivity. Qed.

Lemma cmds_store pipeline dw k v :
  cmds (store pipeline dw k v) = arr_set (cmds pipeline) (dw + k) (to_uint32 v).
Proof. reflexivity. Qed.


End ArrayFacts.

(** Passes an [assert] that is known to have held. *)
Ltac step_assert Hu :=
  let Hc := fresh "Hc" in
  apply assert_bind_Some in Hu as [Hc Hu]; cbv beta in Hu.

(** Reads a word back through the stores made after it. *)
Ltac read_back :=
  repeat first
    [ rewrite cmds_store
    | rewrite cmds_set_cmd_len
    | rewrite arr_get_set_ne by lia
    | rewrite arr_get_set_same by (rewrite ?arr_set_length; lia) ].

(** ** URB allocation *)

Section UrbFacts.
Import Pipeline CInt CIntFacts Stated.
Context {H : Headers}.
Implicit Types pipeline : intel_pipeline H.

Lemma entry_size_bytes_eq count :
  0 <= count < 2 ^ 26 -> entry_size_bytes count = 16 * count.
Proof.
  intros Hc. unfold entry_size_bytes.
  rewrite (to_int_small count) by lia. rewrite to_int_small by lia. lia.
Qed.

Lemma urb_alloc_size_eq row entry_size :
  0 < row <= 1024 -> 0 <= entry_size < 2 ^ 30 ->
  urb_alloc_size row entry_size = Z.max 1 ((entry_size + row - 1) / row).
Proof.
  intros Hrow Hs. unfold urb_alloc_size.
  rewrite (to_int_small (entry_size + row)) by lia.
  rewrite (to_int_small (entry_size + row - 1)) by lia.
  rewrite Z.quot_div_nonneg by lia.
  assert (Hq : 0 <= (entry_size + row - 1) / row <= entry_size + row - 1).
  { split; [apply Z.div_pos; lia |].
    apply Z.div_le_upper_bound; [lia |]. nia. }
  rewrite to_int_small by lia.
  destruct (Z.eqb_spec ((entry_size + row - 1) / row) 0); lia.
Qed.

(** Rows counted in bytes and rows counted in bits agree. *)
Lemma row_count_bytes bits row entry_size :
  bits = 8 * row -> 0 < row -> 0 <= entry_size ->
  row_count bits entry_size = Z.max 1 ((entry_size + row - 1) / row).
Proof.
  intros -> Hrow Hs. unfold row_count.
  assert (Heq : (8 * entry_size + 8 * row - 1) / (8 * row)
                = (entry_size + row - 1) / row).
  { symmetry. apply (Z.div_unique_pos _ _ _
      (8 * ((entry_size + row - 1) mod row) + 7)).
    - pose proof (Z.mod_pos_bound (entry_size + row - 1) row Hrow). lia.
    - pose proof (Z.div_mod (entry_size + row - 1) row ltac:(lia)). lia. }
  rewrite Heq.
  assert (0 <= (entry_size + row - 1) / row) by (apply Z.div_pos; lia).
  destruct (Z.eqb_spec ((entry_size + row - 1) / row) 0); lia.
Qed.

Lemma row_count_pos bits size : 0 < bits -> 0 <= size -> 1 <= row_count bits size.
Proof.
  intros Hbits Hsize. unfold row_count.
  assert (0 <= (8 * size + bits - 1) / bits) by (apply Z.div_pos; lia).
  destruct (Z.eqb_spec ((8 * size + bits - 1) / bits) 0); lia.
Qed.

(** Clearing the low [n] bits leaves a multiple of [2^n]. *)
Lemma land_lnot_ones x n :
  0 <= n -> Z.land x (Z.lnot (Z.ones n)) = 2 ^ n * (x / 2 ^ n).
Proof.
  intros Hn. rewrite <- Z.ldiff_land, Z.ldiff_ones_r by exact Hn.
  rewrite Z.shiftl_mul_pow2, Z.shiftr_div_pow2 by exact Hn. lia.
Qed.

Lemma land_lnot_3 x : Z.land x (Z.lnot 3) = 4 * (x / 4).
Proof. exact (land_lnot_ones x 2 ltac:(lia)). Qed.

(** What [urb_layout_gen6] returns, when it returns. *)
Lemma urb_layout_gen6_Some pipeline u :
  urb_layout_gen6 pipeline = Some u ->
  let g := gpu (dev pipeline) in
  let geometry := truthy (Z.land (active_shaders pipeline) (SHADER_GEOMETRY_FLAG H)) in
  gpu_gen g = INTEL_GEN_6 H /\
  urb_size u = gen6_urb_size g /\
  vs_size u = (if geometry then gen6_urb_size g ÷ 2 else gen6_urb_size g) /\
  gs_size u = (if geometry then gen6_urb_size g ÷ 2 else 0) /\
  vs_alloc_size u = urb_alloc_size 128 (entry_size_bytes (vs_slot_count (vs pipeline))) /\
  gs_alloc_size u = urb_alloc_size 128 (entry_size_bytes (out_count (gs pipeline))) /\
  vs_alloc_size u <= 5 /\ gs_alloc_size u <= 5 /\
  (vs_entry_count u = 256 \/
   vs_entry_count u = Z.land (vs_size u ÷ 128 ÷ vs_alloc_size u) (Z.lnot 3)) /\
  24 <= vs_entry_count u <= 256.
Proof.
  intros Hu g geometry. unfold urb_layout_gen6, INTEL_GPU_ASSERT in Hu.
  cbv zeta in Hu. fold g in Hu. fold geometry in Hu.
  step_assert Hu. apply andb_true_iff in Hc as [Hlo Hhi].
  apply Z.leb_le in Hlo, Hhi.
  destruct geometry; cbv beta iota in Hu.
  all: step_assert Hu; apply andb_true_iff in Hc as [Hva Hga];
    apply Z.leb_le in Hva, Hga.
  all: step_assert Hu; apply Z.geb_le in Hc.
  all: injection Hu as <-; cbv beta iota delta [urb_size vs_size gs_size vs_alloc_size
         gs_alloc_size vs_entry_count gs_entry_count].
  all: repeat match goal with
         | Hn : context [?n >? 256] |- _ => destruct (Z.gtb_spec n 256)
         | |- context [?n >? 256] => destruct (Z.gtb_spec n 256)
         end.
  all: repeat match goal with |- _ /\ _ => split end;
    try reflexivity; try assumption; try lia; auto.
Qed.

Lemma gen6_urb_size_gt2 g : gt g = 2 -> gen6_urb_size g = 64 * 1024.
Proof. intros Hgt. unfold gen6_urb_size. rewrite Hgt. reflexivity. Qed.

(** With at most 40 slots a stage, every [assert] of the older generation
    holds on a GT2 part. *)
Lemma urb_layout_gen6_defined pipeline :
  gpu_gen (gpu (dev pipeline)) = INTEL_GEN_6 H ->
  gt (gpu (dev pipeline)) = 2 ->
  0 <= vs_slot_count (vs pipeline) <= 40 ->
  0 <= out_count (gs pipeline) <= 40 ->
  exists u, urb_layout_gen6 pipeline = Some u.
Proof.
  intros Hgen Hgt Hvs Hgs. unfold urb_layout_gen6, INTEL_GPU_ASSERT. cbv zeta.
  rewrite (gen6_urb_size_gt2 _ Hgt), Hgen.
  rewrite assert_bind_true by (rewrite Z.leb_refl; reflexivity).
  rewrite (entry_size_bytes_eq (vs_slot_count (vs pipeline))) by lia.
  rewrite (entry_size_bytes_eq (out_count (gs pipeline))) by lia.
  rewrite (urb_alloc_size_eq 128 (16 * vs_slot_count (vs pipeline))) by lia.
  rewrite (urb_alloc_size_eq 128 (16 * out_count (gs pipeline))) by lia.
  set (va := Z.max 1 ((16 * vs_slot_count (vs pipeline) + 128 - 1) / 128)).
  set (ga := Z.max 1 ((16 * out_count (gs pipeline) + 128 - 1) / 128)).
  assert (Hva : 1 <= va <= 5).
  { subst va.
    assert ((16 * vs_slot_count (vs pipeline) + 128 - 1) / 128 < 6)
      by (apply Z.div_lt_upper_bound; lia).
    lia. }
  assert (Hga : 1 <= ga <= 5).
  { subst ga.
    assert ((16 * out_count (gs pipeline) + 128 - 1) / 128 < 6)
      by (apply Z.div_lt_upper_bound; lia).
    lia. }
  clearbody va ga.
  assert (Hcases : va = 1 \/ va = 2 \/ va = 3 \/ va = 4 \/ va = 5) by lia.
  destruct (truthy (Z.land (active_shaders pipeline) (SHADER_GEOMETRY_FLAG H)));
    cbv beta iota.
  all: rewrite assert_bind_true
    by (apply andb_true_iff; split; apply Z.leb_le; lia).
  all: rewrite assert_bind_true;
    [eexists; reflexivity |
     destruct Hcases as [-> | [-> | [-> | [-> | ->]]]]; reflexivity].
Qed.

(** The three words of [3DSTATE_URB], once the layout is known and the
    sink has room. *)
Lemma pipeline_build_urb_alloc_gen6_emits pipeline u :
  urb_layout_gen6 pipeline = Some u ->
  sink_ok pipeline ->
  cmd_len pipeline + 3 < INTEL_PSO_CMD_ENTRIES H ->
  exists pipeline',
    pipeline_build_urb_alloc_gen6 pipeline = Some pipeline' /\
    cmd_len pipeline' = cmd_len pipeline + 3 /\
    arr_get (cmds pipeline') (cmd_len pipeline) =
      Some (to_uint32 (Z.lor (RENDER_CMD_3D H GEN6_3DSTATE_URB) 1)) /\
    arr_get (cmds pipeline') (cmd_len pipeline + 1) =
      Some (to_uint32
              (Z.lor (Z.shiftl (vs_alloc_size u - 1) (GEN6_URB_DW1_VS_ENTRY_SIZE__SHIFT H))
                     (Z.shiftl (vs_entry_count u)
                        (GEN6_URB_DW1_VS_ENTRY_COUNT__SHIFT H)))) /\
    arr_get (cmds pipeline') (cmd_len pipeline + 2) =
      Some (to_uint32
              (Z.lor (Z.shiftl (gs_entry_count u) (GEN6_URB_DW2_GS_ENTRY_COUNT__SHIFT H))
                     (Z.shiftl (gs_alloc_size u - 1)
                        (GEN6_URB_DW2_GS_ENTRY_SIZE__SHIFT H)))).
Proof.
  intros Hu [Hlen Hcmds] Hroom. unfold pipeline_build_urb_alloc_gen6.
  rewrite Hu, Some_bind. cbv zeta.
  rewrite pipeline_cmd_ptr_fits by exact Hroom. rewrite Some_bind.
  eexists. split; [reflexivity |]. split; [reflexivity |].
  repeat split.
  all: read_back; reflexivity.
Qed.

(** C4. On the older generation with GT tier 2 the capacity is 64 KiB.
    Whatever the slot counts, when the allocator gets past its checks the
    vertex and geometry partitions are 32 KiB each with the geometry stage
    active and 64 KiB and nothing without it, and the vertex entry count is a
    multiple of 4 between 24 and 256; that count is what goes into the
    second word of the command, which is emitted when the sink has room. The
    checks are passed for every stage of at most 40 slots. *)
Theorem urb_alloc_gen6_gt2 pipeline :
  gpu_gen (gpu (dev pipeline)) = INTEL_GEN_6 H ->
  gt (gpu (dev pipeline)) = 2 ->
  gen6_urb_size (gpu (dev pipeline)) = 64 * 1024 /\
  (forall u, urb_layout_gen6 pipeline = Some u ->
     urb_size u = 64 * 1024 /\
     (stage_active (active_shaders pipeline) (SHADER_GEOMETRY_FLAG H) ->
      vs_size u = 32 * 1024 /\ gs_size u = 32 * 1024) /\
     (~ stage_active (active_shaders pipeline) (SHADER_GEOMETRY_FLAG H) ->
      vs_size u = 64 * 1024 /\ gs_size u = 0) /\
     Z.divide 4 (vs_entry_count u) /\
     24 <= vs_entry_count u <= 256 /\
     (sink_ok pipeline -> cmd_len pipeline + 3 < INTEL_PSO_CMD_ENTRIES H ->
      exists pipeline',
        pipeline_build_urb_alloc_gen6 pipeline = Some pipeline' /\
        arr_get (cmds pipeline') (cmd_len pipeline + 1) =
          Some (to_uint32
                  (Z.lor (Z.shiftl (vs_alloc_size u - 1)
                            (GEN6_URB_DW1_VS_ENTRY_SIZE__SHIFT H))
                         (Z.shiftl (vs_entry_count u)
                            (GEN6_URB_DW1_VS_ENTRY_COUNT__SHIFT H)))))) /\
  (0 <= vs_slot_count (vs pipeline) <= 40 ->
   0 <= out_count (gs pipeline) <= 40 ->
   exists u, urb_layout_gen6 pipeline = Some u).
Proof.
  intros Hgen Hgt. split; [exact (gen6_urb_size_gt2 _ Hgt) |].
  split; [| exact (urb_layout_gen6_defined pipeline Hgen Hgt)].
  intros u Hu.
  destruct (urb_layout_gen6_Some pipeline u Hu)
    as (_ & Hsize & Hvs & Hgs & _ & _ & _ & _ & Hcount & Hrange).
  rewrite (gen6_urb_size_gt2 _ Hgt) in Hsize, Hvs, Hgs.
  split; [exact Hsize |].
  split; [| split; [| split; [| split; [exact Hrange |]]]].
  - intros Hg. apply truthy_active in Hg. rewrite Hg in Hvs, Hgs.
    split; [rewrite Hvs | rewrite Hgs]; reflexivity.
  - intros Hg. apply truthy_inactive in Hg. rewrite Hg in Hvs, Hgs.
    split; [rewrite Hvs | rewrite Hgs]; reflexivity.
  - destruct Hcount as [-> | ->]; [exists 64; reflexivity |].
    rewrite land_lnot_3. eexists. apply Z.mul_comm.
  - intros Hok Hroom.
    destruct (pipeline_build_urb_alloc_gen6_emits pipeline u Hu Hok Hroom)
      as (pipeline' & Hbuild & _ & _ & Hdw1 & _).
    exists pipeline'. split; [exact Hbuild | exact Hdw1].
Qed.

(** The row counts in what [urb_layout_gen7] returns. *)
Lemma urb_layout_gen7_Some pipeline u :
  urb_layout_gen7 pipeline = Some u ->
  vs_alloc_size u = gen7_vs_alloc_size (entry_size_bytes (vs_slot_count (vs pipeline))) /\
  gs_alloc_size u = gen7_gs_alloc_size (entry_size_bytes (out_count (gs pipeline))).
Proof.
  intros Hu. unfold urb_layout_gen7, INTEL_GPU_ASSERT in Hu. cbv zeta in Hu.
  step_assert Hu.
  destruct (truthy (Z.land (active_shaders pipeline) (SHADER_GEOMETRY_FLAG H)));
    cbv beta iota in Hu.
  all: step_assert Hu.
  all: destruct (gen7_max_entry_counts H (gpu (dev pipeline))) as [max_vs max_gs];
    cbv beta iota in Hu.
  all: injection Hu as <-; split; reflexivity.
Qed.

Lemma urb_alloc_size_row_count bits row count :
  bits = 8 * row -> 0 < row <= 1024 -> 0 <= count < 2 ^ 26 ->
  urb_alloc_size row (entry_size_bytes count) = row_count bits (16 * count).
Proof.
  intros Hbits Hrow Hcount.
  rewrite entry_size_bytes_eq by exact Hcount.
  rewrite urb_alloc_size_eq by lia.
  rewrite (row_count_bytes bits row) by lia. reflexivity.
Qed.

Lemma urb_alloc_sizes_gen6 pipeline u :
  0 <= vs_slot_count (vs pipeline) < 2 ^ 26 ->
  0 <= out_count (gs pipeline) < 2 ^ 26 ->
  urb_layout_gen6 pipeline = Some u ->
  vs_alloc_size u = row_count 1024 (16 * vs_slot_count (vs pipeline)) /\
  gs_alloc_size u = row_count 1024 (16 * out_count (gs pipeline)) /\
  1 <= vs_alloc_size u <= 5 /\ 1 <= gs_alloc_size u <= 5.
Proof.
  intros Hvs Hgs Hu.
  destruct (urb_layout_gen6_Some pipeline u Hu)
    as (_ & _ & _ & _ & Hva & Hga & Hv5 & Hg5 & _).
  rewrite (urb_alloc_size_row_count 1024 128) in Hva, Hga by lia.
  pose proof (row_count_pos 1024 (16 * vs_slot_count (vs pipeline))
                ltac:(lia) ltac:(lia)) as Hv1.
  pose proof (row_count_pos 1024 (16 * out_count (gs pipeline))
                ltac:(lia) ltac:(lia)) as Hg1.
  rewrite <- Hva in Hv1. rewrite <- Hga in Hg1.
  split; [exact Hva |]. split; [exact Hga |].
  split; [split; [exact Hv1 | exact Hv5] | split; [exact Hg1 | exact Hg5]].
Qed.

Lemma urb_alloc_sizes_gen7 pipeline u :
  0 <= vs_slot_count (vs pipeline) < 2 ^ 26 ->
  0 <= out_count (gs pipeline) < 2 ^ 26 ->
  urb_layout_gen7 pipeline = Some u ->
  vs_alloc_size u = remap_5_to_6 (row_count 512 (16 * vs_slot_count (vs pipeline))) /\
  gs_alloc_size u = row_count 512 (16 * out_count (gs pipeline)).
Proof.
  intros Hvs Hgs Hu.
  destruct (urb_layout_gen7_Some pipeline u Hu) as [Hva Hga].
  rewrite Hva, Hga. unfold gen7_vs_alloc_size, gen7_gs_alloc_size, remap_5_to_6.
  rewrite !(urb_alloc_size_row_count 512 64) by lia.
  split; reflexivity.
Qed.

(** C5, as the code has it. For stages of 0 to [2^26 - 1] slots, sixteen
    bytes a slot, where the [int] arithmetic of the allocator does not wrap:
    the row count of a stage is its entry size in bytes over the row of the
    generation, rounded up, and 1 where that is 0; the row is 1024 bits (128
    bytes) on the older generation and 512 bits on the newer. On the older
    generation the command is only built with both counts between 1 and 5. On
    the newer generation the count of the vertex stage, and of that stage
    only, goes from 5 to 6; no other value is changed. *)
Theorem urb_alloc_sizes pipeline :
  0 <= vs_slot_count (vs pipeline) < 2 ^ 26 ->
  0 <= out_count (gs pipeline) < 2 ^ 26 ->
  (forall u, urb_layout_gen6 pipeline = Some u ->
     vs_alloc_size u = row_count 1024 (16 * vs_slot_count (vs pipeline)) /\
     gs_alloc_size u = row_count 1024 (16 * out_count (gs pipeline)) /\
     1 <= vs_alloc_size u <= 5 /\ 1 <= gs_alloc_size u <= 5) /\
  (forall u, urb_layout_gen7 pipeline = Some u ->
     vs_alloc_size u = remap_5_to_6 (row_count 512 (16 * vs_slot_count (vs pipeline))) /\
     gs_alloc_size u = row_count 512 (16 * out_count (gs pipeline))).
Proof.
  intros Hvs Hgs. split; intros u Hu.
  - exact (urb_alloc_sizes_gen6 pipeline u Hvs Hgs Hu).
  - exact (urb_alloc_sizes_gen7 pipeline u Hvs Hgs Hu).
Qed.

End UrbFacts.

(** The first scenario of the older generation: a GT2 part, vertex stage
    with no input and four outputs, geometry and fragment stages active. *)
Lemma urb_alloc_gen6_gt2_witness :
  let pipeline :=
    Sample.pipeline_of Sample.gen6_gt2 128 0 25 XGL_TOPOLOGY_TRIANGLE_LIST
      {| Pipeline.in_count := 0; Pipeline.out_count := 4; Pipeline.uses := 0 |}
      Sample.shader_none in
  gpu_gen (Pipeline.gpu (Pipeline.dev pipeline)) = INTEL_GEN_6 Sample.headers /\
  gt (Pipeline.gpu (Pipeline.dev pipeline)) = 2 /\
  Pipeline.gen6_urb_size (Pipeline.gpu (Pipeline.dev pipeline)) = 64 * 1024 /\
  exists u,
    Pipeline.urb_layout_gen6 pipeline = Some u /\
    Pipeline.vs_size u = 32 * 1024 /\ Pipeline.gs_size u = 32 * 1024 /\
    Z.divide 4 (Pipeline.vs_entry_count u) /\
    24 <= Pipeline.vs_entry_count u <= 256.
Proof.
  intros pipeline. split; [reflexivity |]. split; [reflexivity |].
  destruct (urb_alloc_gen6_gt2 pipeline eq_refl eq_refl) as (Hsize & Hsome & Hdefined).
  split; [exact Hsize |].
  destruct Hdefined as [u Hu]; [vm_compute; split; discriminate .. |].
  exists u. split; [exact Hu |].
  destruct (Hsome u Hu) as (_ & Hgeom & _ & Hdiv & Hrange & _).
  destruct Hgeom as [Hvs Hgs]; [vm_compute; discriminate |].
  repeat split; try assumption; apply Hrange.
Defined.

(** C5, as stated, fails twice. On the older generation a vertex stage of
    two slots (32 bytes, 256 bits) takes one row, where rows of 128 bits
    would make two. On the newer generation a geometry stage of twenty slots
    takes five rows, and they stay five. *)
Lemma urb_rows_as_stated_fail :
  let older :=
    Sample.pipeline_of Sample.gen6_gt2 128 0 1 XGL_TOPOLOGY_TRIANGLE_LIST
      {| Pipeline.in_count := 2; Pipeline.out_count := 0; Pipeline.uses := 0 |}
      Sample.shader_none in
  let newer :=
    Sample.pipeline_of Sample.gen7_gt2 128 0 9 XGL_TOPOLOGY_TRIANGLE_LIST
      {| Pipeline.in_count := 0; Pipeline.out_count := 4; Pipeline.uses := 0 |}
      {| Pipeline.in_count := 4; Pipeline.out_count := 20; Pipeline.uses := 0 |} in
  (Pipeline.vs_alloc_size <$> Pipeline.urb_layout_gen6 older) = Some 1 /\
  Stated.row_count 128 (16 * 2) = 2 /\
  (Pipeline.gs_alloc_size <$> Pipeline.urb_layout_gen7 newer) = Some 5 /\
  Stated.remap_5_to_6 (Stated.row_count 512 (16 * 20)) = 6.
Proof. repeat split; vm_compute; reflexivity. Qed.

(** Beyond that range the [int] arithmetic wraps and the row count is no
    longer the quotient: a geometry stage of [2^27] slots on the older
    generation has an entry size of [-2^31] bytes and a row count of
    [-16777215], which passes the check against 5. *)
Example urb_alloc_size_wraps :
  let older :=
    Sample.pipeline_of Sample.gen6_gt2 128 0 1 XGL_TOPOLOGY_TRIANGLE_LIST
      {| Pipeline.in_count := 2; Pipeline.out_count := 0; Pipeline.uses := 0 |}
      {| Pipeline.in_count := 0; Pipeline.out_count := 2 ^ 27; Pipeline.uses := 0 |} in
  Pipeline.entry_size_bytes (2 ^ 27) = - 2 ^ 31 /\
  (Pipeline.gs_alloc_size <$> Pipeline.urb_layout_gen6 older) = Some (-16777215) /\
  Stated.row_count 1024 (16 * 2 ^ 27) = 16777216.
Proof. repeat split; vm_compute; reflexivity. Qed.

(** A newer GT2 part with vertex and geometry stages of twenty slots each:
    five rows for both, six emitted for the vertex stage. *)
Lemma urb_alloc_sizes_witness :
  let pipeline :=
    Sample.pipeline_of Sample.gen7_gt2 128 0 9 XGL_TOPOLOGY_TRIANGLE_LIST
      {| Pipeline.in_count := 20; Pipeline.out_count := 4; Pipeline.uses := 0 |}
      {| Pipeline.in_count := 4; Pipeline.out_count := 20; Pipeline.uses := 0 |} in
  0 <= Pipeline.vs_slot_count (Pipeline.vs pipeline) < 2 ^ 26 /\
  0 <= Pipeline.out_count (Pipeline.gs pipeline) < 2 ^ 26 /\
  exists u,
    Pipeline.urb_layout_gen7 pipeline = Some u /\
    Pipeline.vs_alloc_size u = 6 /\ Pipeline.gs_alloc_size u = 5.
Proof.
  intros pipeline.
  assert (Hvs : 0 <= Pipeline.vs_slot_count (Pipeline.vs pipeline) < 2 ^ 26)
    by (vm_compute; split; [discriminate | reflexivity]).
  assert (Hgs : 0 <= Pipeline.out_count (Pipeline.gs pipeline) < 2 ^ 26)
    by (vm_compute; split; [discriminate | reflexivity]).
  split; [exact Hvs |]. split; [exact Hgs |].
  destruct (urb_alloc_sizes pipeline Hvs Hgs) as [_ Hnewer].
  destruct (Pipeline.urb_layout_gen7 pipeline) as [u |] eqn:Hu;
    [| vm_compute in Hu; discriminate Hu].
  exists u. split; [reflexivity |].
  destruct (Hnewer u eq_refl) as [Hva Hga]. split; [exact Hva | exact Hga].
Defined.

(** ** Push-constant allocation *)

Section PushConstFacts.
Import Pipeline CInt Stated.
Context {H : Headers}.
Implicit Types pipeline : intel_pipeline H.

Lemma push_const_offset_size_eq : push_const_offset_size = Some (0, 8).
Proof. reflexivity. Qed.


End PushConstFacts.


(** ** Vertex elements *)

Section VertexElementFacts.
Import Pipeline CInt CIntFacts Stated.
Context {H : Headers}.
Implicit Types pipeline : intel_pipeline H.
Implicit Types attr : Xgl.XGL_VERTEX_INPUT_ATTRIBUTE_DESCRIPTION H.


(** The loop writes two words an attribute from [dw] on and nothing else. *)
Lemma vertex_elements_loop_spec attrs :
  forall dw pipeline,
    Forall (fun attr => Xgl.offsetInBytes attr <= 2047) attrs ->
    0 <= dw ->
    dw + 2 * Z.of_nat (length attrs) <= Z.of_nat (length (cmds pipeline)) ->
    exists pipeline',
      vertex_elements_loop attrs dw pipeline =
        Some (dw + 2 * Z.of_nat (length attrs), pipeline') /\
      cmd_len pipeline' = cmd_len pipeline /\
      length (cmds pipeline') = length (cmds pipeline) /\
      (forall (i : nat) attr, attrs !! i = Some attr ->
         arr_get (cmds pipeline') (dw + 2 * Z.of_nat i) =
           Some (to_uint32 (ve_dw0 (gpu (dev pipeline)) attr)) /\
         arr_get (cmds pipeline') (dw + 2 * Z.of_nat i + 1) =
           Some (to_uint32 (ve_dw1 H (attr_comps attr)))) /\
      (forall j, j < dw \/ dw + 2 * Z.of_nat (length attrs) <= j ->
         arr_get (cmds pipeline') j = arr_get (cmds pipeline) j).
Proof.
  induction attrs as [| attr attrs IH]; intros dw pipeline Hoff Hdw Hfit.
  - exists pipeline. simpl length. rewrite Z.mul_0_r, Z.add_0_r.
    split; [reflexivity |]. split; [reflexivity |]. split; [reflexivity |].
    split; [intros i a Hi; discriminate Hi | reflexivity].
  - apply Forall_cons in Hoff as [Hattr Hoff].
    cbn [vertex_elements_loop]. cbv zeta.
    rewrite assert_bind_true by (apply Z.leb_le; exact Hattr).
    set (p2 := store (store pipeline dw 0 (ve_dw0 (gpu (dev pipeline)) attr)) dw 1
                 (ve_dw1 H (attr_comps attr))).
    assert (Hlen2 : length (cmds p2) = length (cmds pipeline))
      by (subst p2; rewrite !cmds_store, !arr_set_length; reflexivity).
    cbn [length] in Hfit. 
    destruct (IH (dw + 2) p2 Hoff ltac:(lia) ltac:(rewrite Hlen2; lia))
      as (pipeline' & Hloop & Hcl & Hlen & Hwords & Hrest).
    exists pipeline'. rewrite Hloop. cbn [length].
    split; [f_equal; f_equal; lia |].
    split; [exact Hcl |]. split; [rewrite Hlen; exact Hlen2 |]. split.
    + intros [| i] a Hi.
      * injection Hi as <-. rewrite !Hrest by lia. subst p2.
        split; read_back; reflexivity.
      * destruct (Hwords i a Hi) as [Hw0 Hw1].
        replace (dw + 2 * Z.of_nat (S i)) with (dw + 2 + 2 * Z.of_nat i) by lia.
        split; [exact Hw0 | exact Hw1].
    + intros j Hj. rewrite Hrest by lia. subst p2. read_back. reflexivity.
Qed.


End VertexElementFacts.

(** ** The descriptor assembler *)

Section AssemblerFacts.
Import Assembler Stated.
Context {H : Headers}.
Implicit Types info : intel_pipeline_create_info H.
Implicit Types header : Xgl.intel_pipeline_create_info_header H.
Implicit Types chain : list (Xgl.intel_pipeline_create_info_header H).

(** The fragments that the [switch] rejects are those that are for no slot. *)
Lemma copy_of_None header : copy_of header = None <-> slot_of header = None.
Proof.
  destruct header as [g | v | i | d | c | r | t | sh | c | n]; simpl;
    try (split; discriminate); try (split; reflexivity).
  destruct (Xgl.stage sh); simpl; split; (discriminate || reflexivity).
Qed.

(** A copy fills the slot of its fragment with that fragment and leaves
    every other slot as it was. *)
Lemma copy_of_Some header memcpy_to_dst :
  copy_of header = Some memcpy_to_dst ->
  exists s0,
    slot_of header = Some s0 /\
    forall info,
      slot_content s0 (memcpy_to_dst info) = header /\
      forall s, s <> s0 -> slot_content s (memcpy_to_dst info) = slot_content s info.
Proof.
  destruct header as [g | v | i | d | c | r | t | sh | c | n]; simpl; intros Hcopy;
    try discriminate Hcopy.
  8: destruct sh as [st handle]; destruct st; simpl in *; try discriminate Hcopy.
  all: injection Hcopy as <-; eexists; (split; [reflexivity |]); intros info;
    (split; [reflexivity |]); intros s Hs; destruct s; try reflexivity;
    exfalso; apply Hs; reflexivity.
Qed.

Lemma create_info_walk_result chain :
  forall info,
    (create_info_walk info chain).1 = XGL_SUCCESS \/
    (create_info_walk info chain).1 = XGL_ERROR_BAD_PIPELINE_DATA.
Proof.
  induction chain as [| header next IH]; intros info; simpl; [left; reflexivity |].
  destruct (copy_of header); [apply IH | right; reflexivity].
Qed.

(** A fragment that is for no slot, anywhere in the chain, fails the walk. *)
Lemma create_info_walk_unrecognized chain :
  forall info header,
    header ∈ chain -> slot_of header = None ->
    (create_info_walk info chain).1 = XGL_ERROR_BAD_PIPELINE_DATA.
Proof.
  induction chain as [| h next IH]; intros info header Hin Hnone.
  - apply elem_of_nil in Hin. destruct Hin.
  - simpl. destruct (copy_of h) as [f |] eqn:Hcopy; [| reflexivity].
    apply elem_of_cons in Hin as [-> | Hin].
    + apply copy_of_None in Hnone. congruence.
    + exact (IH (f info) header Hin Hnone).
Qed.

(** The walk over recognized fragments succeeds, and every slot ends up
    with the last fragment that is for it, or as it started. *)
Lemma create_info_walk_last chain :
  forall info0,
    Forall (fun header => is_Some (slot_of header)) chain ->
    exists info,
      create_info_walk info0 chain = (XGL_SUCCESS, info) /\
      forall s,
        slot_content s info = default (slot_content s info0) (last_for_slot s chain).
Proof.
  induction chain as [| header next IH]; intros info0 Hall.
  - exists info0. split; [reflexivity |]. intros s. reflexivity.
  - apply Forall_cons in Hall as [[s0 Hs0] Hall]. simpl.
    destruct (copy_of header) as [f |] eqn:Hcopy;
      [| apply copy_of_None in Hcopy; congruence].
    destruct (copy_of_Some header f Hcopy) as (s1 & Hs1 & Hf).
    assert (s1 = s0) by congruence. subst s1.
    destruct (IH (f info0) Hall) as (info & Hwalk & Hslots).
    exists info. split; [exact Hwalk |]. intros s. rewrite Hslots.
    unfold last_for_slot. rewrite filter_cons.
    destruct (Hf info0) as [Hsame Hother].
    destruct (decide (slot_of header = Some s)) as [Hs | Hs].
    + assert (s = s0) by congruence. subst s. rewrite Hsame.
      destruct (filter (fun header => slot_of header = Some s0) next) as [| h l] eqn:Hl;
        [reflexivity |].
      change (last (header :: h :: l)) with (last (h :: l)).
      destruct (last (h :: l)) eqn:Hlast; [reflexivity |].
      apply last_None in Hlast. discriminate Hlast.
    + rewrite Hother by congruence. reflexivity.
Qed.

(** C10. A chain in which every fragment is recognized is assembled with
    success whether or not two of its fragments are for the same slot, and
    each slot of the descriptor then holds the last fragment for that slot in
    chain order: a later fragment with the same type tag, or the same stage
    enumerator for a shader-stage fragment, replaces the earlier one. A slot
    that no fragment is for stays zero. *)
Theorem pipeline_create_info_init_last_wins (zeroed : intel_pipeline_create_info H) chain :
  Forall (fun header => is_Some (slot_of header)) chain ->
  exists info,
    pipeline_create_info_init zeroed chain = (XGL_SUCCESS, info) /\
    forall s,
      slot_content s info =
        match last_for_slot s chain with
        | Some header => header
        | None => slot_content s zeroed
        end.
Proof.
  intros Hall.
  destruct (create_info_walk_last chain zeroed Hall) as (info & Hwalk & Hslots).
  exists info. split; [exact Hwalk |]. intros s. rewrite Hslots.
  destruct (last_for_slot s chain); reflexivity.
Qed.

End AssemblerFacts.

(** Two vertex-shader fragments and two input-assembly fragments: the
    second of each is what the descriptor holds. *)
Lemma pipeline_create_info_init_last_wins_witness :
  let vs1 := Xgl.XGL_STRUCTURE_TYPE_PIPELINE_SHADER_STAGE_CREATE_INFO
               {| Xgl.stage := XGL_SHADER_STAGE_VERTEX;
                  Xgl.shader := (21 : XGL_SHADER Sample.headers) |} in
  let vs2 := Xgl.XGL_STRUCTURE_TYPE_PIPELINE_SHADER_STAGE_CREATE_INFO
               {| Xgl.stage := XGL_SHADER_STAGE_VERTEX;
                  Xgl.shader := (22 : XGL_SHADER Sample.headers) |} in
  let chain := vs1 :: Sample.scenario_chain ++ [vs2] in
  Forall (fun header => is_Some (Stated.slot_of header)) chain /\
  exists info,
    Assembler.pipeline_create_info_init Sample.zeroed chain = (XGL_SUCCESS, info) /\
    Stated.slot_content Stated.slot_vs info = vs2.
Proof.
  intros vs1 vs2 chain.
  assert (Hall : Forall (fun header => is_Some (Stated.slot_of header)) chain)
    by (repeat constructor; eexists; reflexivity).
  split; [exact Hall |].
  destruct (pipeline_create_info_init_last_wins Sample.zeroed chain Hall)
    as (info & Hinit & Hslots).
  exists info. split; [exact Hinit |]. exact (Hslots Stated.slot_vs).
Defined.

(** ** The build *)

Section BuildFacts.
Import Pipeline Stated.
Context {H : Headers}.
Variable pipeline_build_shaders :
  intel_pipeline H -> Assembler.intel_pipeline_create_info H ->
  XGL_RESULT * intel_pipeline H.
Variable intel_base_create : intel_dev -> option (intel_pipeline H).
Variable zeroed : Assembler.intel_pipeline_create_info H.

(** A chain with a fragment that is for no slot is turned down before an
    object is asked for. *)
Lemma graphics_pipeline_create_unrecognized dev info_ header :
  header ∈ info_ -> slot_of header = None ->
  graphics_pipeline_create pipeline_build_shaders intel_base_create zeroed dev info_ =
    Some (Rejected_by_info_init XGL_ERROR_BAD_PIPELINE_DATA).
Proof.
  intros Hin Hnone. unfold graphics_pipeline_create, Assembler.pipeline_create_info_init.
  pose proof (create_info_walk_unrecognized info_ zeroed header Hin Hnone) as Hbad.
  destruct (Assembler.create_info_walk zeroed info_) as [ret info].
  simpl in Hbad. subst ret. reflexivity.
Qed.

(** C8. The chain of the scenario (graphics-pipeline header, input
    assembly with triangle-list, vertex shader, fragment shader, vertex input
    with no binding and no attribute) with a compute-shader fragment put in
    at any place: the creation returns the bad-pipeline-data error from the
    assembly of the descriptor, before an object is allocated; no command
    word is emitted and the caller receives no pipeline. *)
Theorem compute_shader_fragment_rejected dev g ia vsh fsh vi csh pre post :
  Xgl.topology ia = XGL_TOPOLOGY_TRIANGLE_LIST ->
  Xgl.stage vsh = XGL_SHADER_STAGE_VERTEX ->
  Xgl.stage fsh = XGL_SHADER_STAGE_FRAGMENT ->
  Xgl.bindingCount vi = 0 ->
  Xgl.attributeCount vi = 0 ->
  Xgl.stage csh = XGL_SHADER_STAGE_COMPUTE ->
  pre ++ post =
    [ Xgl.XGL_STRUCTURE_TYPE_GRAPHICS_PIPELINE_CREATE_INFO g;
      Xgl.XGL_STRUCTURE_TYPE_PIPELINE_IA_STATE_CREATE_INFO ia;
      Xgl.XGL_STRUCTURE_TYPE_PIPELINE_SHADER_STAGE_CREATE_INFO vsh;
      Xgl.XGL_STRUCTURE_TYPE_PIPELINE_SHADER_STAGE_CREATE_INFO fsh;
      Xgl.XGL_STRUCTURE_TYPE_PIPELINE_VERTEX_INPUT_CREATE_INFO vi ] ->
  let outcome :=
    graphics_pipeline_create pipeline_build_shaders intel_base_create zeroed dev
      (pre ++ Xgl.XGL_STRUCTURE_TYPE_PIPELINE_SHADER_STAGE_CREATE_INFO csh :: post) in
  outcome = Some (Rejected_by_info_init XGL_ERROR_BAD_PIPELINE_DATA) /\
  create_result <$> outcome = Some XGL_ERROR_BAD_PIPELINE_DATA /\
  pipeline_ret <$> outcome = Some None /\
  words_emitted <$> outcome = Some 0.
Proof.
  intros _ _ _ _ _ Hcompute _ outcome.
  assert (Hout : outcome = Some (Rejected_by_info_init XGL_ERROR_BAD_PIPELINE_DATA)).
  { subst outcome.
    apply (graphics_pipeline_create_unrecognized dev _
             (Xgl.XGL_STRUCTURE_TYPE_PIPELINE_SHADER_STAGE_CREATE_INFO csh)).
    - apply elem_of_app. right. apply elem_of_cons. left. reflexivity.
    - simpl. rewrite Hcompute. reflexivity. }
  rewrite Hout. repeat split.
Qed.

End BuildFacts.

(** The scenario on an older GT2 part, with the compute-shader fragment at
    the end of the chain. *)
Lemma compute_shader_fragment_rejected_witness :
  let dev := {| Pipeline.gpu := Sample.gen6_gt2 |} in
  let outcome :=
    Pipeline.graphics_pipeline_create Sample.resolve_shaders Sample.allocate
      Sample.zeroed dev (Sample.scenario_chain ++ [Sample.compute_shader_fragment]) in
  Xgl.topology Sample.scenario_ia = XGL_TOPOLOGY_TRIANGLE_LIST /\
  Xgl.stage Sample.scenario_vs = XGL_SHADER_STAGE_VERTEX /\
  Xgl.stage Sample.scenario_fs = XGL_SHADER_STAGE_FRAGMENT /\
  Xgl.bindingCount Sample.scenario_vi = 0 /\
  Xgl.attributeCount Sample.scenario_vi = 0 /\
  Xgl.stage Sample.scenario_cs = XGL_SHADER_STAGE_COMPUTE /\
  Sample.scenario_chain ++ [] = Sample.scenario_chain /\
  outcome = Some (Pipeline.Rejected_by_info_init XGL_ERROR_BAD_PIPELINE_DATA) /\
  Pipeline.create_result <$> outcome = Some XGL_ERROR_BAD_PIPELINE_DATA /\
  Pipeline.pipeline_ret <$> outcome = Some None /\
  Pipeline.words_emitted <$> outcome = Some 0.
Proof.
  intros dev outcome. do 7 (split; [reflexivity |]).
  exact (compute_shader_fragment_rejected Sample.resolve_shaders Sample.allocate
           Sample.zeroed dev (1 : XGL_GRAPHICS_PIPELINE_CREATE_INFO Sample.headers)
           Sample.scenario_ia Sample.scenario_vs Sample.scenario_fs Sample.scenario_vi
           Sample.scenario_cs Sample.scenario_chain []
           eq_refl eq_refl eq_refl eq_refl eq_refl eq_refl eq_refl).
Defined.

(** The scenario without the compute-shader fragment: the pipeline is
    created, with the vertex and fragment stages active and the three words
    of one URB command, no vertex-element command. *)
Example scenario_without_compute_shader :
  let dev := {| Pipeline.gpu := Sample.gen6_gt2 |} in
  (fun o => (Pipeline.create_result o, Pipeline.words_emitted o,
             Pipeline.active_shaders <$> Pipeline.pipeline_ret o)) <$>
    Pipeline.graphics_pipeline_create Sample.resolve_shaders Sample.allocate
      Sample.zeroed dev Sample.scenario_chain
  = Some (XGL_SUCCESS, 3, Some 17).
Proof. vm_compute. reflexivity. Qed.

(** The same on a newer GT2 part: eight words of URB commands, ten of
    push-constant commands, seven, four and six for the three stubs. *)
Example scenario_on_newer_generation :
  let dev := {| Pipeline.gpu := Sample.gen7_gt2 |} in
  (fun o => (Pipeline.create_result o, Pipeline.words_emitted o,
             Pipeline.active_shaders <$> Pipeline.pipeline_ret o)) <$>
    Pipeline.graphics_pipeline_create Sample.resolve_shaders Sample.allocate
      Sample.zeroed dev Sample.scenario_chain
  = Some (XGL_SUCCESS, 35, Some 17).
Proof. vm_compute. reflexivity. Qed.

(** A tessellation pipeline with patch-list topology is built in full and
    then turned down by the validator: the vertex stage, which the first
    rule requires, is a stage outside the two tessellation stages for the
    fifth. *)
Example tessellation_pipeline_rejected :
  let dev := {| Pipeline.gpu := Sample.gen7_gt2 |} in
  (fun o => (Pipeline.create_result o, Pipeline.words_emitted o,
             Pipeline.active_shaders <$> Pipeline.pipeline_ret o)) <$>
    Pipeline.graphics_pipeline_create Sample.resolve_shaders Sample.allocate
      Sample.zeroed dev Sample.tessellation_chain
  = Some (XGL_ERROR_BAD_PIPELINE_DATA, 35, None).
Proof. vm_compute. reflexivity. Qed.


(** * Further properties *)

(** ** Waiting on several fences *)

Section WaitFacts.
Import CInt Fence FenceStatus.
Context {bo kernel : Type} (intel_bo_wait : kernel -> bo -> Z -> kernel * Z).
Implicit Types pFences : list (intel_fence bo).

Lemma XGL_RESULT_eqb_SUCCESS r :
  XGL_RESULT_eqb r XGL_SUCCESS = true <-> r = XGL_SUCCESS.
Proof. destruct r; simpl; split; congruence. Qed.

Lemma intel_fence_wait_results k (fence : intel_fence bo) ns :
  (submitted_bo fence = None /\
   intel_fence_wait intel_bo_wait k fence ns = (k, XGL_ERROR_UNAVAILABLE)) \/
  (submitted_bo fence <> None /\
   ((intel_fence_wait intel_bo_wait k fence ns).2 = XGL_SUCCESS \/
    (intel_fence_wait intel_bo_wait k fence ns).2 = XGL_NOT_READY)).
Proof.
  unfold intel_fence_wait. destruct (submitted_bo fence) as [b |].
  - right. split; [discriminate |].
    destruct (intel_bo_wait k b ns) as [k' err]. simpl.
    destruct (err =? 0); [left | right]; reflexivity.
  - left. split; reflexivity.
Qed.

(** The loop with [waitAll] waits on every fence and keeps the last
    failure. *)
Lemma wait_loop_all pFences :
  forall k t ret calls,
    let r := wait_loop intel_bo_wait k pFences true t ret calls in
    r.1.2 =
      default ret
        (last (filter (fun r => r <> XGL_SUCCESS)
                 (wait_each intel_bo_wait k pFences (wait_ns t)))) /\
    r.2 =
      reverse ((fun fence => {| call_fence := fence; call_ns := wait_ns t |}) <$> pFences)
        ++ calls.
Proof.
  induction pFences as [| fence rest IH]; intros k t ret calls; [split; reflexivity |].
  cbn [wait_loop wait_each]. cbv zeta.
  destruct (intel_fence_wait intel_bo_wait k fence (wait_ns t)) as [k' r0].
  change (negb true && XGL_RESULT_eqb r0 XGL_SUCCESS) with false. cbv iota.
  destruct (IH k' t (if XGL_RESULT_eqb r0 XGL_SUCCESS then ret else r0)
              ({| call_fence := fence; call_ns := wait_ns t |} :: calls))
    as [Hret Hcalls].
  cbv zeta in Hret, Hcalls. split.
  - rewrite Hret, filter_cons.
    destruct (decide (r0 <> XGL_SUCCESS)) as [Hne | Heq].
    + assert (Hb : XGL_RESULT_eqb r0 XGL_SUCCESS = false).
      { destruct (XGL_RESULT_eqb r0 XGL_SUCCESS) eqn:Hb; [| reflexivity].
        apply XGL_RESULT_eqb_SUCCESS in Hb. contradiction. }
      rewrite Hb.
      destruct (filter (fun r => r <> XGL_SUCCESS)
                  (wait_each intel_bo_wait k' rest (wait_ns t))) as [| h l];
        [reflexivity |].
      change (last (r0 :: h :: l)) with (last (h :: l)).
      destruct (last (h :: l)) eqn:Hlast; [reflexivity |].
      apply last_None in Hlast. discriminate Hlast.
    + assert (Hb : XGL_RESULT_eqb r0 XGL_SUCCESS = true).
      { apply XGL_RESULT_eqb_SUCCESS. destruct r0; try reflexivity;
          exfalso; apply Heq; discriminate. }
      rewrite Hb. reflexivity.
  - rewrite Hcalls, fmap_cons, reverse_cons, <- app_assoc. reflexivity.
Qed.

(** X1. With [waitAll] set, [intelWaitForFences] waits on every fence of
    the list, in order and with the same timeout, and returns the result of
    the last wait that did not succeed, or success when every wait
    succeeded; so it succeeds exactly when every wait does. *)
Theorem wait_for_all_fences k pFences t :
  let r := intelWaitForFences intel_bo_wait k pFences true t in
  let results := wait_each intel_bo_wait k pFences (wait_ns t) in
  r.1.2 = last_failure results /\
  (r.1.2 = XGL_SUCCESS <-> Forall (fun res => res = XGL_SUCCESS) results) /\
  reverse r.2 =
    (fun fence => {| call_fence := fence; call_ns := wait_ns t |}) <$> pFences.
Proof.
  intros r results. subst r. unfold intelWaitForFences.
  destruct (wait_loop_all pFences k t XGL_SUCCESS []) as [Hret Hcalls].
  cbv zeta in Hret, Hcalls. fold results in Hret.
  split; [exact Hret |]. split.
  - rewrite Hret. clear Hret Hcalls.
    induction results as [| res results IH]; [split; [constructor | reflexivity] |].
    rewrite filter_cons. destruct (decide (res <> XGL_SUCCESS)) as [Hne | Heq].
    + split.
      * intros Hlast. exfalso.
        destruct (filter (fun r => r <> XGL_SUCCESS) results) as [| h l] eqn:Hf.
        -- simpl in Hlast. contradiction.
        -- change (last (res :: h :: l)) with (last (h :: l)) in Hlast.
           destruct (last (h :: l)) as [x |] eqn:Hl;
             [| apply last_None in Hl; discriminate Hl].
           simpl in Hlast. subst x.
           assert (Hin : XGL_SUCCESS ∈ filter (fun r => r <> XGL_SUCCESS) results)
             by (rewrite Hf; apply last_Some_elem_of; exact Hl).
           apply list_elem_of_filter in Hin as [Hbad _]. apply Hbad. reflexivity.
      * intros Hall. apply Forall_cons in Hall as [Hres _]. contradiction.
    + assert (res = XGL_SUCCESS) by (destruct res; try reflexivity;
                                      exfalso; apply Heq; discriminate).
      subst res. rewrite IH. split; intros Hall.
      * constructor; [reflexivity | exact Hall].
      * apply Forall_cons in Hall as [_ Hall]. exact Hall.
  - rewrite Hcalls, app_nil_r, reverse_involutive. reflexivity.
Qed.




(** A fence that was never submitted makes its wait unavailable, wherever
    it stands in the list. *)
Lemma wait_each_unsubmitted pFences :
  forall k ns (fence : intel_fence bo),
    fence ∈ pFences -> submitted_bo fence = None ->
    XGL_ERROR_UNAVAILABLE ∈ wait_each intel_bo_wait k pFences ns.
Proof.
  induction pFences as [| f rest IH]; intros k ns fence Hin Hnone;
    [apply elem_of_nil in Hin; destruct Hin |].
  cbn [wait_each].
  destruct (intel_fence_wait intel_bo_wait k f ns) as [k' r0] eqn:Hwait.
  apply elem_of_cons in Hin as [<- | Hin].
  - destruct (intel_fence_wait_results k fence ns) as [[_ Hun] | [Hsub _]];
      [| contradiction].
    rewrite Hun in Hwait. injection Hwait as _ <-. apply elem_of_cons. left. reflexivity.
  - apply elem_of_cons. right. exact (IH k' ns fence Hin Hnone).
Qed.

Lemma wait_each_values pFences :
  forall k ns,
    Forall (fun res => res = XGL_SUCCESS \/ res = XGL_NOT_READY \/
                       res = XGL_ERROR_UNAVAILABLE)
      (wait_each intel_bo_wait k pFences ns).
Proof.
  induction pFences as [| f rest IH]; intros k ns; [constructor |].
  cbn [wait_each].
  destruct (intel_fence_wait_results k f ns) as [[_ Hun] | [_ Hres]].
  - rewrite Hun. constructor; [right; right; reflexivity | apply IH].
  - destruct (intel_fence_wait intel_bo_wait k f ns) as [k' r0]. simpl in Hres.
    constructor; [| apply IH]. destruct Hres as [-> | ->]; [left | right; left]; reflexivity.
Qed.

(** X3. A fence that was never submitted is reported as unavailable by
    the wait, without a call to the kernel; with such a fence anywhere in the
    list a wait for all fences never returns success, whatever the kernel
    answers for the others. *)
Theorem wait_for_all_with_unsubmitted_fence k pFences t (fence : intel_fence bo) :
  fence ∈ pFences ->
  submitted_bo fence = None ->
  (forall k' ns, intel_fence_wait intel_bo_wait k' fence ns = (k', XGL_ERROR_UNAVAILABLE)) /\
  ((intelWaitForFences intel_bo_wait k pFences true t).1.2 = XGL_NOT_READY \/
   (intelWaitForFences intel_bo_wait k pFences true t).1.2 = XGL_ERROR_UNAVAILABLE).
Proof.
  intros Hin Hnone. split.
  - intros k' ns. unfold intel_fence_wait. rewrite Hnone. reflexivity.
  - unfold intelWaitForFences.
    destruct (wait_loop_all pFences k t XGL_SUCCESS []) as [Hret _].
    cbv zeta in Hret. rewrite Hret.
    pose proof (wait_each_unsubmitted pFences k (wait_ns t) fence Hin Hnone) as Hun.
    pose proof (wait_each_values pFences k (wait_ns t)) as Hvals.
    set (results := wait_each intel_bo_wait k pFences (wait_ns t)) in *.
    assert (Hf : XGL_ERROR_UNAVAILABLE ∈ filter (fun r => r <> XGL_SUCCESS) results)
      by (apply list_elem_of_filter; split; [discriminate | exact Hun]).
    destruct (last (filter (fun r => r <> XGL_SUCCESS) results)) as [x |] eqn:Hl.
    + simpl. apply last_Some_elem_of in Hl. apply list_elem_of_filter in Hl as [Hx Hxin].
      rewrite Forall_forall in Hvals. destruct (Hvals x Hxin) as [-> | [-> | ->]];
        [contradiction | left; reflexivity | right; reflexivity].
    + apply last_None in Hl. rewrite Hl in Hf. apply elem_of_nil in Hf. destruct Hf.
Qed.

End WaitFacts.

(** Three fences, the second never submitted, and a kernel under which the
    remaining waits complete. *)
Lemma wait_for_all_with_unsubmitted_fence_witness :
  let wait := fun (k : unit) (_ : unit) (_ : Z) => (k, 0) in
  let unsubmitted : Fence.intel_fence unit := {| Fence.submitted_bo := None |} in
  let pFences := [{| Fence.submitted_bo := Some tt |}; unsubmitted;
                  {| Fence.submitted_bo := Some tt |}] in
  unsubmitted ∈ pFences /\
  Fence.submitted_bo unsubmitted = None /\
  ((Fence.intelWaitForFences wait tt pFences true 1).1.2 = XGL_NOT_READY \/
   (Fence.intelWaitForFences wait tt pFences true 1).1.2 = XGL_ERROR_UNAVAILABLE).
Proof.
  intros wait unsubmitted pFences.
  assert (Hin : unsubmitted ∈ pFences)
    by (apply elem_of_cons; right; apply elem_of_cons; left; reflexivity).
  split; [exact Hin |]. split; [reflexivity |].
  exact (proj2 (wait_for_all_with_unsubmitted_fence wait tt pFences 1 unsubmitted
                  Hin eq_refl)).
Defined.

(** ** Reservations in a row *)

Section SinkMoreFacts.
Import Pipeline Stated.
Context {H : Headers}.
Implicit Types pipeline : intel_pipeline H.

Lemma pipeline_cmd_ptr_Some pipeline len ptr pipeline' :
  pipeline_cmd_ptr pipeline len = Some (ptr, pipeline') ->
  ptr = cmd_len pipeline /\
  pipeline' = set_cmd_len pipeline (cmd_len pipeline + len) /\
  cmd_len pipeline + len < INTEL_PSO_CMD_ENTRIES H.
Proof.
  intros Hsome.
  destruct (Z.lt_ge_cases (cmd_len pipeline + len) (INTEL_PSO_CMD_ENTRIES H))
    as [Hlt | Hge].
  - rewrite pipeline_cmd_ptr_fits in Hsome by exact Hlt.
    injection Hsome as <- <-. repeat split. exact Hlt.
  - rewrite pipeline_cmd_ptr_full in Hsome by exact Hge. discriminate Hsome.
Qed.

(** X4. Two reservations in a row, the second of a length that is not
    negative, succeed exactly when one reservation of the sum does; the
    second window starts where the first ends, and the pipeline afterwards is
    the same either way. *)
Theorem pipeline_cmd_ptr_twice pipeline len1 len2 :
  0 <= len2 ->
  (cmd_len pipeline + (len1 + len2) < INTEL_PSO_CMD_ENTRIES H <->
   exists pipeline1 pipeline2,
     pipeline_cmd_ptr pipeline len1 = Some (cmd_len pipeline, pipeline1) /\
     pipeline_cmd_ptr pipeline1 len2 = Some (cmd_len pipeline + len1, pipeline2) /\
     pipeline_cmd_ptr pipeline (len1 + len2) = Some (cmd_len pipeline, pipeline2)).
Proof.
  intros Hlen2. split.
  - intros Hfit.
    exists (set_cmd_len pipeline (cmd_len pipeline + len1)),
           (set_cmd_len pipeline (cmd_len pipeline + (len1 + len2))).
    split; [apply pipeline_cmd_ptr_fits; lia |]. split.
    + rewrite pipeline_cmd_ptr_fits by (simpl; lia). simpl.
      rewrite Z.add_assoc. reflexivity.
    + apply pipeline_cmd_ptr_fits. exact Hfit.
  - intros (pipeline1 & pipeline2 & _ & _ & Hboth).
    apply pipeline_cmd_ptr_Some in Hboth as (_ & _ & Hfit). exact Hfit.
Qed.

End SinkMoreFacts.

Lemma pipeline_cmd_ptr_twice_witness :
  let pipeline := Sample.fresh_pipeline Sample.gen7_gt2 128 in
  0 <= 10 /\
  (Pipeline.cmd_len pipeline + (8 + 10) < INTEL_PSO_CMD_ENTRIES Sample.headers <->
   exists pipeline1 pipeline2,
     Pipeline.pipeline_cmd_ptr pipeline 8 = Some (Pipeline.cmd_len pipeline, pipeline1) /\
     Pipeline.pipeline_cmd_ptr pipeline1 10
       = Some (Pipeline.cmd_len pipeline + 8, pipeline2) /\
     Pipeline.pipeline_cmd_ptr pipeline (8 + 10)
       = Some (Pipeline.cmd_len pipeline, pipeline2)).
Proof.
  intros pipeline. split; [lia |].
  apply (pipeline_cmd_ptr_twice pipeline 8 10). lia.
Defined.

(** ** What the validator lets through *)

Section ValidatorMoreFacts.
Import Pipeline Stated.
Context {H : Headers}.
Implicit Types pipeline : intel_pipeline H.

Lemma pipeline_validate_SUCCESS_stages pipeline :
  stage_flags_ok H ->
  pipeline_validate pipeline = XGL_SUCCESS ->
  stage_active (active_shaders pipeline) (SHADER_VERTEX_FLAG H) /\
  ~ stage_active (active_shaders pipeline) (SHADER_TESS_CONTROL_FLAG H) /\
  ~ stage_active (active_shaders pipeline) (SHADER_TESS_EVAL_FLAG H) /\
  ~ stage_active (active_shaders pipeline) (SHADER_COMPUTE_FLAG H) /\
  topology pipeline <> XGL_TOPOLOGY_PATCH.
Proof.
  intros Hok Hs.
  assert (Hpatch : topology pipeline <> XGL_TOPOLOGY_PATCH).
  { intros Hp. pose proof (patch_list_rejected pipeline Hok Hp) as Hbad.
    rewrite Hs in Hbad. discriminate Hbad. }
  apply pipeline_validate_success in Hs.
  unfold some_rule_violated, vertex_absent, one_tessellation_stage_only,
    compute_with_graphics, tessellation_without_patch, patch_with_other_stage in Hs.
  unfold stage_active in *.
  destruct (Z.eq_dec (Z.land (active_shaders pipeline) (SHADER_VERTEX_FLAG H)) 0),
    (Z.eq_dec (Z.land (active_shaders pipeline) (SHADER_TESS_CONTROL_FLAG H)) 0),
    (Z.eq_dec (Z.land (active_shaders pipeline) (SHADER_TESS_EVAL_FLAG H)) 0),
    (Z.eq_dec (Z.land (active_shaders pipeline) (SHADER_COMPUTE_FLAG H)) 0);
    tauto.
Qed.

(** X5. With stage masks that do not overlap, the validator accepts
    exactly the pipelines whose vertex stage is active, whose tessellation
    and compute stages are not, and whose topology is not patch-list: the
    first and the fifth rule together leave no tessellation pipeline. *)
Theorem pipeline_validate_accepts pipeline :
  stage_flags_ok H ->
  (pipeline_validate pipeline = XGL_SUCCESS <->
   stage_active (active_shaders pipeline) (SHADER_VERTEX_FLAG H) /\
   ~ stage_active (active_shaders pipeline) (SHADER_TESS_CONTROL_FLAG H) /\
   ~ stage_active (active_shaders pipeline) (SHADER_TESS_EVAL_FLAG H) /\
   ~ stage_active (active_shaders pipeline) (SHADER_COMPUTE_FLAG H) /\
   topology pipeline <> XGL_TOPOLOGY_PATCH).
Proof.
  intros Hok. split; [apply pipeline_validate_SUCCESS_stages; exact Hok |].
  intros (Hv & Hc & He & Hcs & Hp). apply pipeline_validate_success.
  unfold some_rule_violated, vertex_absent, one_tessellation_stage_only,
    compute_with_graphics, tessellation_without_patch, patch_with_other_stage.
  tauto.
Qed.

End ValidatorMoreFacts.

(** The pipeline of the first scenario, and the flags of the sample. *)
Lemma pipeline_validate_accepts_witness :
  let pipeline :=
    Sample.pipeline_of Sample.gen6_gt2 128 3 17 XGL_TOPOLOGY_TRIANGLE_LIST
      Sample.shader_none Sample.shader_none in
  stage_flags_ok Sample.headers /\
  (Pipeline.pipeline_validate pipeline = XGL_SUCCESS <->
   Stated.stage_active (Pipeline.active_shaders pipeline)
     (SHADER_VERTEX_FLAG Sample.headers) /\
   ~ Stated.stage_active (Pipeline.active_shaders pipeline)
       (SHADER_TESS_CONTROL_FLAG Sample.headers) /\
   ~ Stated.stage_active (Pipeline.active_shaders pipeline)
       (SHADER_TESS_EVAL_FLAG Sample.headers) /\
   ~ Stated.stage_active (Pipeline.active_shaders pipeline)
       (SHADER_COMPUTE_FLAG Sample.headers) /\
   Pipeline.topology pipeline <> XGL_TOPOLOGY_PATCH).
Proof.
  intros pipeline. split; [exact sample_stage_flags_ok |].
  exact (pipeline_validate_accepts pipeline sample_stage_flags_ok).
Defined.

(** ** Input assembly *)

Section IaFacts.
Import Pipeline Stated.
Context {H : Headers}.
Implicit Types pipeline : intel_pipeline H.
Implicit Types info : Assembler.intel_pipeline_create_info H.

(** X6. [pipeline_build_ia] fails, with the bad-pipeline-data error, exactly
    for a topology that is none of the thirteen known ones and for patches
    with no control point or with more than 32. It stores the topology even
    then, never touches the command words or the active stages, and on
    success leaves the restart index alone unless restart is enabled; a
    patch of [n] control points gets the [n]-th patch-list primitive type. *)
Theorem pipeline_build_ia_result pipeline info :
  let ia := Assembler.ia info in
  let points := Xgl.patchControlPoints (Assembler.tess info) in
  let r := pipeline_build_ia pipeline info in
  (r.1 = XGL_SUCCESS \/ r.1 = XGL_ERROR_BAD_PIPELINE_DATA) /\
  (r.1 = XGL_ERROR_BAD_PIPELINE_DATA <->
   (exists v, Xgl.topology ia = XGL_TOPOLOGY_other v) \/
   (Xgl.topology ia = XGL_TOPOLOGY_PATCH /\ (points = 0 \/ 32 < points))) /\
  topology r.2 = Xgl.topology ia /\
  cmds r.2 = cmds pipeline /\ cmd_len r.2 = cmd_len pipeline /\
  active_shaders r.2 = active_shaders pipeline /\
  (r.1 = XGL_SUCCESS ->
   primitive_restart r.2 = Xgl.primitiveRestartEnable ia /\
   primitive_restart_index r.2 =
     (if Xgl.primitiveRestartEnable ia then Xgl.primitiveRestartIndex ia
      else primitive_restart_index pipeline) /\
   (Xgl.topology ia = XGL_TOPOLOGY_PATCH ->
    prim_type r.2 = GEN7_3DPRIM_PATCHLIST_1_plus (points - 1))).
Proof.
  intros ia points r. subst r. unfold pipeline_build_ia. fold ia. fold points.
  cbv zeta.
  assert (Hpoints : (points =? 0) || (points >? 32) = true <->
                    points = 0 \/ 32 < points).
  { rewrite orb_true_iff, Z.eqb_eq, Z.gtb_lt. reflexivity. }
  destruct (Xgl.provokingVertex ia), (Xgl.primitiveRestartEnable ia),
    (Xgl.topology ia) eqn:Ht;
    try destruct ((points =? 0) || (points >? 32)) eqn:Hp;
    cbn [fst snd];
    (split; [first [left; reflexivity | right; reflexivity] |]);
    (split;
     [split;
      [first [discriminate | intros _; first [left; eexists; reflexivity
                                             | right; split; [reflexivity |];
                                               apply Hpoints; reflexivity]]
      | first [reflexivity
              | intros [[v Hv] | [Hq Hr]];
                first [discriminate Hv | discriminate Hq
                      | apply Hpoints in Hr; discriminate Hr]] ] |]);
    repeat (split; [reflexivity |]);
    first [discriminate
          | intros _; repeat split; first [reflexivity | discriminate | idtac] ].
Qed.

End IaFacts.

(** ** URB partitions and entry counts *)

Section UrbMoreFacts.
Import Pipeline CInt CIntFacts Stated.
Context {H : Headers}.
Implicit Types pipeline : intel_pipeline H.

Lemma land_lnot_7 x : Z.land x (Z.lnot 7) = 8 * (x / 8).
Proof. exact (land_lnot_ones x 3 ltac:(lia)). Qed.

(** What [urb_layout_gen7] returns, when it returns. *)
Lemma urb_layout_gen7_inv pipeline u :
  urb_layout_gen7 pipeline = Some u ->
  let g := gpu (dev pipeline) in
  let geometry := truthy (Z.land (active_shaders pipeline) (SHADER_GEOMETRY_FLAG H)) in
  let room := to_int (gen7_urb_size g - gen7_urb_offset g) in
  let vs_count := Z.land (vs_size u ÷ 64 ÷ vs_alloc_size u) (Z.lnot 7) in
  let gs_count := Z.land (gs_size u ÷ 64 ÷ gs_alloc_size u) (Z.lnot 7) in
  INTEL_GEN_7 H <= gpu_gen g <= INTEL_GEN_7_5 H /\
  urb_size u = gen7_urb_size g /\
  urb_offset u = gen7_urb_offset g /\
  vs_size u = (if geometry then room ÷ 2 else room) /\
  gs_size u = (if geometry then room ÷ 2 else 0) /\
  32 <= vs_count /\
  vs_entry_count u =
    (if vs_count >=? (gen7_max_entry_counts H g).1
     then (gen7_max_entry_counts H g).1 else vs_count) /\
  gs_entry_count u =
    (if gs_count >=? (gen7_max_entry_counts H g).2
     then (gen7_max_entry_counts H g).2 else gs_count).
Proof.
  intros Hu g geometry room. unfold urb_layout_gen7, INTEL_GPU_ASSERT in Hu.
  cbv zeta in Hu. fold g in Hu. fold geometry in Hu. fold room in Hu.
  step_assert Hu. apply andb_true_iff in Hc as [Hlo Hhi].
  apply Z.leb_le in Hlo, Hhi.
  destruct geometry; cbv beta iota in Hu.
  all: step_assert Hu; apply Z.geb_le in Hc.
  all: destruct (gen7_max_entry_counts H g) as [max_vs max_gs];
    cbv beta iota in Hu.
  all: injection Hu as <-;
    cbv beta iota zeta delta [urb_size urb_offset vs_size gs_size vs_alloc_size
      gs_alloc_size vs_entry_count gs_entry_count fst snd].
  all: repeat match goal with |- _ /\ _ => split end;
    first [reflexivity | assumption].
Qed.

Lemma gen7_urb_room g :
  let room := to_int (gen7_urb_size g - gen7_urb_offset g) in
  gen7_urb_offset g = 16 * 1024 /\ (room = 112 * 1024 \/ room = 240 * 1024) \/
  gen7_urb_offset g = 32 * 1024 /\ room = 480 * 1024.
Proof.
  unfold gen7_urb_size, gen7_urb_offset.
  destruct (gt g =? 3); [right; split; reflexivity |].
  destruct (gt g =? 2); left; (split; [reflexivity |]); [right | left]; reflexivity.
Qed.

Lemma gen7_max_entry_counts_values g :
  let m := gen7_max_entry_counts H g in
  (m.1 = 1664 \/ m.1 = 640 \/ m.1 = 704 \/ m.1 = 512) /\
  (m.2 = 640 \/ m.2 = 256 \/ m.2 = 320 \/ m.2 = 192).
Proof.
  unfold gen7_max_entry_counts.
  destruct (gpu_gen g >=? INTEL_GEN_7_5 H), (gt g >=? 2), (gt g =? 2); simpl; tauto.
Qed.

(** X7. The two partitions never exceed the URB: on the older generation
    they add up to at most the capacity, on the newer to at most the
    capacity less the offset kept for push constants. Without the geometry
    stage the geometry partition is empty and gets no entry. *)
Theorem urb_partitions_fit pipeline :
  (forall u, urb_layout_gen6 pipeline = Some u ->
     0 <= vs_size u /\ 0 <= gs_size u /\
     vs_size u + gs_size u <= urb_size u /\
     (~ stage_active (active_shaders pipeline) (SHADER_GEOMETRY_FLAG H) ->
      gs_size u = 0 /\ gs_entry_count u = 0)) /\
  (forall u, urb_layout_gen7 pipeline = Some u ->
     0 < urb_offset u /\ 0 <= vs_size u /\ 0 <= gs_size u /\
     urb_offset u + vs_size u + gs_size u <= urb_size u /\
     (~ stage_active (active_shaders pipeline) (SHADER_GEOMETRY_FLAG H) ->
      gs_size u = 0 /\ gs_entry_count u = 0)).
Proof.
  split; intros u Hu.
  - destruct (urb_layout_gen6_Some pipeline u Hu)
      as (_ & Hsize & Hvs & Hgs & _ & _ & _ & _ & _ & _).
    assert (Hcap : gen6_urb_size (gpu (dev pipeline)) = 64 * 1024 \/
                   gen6_urb_size (gpu (dev pipeline)) = 32 * 1024)
      by (unfold gen6_urb_size; destruct (gt (gpu (dev pipeline)) =? 2);
          [left | right]; reflexivity).
    rewrite Hsize.
    assert (Hgc : gs_size u = 0 -> gs_entry_count u = 0).
    { intros Hz. unfold urb_layout_gen6, INTEL_GPU_ASSERT in Hu. cbv zeta in Hu.
      step_assert Hu.
      destruct (truthy (Z.land (active_shaders pipeline) (SHADER_GEOMETRY_FLAG H)));
        cbv beta iota in Hu.
      all: step_assert Hu; step_assert Hu; injection Hu as <-;
        cbv beta iota delta [gs_size gs_entry_count] in *.
      - destruct Hcap as [Hcap | Hcap]; rewrite Hcap in Hz; discriminate Hz.
      - reflexivity. }
    destruct (truthy (Z.land (active_shaders pipeline) (SHADER_GEOMETRY_FLAG H)))
      eqn:Hg; rewrite Hvs, Hgs.
    + apply truthy_active in Hg.
      destruct Hcap as [-> | ->];
        (split; [vm_compute; discriminate |]); (split; [vm_compute; discriminate |]);
        (split; [vm_compute; discriminate | contradiction]).
    + destruct Hcap as [Hcap | Hcap]; rewrite Hcap;
        (split; [vm_compute; discriminate |]); (split; [vm_compute; discriminate |]);
        (split; [vm_compute; discriminate |]); intros _;
        (split; [reflexivity | apply Hgc; rewrite Hgs; reflexivity]).
  - destruct (urb_layout_gen7_inv pipeline u Hu)
      as (_ & Hsize & Hoff & Hvs & Hgs & _ & _ & Hgc).
    cbv zeta in Hsize, Hoff, Hvs, Hgs, Hgc.
    pose proof (gen7_urb_room (gpu (dev pipeline))) as Hroom. cbv zeta in Hroom.
    pose proof (gen7_max_entry_counts_values (gpu (dev pipeline))) as [_ Hmax].
    cbv zeta in Hmax.
    assert (Hcap : gen7_urb_size (gpu (dev pipeline)) = 512 * 1024 \/
                   gen7_urb_size (gpu (dev pipeline)) = 256 * 1024 \/
                   gen7_urb_size (gpu (dev pipeline)) = 128 * 1024)
      by (unfold gen7_urb_size; destruct (gt (gpu (dev pipeline)) =? 3);
          [left; reflexivity |]; destruct (gt (gpu (dev pipeline)) =? 2);
          right; [left | right]; reflexivity).
    assert (Hfit : gen7_urb_offset (gpu (dev pipeline))
                   + to_int (gen7_urb_size (gpu (dev pipeline))
                             - gen7_urb_offset (gpu (dev pipeline)))
                   <= gen7_urb_size (gpu (dev pipeline)) /\
                   0 < gen7_urb_offset (gpu (dev pipeline))).
    { unfold gen7_urb_size, gen7_urb_offset.
      destruct (gt (gpu (dev pipeline)) =? 3); [split; [discriminate | reflexivity] |].
      destruct (gt (gpu (dev pipeline)) =? 2); split; (discriminate || reflexivity). }
    rewrite Hsize, Hoff.
    set (room := to_int (gen7_urb_size (gpu (dev pipeline))
                         - gen7_urb_offset (gpu (dev pipeline)))) in *.
    assert (Hrooms : room = 112 * 1024 \/ room = 240 * 1024 \/ room = 480 * 1024)
      by (destruct Hroom as [[_ [Hr | Hr]] | [_ Hr]]; tauto).
    assert (Hhalf : 0 <= room ÷ 2 /\ room ÷ 2 + room ÷ 2 <= room /\ 0 <= room)
      by (destruct Hrooms as [-> | [-> | ->]]; repeat split; discriminate).
    destruct (truthy (Z.land (active_shaders pipeline) (SHADER_GEOMETRY_FLAG H)))
      eqn:Hg.
    + apply truthy_active in Hg. rewrite Hvs, Hgs.
      repeat split; try tauto; try lia.
    + rewrite Hvs, Hgs. repeat split; try tauto; try lia.
      rewrite Hgc, Hgs. change (0 ÷ 64 ÷ gs_alloc_size u) with 0.
      change (Z.land 0 (Z.lnot 7)) with 0.
      destruct Hmax as [-> | [-> | [-> | ->]]]; reflexivity.
Qed.

Lemma gen7_vs_alloc_size_range count :
  0 <= count <= 112 -> 1 <= gen7_vs_alloc_size (entry_size_bytes count) <= 28.
Proof.
  intros Hcount. unfold gen7_vs_alloc_size. cbv zeta.
  rewrite entry_size_bytes_eq by lia. rewrite urb_alloc_size_eq by lia.
  assert (0 <= (16 * count + 64 - 1) / 64 < 29)
    by (split; [apply Z.div_pos | apply Z.div_lt_upper_bound]; lia).
  destruct (Z.eqb_spec (Z.max 1 ((16 * count + 64 - 1) / 64)) 5); lia.
Qed.

Lemma urb_layout_gen7_defined pipeline :
  INTEL_GEN_7 H <= gpu_gen (gpu (dev pipeline)) <= INTEL_GEN_7_5 H ->
  0 <= vs_slot_count (vs pipeline) <= 112 ->
  exists u, urb_layout_gen7 pipeline = Some u.
Proof.
  intros [Hlo Hhi] Hcount.
  unfold urb_layout_gen7, INTEL_GPU_ASSERT. cbv zeta.
  rewrite assert_bind_true
    by (apply andb_true_iff; split; apply Z.leb_le; assumption).
  pose proof (gen7_vs_alloc_size_range _ Hcount) as Hva.
  set (va := gen7_vs_alloc_size (entry_size_bytes (vs_slot_count (vs pipeline)))) in *.
  pose proof (gen7_urb_room (gpu (dev pipeline))) as Hroom. cbv zeta in Hroom.
  set (room := to_int (gen7_urb_size (gpu (dev pipeline))
                       - gen7_urb_offset (gpu (dev pipeline)))) in *.
  assert (Hrooms : room = 112 * 1024 \/ room = 240 * 1024 \/ room = 480 * 1024)
    by (destruct Hroom as [[_ [Hr | Hr]] | [_ Hr]]; tauto).
  assert (Hq : forall size, 896 <= size ÷ 64 ->
            (Z.land (size ÷ 64 ÷ va) (Z.lnot 7) >=? 32) = true).
  { intros size Hsize. apply Z.geb_le. rewrite land_lnot_7.
    rewrite (Z.quot_div_nonneg (size ÷ 64) va) by lia.
    assert (32 <= size ÷ 64 / va) by (apply Z.div_le_lower_bound; lia).
    assert (4 <= size ÷ 64 / va / 8) by (apply Z.div_le_lower_bound; lia).
    lia. }
  destruct (truthy (Z.land (active_shaders pipeline) (SHADER_GEOMETRY_FLAG H)));
    cbv beta iota.
  all: rewrite assert_bind_true
    by (apply Hq; destruct Hrooms as [-> | [-> | ->]]; vm_compute; discriminate).
  all: destruct (gen7_max_entry_counts H (gpu (dev pipeline))); eexists; reflexivity.
Qed.

(** X8. On the newer generation, whenever the allocator gets past its
    checks, both entry counts are multiples of 8, the vertex count is at
    least 32, and neither exceeds the maximum of the part (1664, 640, 704 or
    512 vertex entries; 640, 256, 320 or 192 geometry entries). The checks
    are passed on every part of generation 7 to 7.5 when the vertex stage has
    at most 112 slots. *)
Theorem urb_alloc_gen7_entry_counts pipeline :
  INTEL_GEN_7 H <= gpu_gen (gpu (dev pipeline)) <= INTEL_GEN_7_5 H ->
  0 <= vs_slot_count (vs pipeline) <= 112 ->
  (exists u, urb_layout_gen7 pipeline = Some u) /\
  (forall u, urb_layout_gen7 pipeline = Some u ->
     let m := gen7_max_entry_counts H (gpu (dev pipeline)) in
     Z.divide 8 (vs_entry_count u) /\ 32 <= vs_entry_count u <= m.1 /\
     Z.divide 8 (gs_entry_count u) /\ gs_entry_count u <= m.2).
Proof.
  intros Hgen Hcount. split; [exact (urb_layout_gen7_defined pipeline Hgen Hcount) |].
  intros u Hu m.
  destruct (urb_layout_gen7_inv pipeline u Hu) as (_ & _ & _ & _ & _ & Hmin & Hvc & Hgc).
  cbv zeta in Hmin, Hvc, Hgc.
  pose proof (gen7_max_entry_counts_values (gpu (dev pipeline))) as [Hmv Hmg].
  cbv zeta in Hmv, Hmg. fold m in Hmv, Hmg, Hvc, Hgc.
  rewrite !land_lnot_7 in Hmin, Hvc, Hgc.
  set (qv := vs_size u ÷ 64 ÷ vs_alloc_size u / 8) in *.
  set (qg := gs_size u ÷ 64 ÷ gs_alloc_size u / 8) in *.
  assert (Hdiv : forall q mx c,
            (mx = 1664 \/ mx = 640 \/ mx = 704 \/ mx = 512 \/
             mx = 256 \/ mx = 320 \/ mx = 192) ->
            c = (if 8 * q >=? mx then mx else 8 * q) ->
            Z.divide 8 c /\ c <= mx /\ (32 <= 8 * q -> 32 <= c)).
  { intros q mx c Hmx ->. destruct (Z.geb_spec (8 * q) mx).
    - split; [| lia].
      destruct Hmx as [-> | [-> | [-> | [-> | [-> | [-> | ->]]]]]];
        [exists 208 | exists 80 | exists 88 | exists 64 | exists 32 | exists 40
         | exists 24]; reflexivity.
    - split; [exists q; lia | lia]. }
  destruct (Hdiv qv m.1 (vs_entry_count u) ltac:(tauto) Hvc) as (Hd1 & Hle1 & Hge1).
  destruct (Hdiv qg m.2 (gs_entry_count u) ltac:(tauto) Hgc) as (Hd2 & Hle2 & _).
  repeat split; try assumption. apply Hge1. exact Hmin.
Qed.

End UrbMoreFacts.

(** A GT1 part of generation 7.5 with the geometry stage active and a
    vertex stage of 112 slots: the smallest partition and the largest entry
    for which the checks pass. *)
Lemma urb_alloc_gen7_entry_counts_witness :
  let pipeline :=
    Sample.pipeline_of {| gpu_gen := 750; gt := 1 |} 128 0 9 XGL_TOPOLOGY_TRIANGLE_LIST
      {| Pipeline.in_count := 112; Pipeline.out_count := 4; Pipeline.uses := 0 |}
      Sample.shader_none in
  INTEL_GEN_7 Sample.headers <= gpu_gen (Pipeline.gpu (Pipeline.dev pipeline))
    <= INTEL_GEN_7_5 Sample.headers /\
  0 <= Pipeline.vs_slot_count (Pipeline.vs pipeline) <= 112 /\
  exists u,
    Pipeline.urb_layout_gen7 pipeline = Some u /\
    Z.divide 8 (Pipeline.vs_entry_count u) /\ 32 <= Pipeline.vs_entry_count u.
Proof.
  intros pipeline.
  assert (Hgen : INTEL_GEN_7 Sample.headers
                 <= gpu_gen (Pipeline.gpu (Pipeline.dev pipeline))
                 <= INTEL_GEN_7_5 Sample.headers) by (vm_compute; split; discriminate).
  assert (Hcount : 0 <= Pipeline.vs_slot_count (Pipeline.vs pipeline) <= 112)
    by (vm_compute; split; discriminate).
  split; [exact Hgen |]. split; [exact Hcount |].
  destruct (urb_alloc_gen7_entry_counts pipeline Hgen Hcount) as [[u Hu] Hcounts].
  exists u. split; [exact Hu |].
  destruct (Hcounts u Hu) as (Hdiv & [Hmin _] & _). split; [exact Hdiv | exact Hmin].
Defined.

(** ** Encoders only append *)

Section FrameFacts.
Import Pipeline CInt CIntFacts Stated Behaviour.
Context {H : Headers}.
Implicit Types pipeline : intel_pipeline H.

Lemma same_below_refl below pipeline : same_below below pipeline pipeline.
Proof. repeat split. Qed.

Lemma same_below_trans below (p1 p2 p3 : intel_pipeline H) :
  same_below below p1 p2 -> same_below below p2 p3 -> same_below below p1 p3.
Proof.
  intros (Hl1 & Hd1 & Ha1 & Hv1 & Hg1 & Hw1) (Hl2 & Hd2 & Ha2 & Hv2 & Hg2 & Hw2).
  repeat split; try congruence.
  intros i Hi. rewrite Hw2, Hw1 by exact Hi. reflexivity.
Qed.

Lemma same_below_weaken below below' (p1 p2 : intel_pipeline H) :
  below' <= below -> same_below below p1 p2 -> same_below below' p1 p2.
Proof.
  intros Hle (Hl & Hd & Ha & Hv & Hg & Hw). repeat split; try assumption.
  intros i Hi. apply Hw. lia.
Qed.

Lemma same_below_store below (p1 p2 : intel_pipeline H) dw k v :
  same_below below p1 p2 -> below <= dw + k ->
  same_below below p1 (store p2 dw k v).
Proof.
  intros (Hl & Hd & Ha & Hv & Hg & Hw) Hle. repeat split; try assumption.
  - rewrite cmds_store, arr_set_length. exact Hl.
  - intros i Hi. rewrite cmds_store, arr_get_set_ne by lia. apply Hw. exact Hi.
Qed.

Lemma same_below_set_cmd_len below (p1 p2 : intel_pipeline H) len :
  same_below below p1 p2 -> same_below below p1 (set_cmd_len p2 len).
Proof. intros Hs. exact Hs. Qed.

Lemma same_below_store_zeros below (p1 p2 : intel_pipeline H) dw n :
  same_below below p1 p2 -> below <= dw ->
  same_below below p1 (store_zeros p2 dw n).
Proof.
  intros Hs Hle. induction n as [| n IH]; [exact Hs |].
  cbn [store_zeros]. apply same_below_store; [exact IH | lia].
Qed.

Lemma cmd_len_store_zeros pipeline dw n :
  cmd_len (store_zeros pipeline dw n) = cmd_len pipeline.
Proof. induction n as [| n IH]; [reflexivity | exact IH]. Qed.

Lemma appended_trans (p1 p2 p3 : intel_pipeline H) n m :
  0 <= n -> appended p1 p2 n -> appended p2 p3 m -> appended p1 p3 (n + m).
Proof.
  intros Hn [Hc1 Hs1] [Hc2 Hs2]. split; [lia |].
  eapply same_below_trans; [exact Hs1 |].
  eapply same_below_weaken; [| exact Hs2]. lia.
Qed.

Lemma appended_sink_ok (p1 p2 : intel_pipeline H) n :
  0 <= n -> sink_ok p1 -> appended p1 p2 n -> sink_ok p2.
Proof.
  intros Hn [Hlen Hcmds] [Hc (Hl & _)]. split; [lia |]. rewrite Hl. exact Hcmds.
Qed.

End FrameFacts.

(** Opens a [Some] result of a reservation followed by stores. *)
Ltac open_cmd_ptr Hb :=
  let dw := fresh "dw" in
  let p1 := fresh "p1" in
  let Hptr := fresh "Hptr" in
  let Hfit := fresh "Hfit" in
  apply bind_Some in Hb as ([dw p1] & Hptr & Hb);
  apply pipeline_cmd_ptr_Some in Hptr as (-> & -> & Hfit);
  cbv beta iota zeta in Hb.

Ltac solve_same_below :=
  repeat first
    [ apply same_below_refl
    | apply same_below_store_zeros; [| lia]
    | apply same_below_store; [| lia]
    | apply same_below_set_cmd_len ].

Section EncoderFrames.
Import Pipeline CInt CIntFacts Stated Behaviour.
Context {H : Headers}.
Implicit Types pipeline : intel_pipeline H.

Lemma pipeline_build_urb_alloc_gen6_appends pipeline pipeline' :
  pipeline_build_urb_alloc_gen6 pipeline = Some pipeline' ->
  appended pipeline pipeline' 3 /\
  cmd_len pipeline + 3 < INTEL_PSO_CMD_ENTRIES H.
Proof.
  intros Hb. unfold pipeline_build_urb_alloc_gen6 in Hb.
  apply bind_Some in Hb as (u & _ & Hb). cbv beta zeta in Hb.
  open_cmd_ptr Hb. injection Hb as <-.
  split; [| exact Hfit]. split; [reflexivity | solve_same_below].
Qed.

Lemma pipeline_build_urb_alloc_gen7_appends pipeline pipeline' :
  pipeline_build_urb_alloc_gen7 pipeline = Some pipeline' ->
  appended pipeline pipeline' 8 /\
  cmd_len pipeline + 8 < INTEL_PSO_CMD_ENTRIES H.
Proof.
  intros Hb. unfold pipeline_build_urb_alloc_gen7 in Hb.
  apply bind_Some in Hb as (u & _ & Hb). cbv beta zeta in Hb.
  open_cmd_ptr Hb. injection Hb as <-.
  split; [| exact Hfit]. split; [reflexivity | solve_same_below].
Qed.

Lemma pipeline_build_push_const_alloc_gen7_appends pipeline pipeline' :
  pipeline_build_push_const_alloc_gen7 pipeline = Some pipeline' ->
  appended pipeline pipeline' 10 /\
  cmd_len pipeline + 10 < INTEL_PSO_CMD_ENTRIES H.
Proof.
  intros Hb. unfold pipeline_build_push_const_alloc_gen7 in Hb. cbv zeta in Hb.
  apply bind_Some in Hb as (x & _ & Hb). cbv beta in Hb.
  apply bind_Some in Hb as ([offset size] & _ & Hb). cbv beta iota in Hb.
  open_cmd_ptr Hb. injection Hb as <-.
  split; [| exact Hfit]. split; [reflexivity | solve_same_below].
Qed.

Lemma build_zero_cmd_appends op len pipeline pipeline' :
  build_zero_cmd op len pipeline = Some pipeline' ->
  appended pipeline pipeline' len /\
  cmd_len pipeline + len < INTEL_PSO_CMD_ENTRIES H.
Proof.
  intros Hb. unfold build_zero_cmd in Hb. cbv zeta in Hb.
  apply bind_Some in Hb as (x & _ & Hb). cbv beta in Hb.
  open_cmd_ptr Hb. injection Hb as <-.
  split; [| exact Hfit]. split; [rewrite cmd_len_store_zeros; reflexivity |].
  solve_same_below.
Qed.

Lemma vertex_elements_loop_appends attrs :
  forall dw pipeline dw' pipeline' below,
    vertex_elements_loop attrs dw pipeline = Some (dw', pipeline') ->
    below <= dw ->
    cmd_len pipeline' = cmd_len pipeline /\
    dw' = dw + 2 * Z.of_nat (length attrs) /\
    same_below below pipeline pipeline'.
Proof.
  induction attrs as [| attr attrs IH]; intros dw pipeline dw' pipeline' below Hb Hle.
  - injection Hb as <- <-. cbn [length]. repeat split. lia.
  - cbn [vertex_elements_loop] in Hb. cbv zeta in Hb.
    apply bind_Some in Hb as (x & _ & Hb). cbv beta in Hb.
    destruct (IH _ _ _ _ below Hb ltac:(lia)) as (Hc & Hdw & Hs).
    split; [exact Hc |]. split; [cbn [length]; lia |].
    eapply same_below_trans; [| exact Hs]. solve_same_below.
Qed.

Lemma pipeline_build_vertex_elements_appends pipeline info pipeline' :
  pipeline_build_vertex_elements pipeline info = Some pipeline' ->
  let words :=
    vertex_element_words H (vs pipeline) (Xgl.attributeCount (Assembler.vi info)) in
  appended pipeline pipeline' words /\
  (words = 0 \/ cmd_len pipeline + words < INTEL_PSO_CMD_ENTRIES H).
Proof.
  intros Hb words. subst words.
  unfold pipeline_build_vertex_elements in Hb. unfold vertex_element_words.
  cbv zeta in Hb |- *.
  apply bind_Some in Hb as (x & _ & Hb). cbv beta in Hb.
  set (len := if uses_vid_or_iid H (vs pipeline)
              then to_uint8 (to_uint8 (1 + 2 * Xgl.attributeCount (Assembler.vi info)) + 2)
              else to_uint8 (1 + 2 * Xgl.attributeCount (Assembler.vi info))) in *.
  destruct (len =? 1).
  - injection Hb as <-. split; [| left; reflexivity].
    split; [lia | apply same_below_refl].
  - open_cmd_ptr Hb.
    apply bind_Some in Hb as ([dw2 p2] & Hloop & Hb). cbv beta iota in Hb.
    apply vertex_elements_loop_appends with (below := cmd_len pipeline) in Hloop
      as (Hc & Hdw & Hs); [| simpl; lia].
    assert (Hdw2 : cmd_len pipeline <= dw2) by lia.
    split; [| right; exact Hfit].
    destruct (uses_vid_or_iid H (vs pipeline)); injection Hb as <-.
    + split; [exact Hc |].
      apply same_below_store; [| lia]. apply same_below_store; [| lia].
      eapply same_below_trans; [| exact Hs]. solve_same_below.
    + split; [exact Hc |]. eapply same_below_trans; [| exact Hs]. solve_same_below.
Qed.

End EncoderFrames.

(** ** The build as a whole *)

Section BuildAllFacts.
Import Pipeline CInt CIntFacts Stated Behaviour.
Context {H : Headers}.
Implicit Types pipeline : intel_pipeline H.
Implicit Types info : Assembler.intel_pipeline_create_info H.
Variable pipeline_build_shaders :
  intel_pipeline H -> Assembler.intel_pipeline_create_info H ->
  XGL_RESULT * intel_pipeline H.

Lemma appended_same_commands pipeline pipeline' :
  cmds pipeline' = cmds pipeline -> cmd_len pipeline' = cmd_len pipeline ->
  dev pipeline' = dev pipeline ->
  active_shaders pipeline' = active_shaders pipeline ->
  vs pipeline' = vs pipeline -> gs pipeline' = gs pipeline ->
  appended pipeline pipeline' 0.
Proof.
  intros Hc Hl Hd Ha Hv Hg. split; [lia |].
  repeat split; try assumption; rewrite Hc; reflexivity.
Qed.

Lemma pipeline_build_ia_keeps pipeline info :
  let r := pipeline_build_ia pipeline info in
  (r.1 = XGL_SUCCESS \/ r.1 = XGL_ERROR_BAD_PIPELINE_DATA) /\
  appended pipeline r.2 0.
Proof.
  intros r. subst r. unfold pipeline_build_ia. cbv zeta.
  destruct (Xgl.provokingVertex (Assembler.ia info)),
    (Xgl.primitiveRestartEnable (Assembler.ia info)),
    (Xgl.topology (Assembler.ia info));
    try destruct ((Xgl.patchControlPoints (Assembler.tess info) =? 0)
                  || (Xgl.patchControlPoints (Assembler.tess info) >? 32));
    cbn [fst snd];
    (split; [first [left; reflexivity | right; reflexivity]
            | apply appended_same_commands; reflexivity]).
Qed.

Lemma vertex_element_words_nonneg vsh count : 0 <= vertex_element_words H vsh count.
Proof.
  unfold vertex_element_words. cbv zeta.
  assert (Hu : forall x, 0 <= to_uint8 x).
  { intros x. unfold to_uint8. apply Z.mod_pos_bound. reflexivity. }
  destruct (uses_vid_or_iid H vsh);
    match goal with |- context [?b =? 1] => destruct (b =? 1) end;
    first [reflexivity | apply Hu].
Qed.

Lemma build_generation_appends pipeline pipeline' :
  (if gpu_gen (gpu (dev pipeline)) >=? INTEL_GEN_7 H then
     pipeline ← pipeline_build_urb_alloc_gen7 pipeline;
     pipeline ← pipeline_build_push_const_alloc_gen7 pipeline;
     pipeline ← pipeline_build_gs pipeline;
     pipeline ← pipeline_build_hs pipeline;
     pipeline ← pipeline_build_te pipeline;
     pipeline ← pipeline_build_ds pipeline;
     Some (set_wa_flags pipeline (wa_flags_gen7 H))
   else
     pipeline ← pipeline_build_urb_alloc_gen6 pipeline;
     Some (set_wa_flags pipeline (wa_flags_gen6 H))) = Some pipeline' ->
  appended pipeline pipeline' (generation_words H (gpu (dev pipeline))) /\
  cmd_len pipeline' < INTEL_PSO_CMD_ENTRIES H.
Proof.
  intros Hb. unfold generation_words.
  destruct (gpu_gen (gpu (dev pipeline)) >=? INTEL_GEN_7 H).
  - apply bind_Some in Hb as (p1 & H1 & Hb).
    apply bind_Some in Hb as (p2 & H2 & Hb).
    apply bind_Some in Hb as (p3 & H3 & Hb).
    apply bind_Some in Hb as (p4 & H4 & Hb).
    apply bind_Some in Hb as (p5 & H5 & Hb).
    apply bind_Some in Hb as (p6 & H6 & Hb).
    injection H3 as <-. injection Hb as <-.
    apply pipeline_build_urb_alloc_gen7_appends in H1 as [A1 _].
    apply pipeline_build_push_const_alloc_gen7_appends in H2 as [A2 _].
    apply build_zero_cmd_appends in H4 as [A4 _].
    apply build_zero_cmd_appends in H5 as [A5 _].
    apply build_zero_cmd_appends in H6 as [A6 F6].
    pose proof (appended_trans _ _ _ 8 10 ltac:(lia) A1 A2) as A.
    pose proof (appended_trans _ _ _ (8 + 10) 7 ltac:(lia) A A4) as A'.
    pose proof (appended_trans _ _ _ (8 + 10 + 7) 4 ltac:(lia) A' A5) as A''.
    pose proof (appended_trans _ _ _ (8 + 10 + 7 + 4) 6 ltac:(lia) A'' A6)
      as [Hlen Hsame].
    split; [split; [exact Hlen | exact Hsame] |].
    destruct A6 as [Hl6 _]. cbn [set_wa_flags cmd_len]. lia.
  - apply bind_Some in Hb as (p1 & H1 & Hb). injection Hb as <-.
    apply pipeline_build_urb_alloc_gen6_appends in H1 as [[Hl1 A1] F1].
    split; [split; [exact Hl1 | exact A1] |].
    cbn [set_wa_flags cmd_len]. lia.
Qed.

(** X9. What [pipeline_build_all] does to the object that the shader
    resolution hands it. An error of the shader resolution, and more bindings
    or attributes than the binding table holds, are returned with the object
    as it was. Otherwise, unless an assertion stops the process, the result is
    success or the bad-pipeline-data error and in both cases the command
    array has grown by exactly the vertex-elements command plus 35 words on
    the newer generation, 3 on the older: the words emitted before stay as
    they were and the length stays below the capacity. An assertion can stop
    the build only after the shaders resolved and the counts were accepted. *)
Theorem pipeline_build_all_appends pipeline info :
  let r0 := pipeline_build_shaders pipeline info in
  let vi := Assembler.vi info in
  let words :=
    vertex_element_words H (vs r0.2) (Xgl.attributeCount vi)
    + generation_words H (gpu (dev r0.2)) in
  match pipeline_build_all pipeline_build_shaders pipeline info with
  | None =>
      r0.1 = XGL_SUCCESS /\
      Xgl.bindingCount vi <= vb_ARRAY_SIZE H /\
      Xgl.attributeCount vi <= vb_ARRAY_SIZE H
  | Some (ret, pipeline') =>
      (r0.1 <> XGL_SUCCESS -> ret = r0.1 /\ pipeline' = r0.2) /\
      (r0.1 = XGL_SUCCESS ->
       vb_ARRAY_SIZE H < Xgl.bindingCount vi \/
       vb_ARRAY_SIZE H < Xgl.attributeCount vi ->
       ret = XGL_ERROR_BAD_PIPELINE_DATA /\ pipeline' = r0.2) /\
      (r0.1 = XGL_SUCCESS ->
       Xgl.bindingCount vi <= vb_ARRAY_SIZE H ->
       Xgl.attributeCount vi <= vb_ARRAY_SIZE H ->
       (ret = XGL_SUCCESS \/ ret = XGL_ERROR_BAD_PIPELINE_DATA) /\
       appended r0.2 pipeline' words /\
       cmd_len pipeline' < INTEL_PSO_CMD_ENTRIES H)
  end.
Proof.
  intros r0 vi words. subst r0 words.
  destruct (pipeline_build_all pipeline_build_shaders pipeline info)
    as [[ret pipeline'] |] eqn:Hb;
    unfold pipeline_build_all in Hb;
    destruct (pipeline_build_shaders pipeline info) as [ret0 p0]; cbn [fst snd];
    cbv beta iota zeta in Hb; fold vi in Hb;
    pose proof (XGL_RESULT_eqb_SUCCESS ret0) as Heq;
    destruct (XGL_RESULT_eqb ret0 XGL_SUCCESS); cbn [negb] in Hb.
  - (* the shaders resolved *)
    destruct Heq as [Heq _]. specialize (Heq eq_refl). subst ret0.
    split; [intros Hne; contradiction Hne; reflexivity |].
    destruct ((Xgl.bindingCount vi >? vb_ARRAY_SIZE H)
              || (Xgl.attributeCount vi >? vb_ARRAY_SIZE H)) eqn:Hmany.
    + injection Hb as <- <-. split; [intros _ _; split; reflexivity |].
      intros _ Hb1 Hb2. apply orb_true_iff in Hmany.
      rewrite !Z.gtb_lt in Hmany. lia.
    + apply orb_false_iff in Hmany as [Hm1 Hm2].
      split; [intros _ Hmany; rewrite Z.gtb_ltb, Z.ltb_ge in Hm1, Hm2; lia |].
      intros _ _ _.
      apply bind_Some in Hb as (p1 & Hve & Hb).
      apply bind_Some in Hb as (p2 & Hgen & Hb).
      apply pipeline_build_vertex_elements_appends in Hve as [Ave _].
      cbv zeta in Ave. cbn [set_vb vs] in Ave.
      apply build_generation_appends in Hgen as [Agen Fgen].
      pose proof (pipeline_build_ia_keeps p2 info) as [Hret Aia].
      cbv zeta in Hret, Aia.
      destruct (pipeline_build_ia p2 info) as [ret1 p3]. cbn [fst snd] in Hret, Aia.
      assert (Adev : dev p1 = dev p0) by (destruct Ave as (_ & _ & Hd & _); exact Hd).
      rewrite Adev in Agen.
      pose proof (vertex_element_words_nonneg (vs p0) (Xgl.attributeCount vi)) as Hve0.
      assert (A0 : appended p0
                     (set_vb p0 (Xgl.bindingCount vi)
                        (take (Z.to_nat (Xgl.bindingCount vi))
                           (Xgl.pVertexBindingDescriptions vi)
                         ++ drop (Z.to_nat (Xgl.bindingCount vi)) (vb p0))) 0)
        by (apply appended_same_commands; reflexivity).
      assert (Hgen0 : 0 <= generation_words H (gpu (dev p0))).
      { unfold generation_words.
        destruct (gpu_gen (gpu (dev p0)) >=? INTEL_GEN_7 H); lia. }
      pose proof (appended_trans _ _ _ 0 _ (Z.le_refl 0) A0 Ave) as A1.
      rewrite Z.add_0_l in A1.
      pose proof (appended_trans _ _ _ _ _ Hve0 A1 Agen) as A2.
      pose proof (appended_trans _ _ _ _ 0 (Z.add_nonneg_nonneg _ _ Hve0 Hgen0) A2 Aia)
        as A3.
      rewrite Z.add_0_r in A3.
      assert (Hlen3 : cmd_len p3 = cmd_len p2) by (destruct Aia as [Hl _]; lia).
      unfold pipeline_rs_state in Hb.
      destruct Hret as [-> | ->]; cbn [XGL_RESULT_eqb] in Hb; cbv beta iota in Hb;
        injection Hb as <- <-.
      * split; [left; reflexivity |]. split; [| cbn [set_fixed_state set_rs cmd_len]; lia].
        rewrite <- (Z.add_0_r (_ + _)).
        apply (appended_trans _ _ _ _ 0 (Z.add_nonneg_nonneg _ _ Hve0 Hgen0) A3).
        apply appended_same_commands; reflexivity.
      * split; [right; reflexivity |]. split; [exact A3 | lia].
  - (* the shader resolution failed *)
    injection Hb as <- <-. split; [intros _; split; reflexivity |].
    split; intros Hs; apply Heq in Hs; discriminate Hs.
  - (* an assertion stopped the build *)
    destruct Heq as [Heq _]. split; [exact (Heq eq_refl) |].
    destruct ((Xgl.bindingCount vi >? vb_ARRAY_SIZE H)
              || (Xgl.attributeCount vi >? vb_ARRAY_SIZE H)) eqn:Hmany;
      [discriminate Hb |].
    apply orb_false_iff in Hmany as [Hm1 Hm2].
    rewrite Z.gtb_ltb, Z.ltb_ge in Hm1, Hm2. split; assumption.
  - discriminate Hb.
Qed.

End BuildAllFacts.

(** ** The assembly of the descriptor, on any chain *)

Section AssemblerMoreFacts.
Import Assembler Stated.
Context {H : Headers}.
Implicit Types info : intel_pipeline_create_info H.
Implicit Types header : Xgl.intel_pipeline_create_info_header H.
Implicit Types chain : list (Xgl.intel_pipeline_create_info_header H).

Lemma create_info_walk_app pre :
  forall info chain,
    Forall (fun header => is_Some (slot_of header)) pre ->
    create_info_walk info (pre ++ chain)
    = create_info_walk (create_info_walk info pre).2 chain.
Proof.
  induction pre as [| header pre IH]; intros info chain Hall; [reflexivity |].
  apply Forall_cons in Hall as [[s0 Hs0] Hall]. simpl.
  destruct (copy_of header) as [f |] eqn:Hcopy;
    [| apply copy_of_None in Hcopy; congruence].
  apply IH. exact Hall.
Qed.

Lemma create_info_walk_SUCCESS chain :
  forall info,
    (create_info_walk info chain).1 = XGL_SUCCESS ->
    Forall (fun header => is_Some (slot_of header)) chain.
Proof.
  induction chain as [| header next IH]; intros info Hok; [constructor |].
  simpl in Hok. destruct (copy_of header) as [f |] eqn:Hcopy; [| discriminate Hok].
  constructor; [| exact (IH _ Hok)].
  destruct (slot_of header) eqn:Hs; [eexists; reflexivity |].
  apply copy_of_None in Hs. congruence.
Qed.

Lemma create_info_walk_BAD chain :
  forall info,
    (create_info_walk info chain).1 = XGL_ERROR_BAD_PIPELINE_DATA ->
    Exists (fun header => slot_of header = None) chain.
Proof.
  induction chain as [| header next IH]; intros info Hbad; [discriminate Hbad |].
  simpl in Hbad. destruct (copy_of header) as [f |] eqn:Hcopy.
  - apply Exists_cons_tl. exact (IH _ Hbad).
  - apply Exists_cons_hd. apply copy_of_None. exact Hcopy.
Qed.

(** X10. [pipeline_create_info_init] on any chain: it succeeds exactly when
    every fragment is recognized and returns the bad-pipeline-data error
    exactly when one is not. It stops at the first fragment that is not
    recognized: the descriptor then holds what the fragments before it put
    there, and nothing of those after it. *)
Theorem pipeline_create_info_init_result (zeroed : intel_pipeline_create_info H) chain :
  let r := pipeline_create_info_init zeroed chain in
  (r.1 = XGL_SUCCESS <-> Forall (fun header => is_Some (slot_of header)) chain) /\
  (r.1 = XGL_ERROR_BAD_PIPELINE_DATA <->
   Exists (fun header => slot_of header = None) chain) /\
  (forall pre header post,
     chain = pre ++ header :: post ->
     Forall (fun header => is_Some (slot_of header)) pre ->
     slot_of header = None ->
     r = (XGL_ERROR_BAD_PIPELINE_DATA, (pipeline_create_info_init zeroed pre).2)).
Proof.
  intros r. subst r. unfold pipeline_create_info_init.
  assert (Hok : (create_info_walk zeroed chain).1 = XGL_SUCCESS <->
                Forall (fun header => is_Some (slot_of header)) chain).
  { split; [apply create_info_walk_SUCCESS |]. intros Hall.
    destruct (create_info_walk_last chain zeroed Hall) as (info & -> & _).
    reflexivity. }
  split; [exact Hok |]. split.
  - split.
    + apply create_info_walk_BAD.
    + intros Hex. apply Exists_exists in Hex as (header & Hin & Hnone).
      exact (create_info_walk_unrecognized chain zeroed header Hin Hnone).
  - intros pre header post -> Hpre Hnone.
    rewrite create_info_walk_app by exact Hpre. simpl.
    apply copy_of_None in Hnone. rewrite Hnone. reflexivity.
Qed.

Lemma slot_content_inj info info' :
  (forall s, slot_content s info = slot_content s info') -> info = info'.
Proof.
  intros Hs. destruct info, info'.
  pose proof (Hs slot_graphics) as H1. pose proof (Hs slot_vi) as H2.
  pose proof (Hs slot_ia) as H3. pose proof (Hs slot_db) as H4.
  pose proof (Hs slot_cb) as H5. pose proof (Hs slot_rs) as H6.
  pose proof (Hs slot_tess) as H7. pose proof (Hs slot_vs) as H8.
  pose proof (Hs slot_tcs) as H9. pose proof (Hs slot_tes) as H10.
  pose proof (Hs slot_gs) as H11. pose proof (Hs slot_fs) as H12.
  pose proof (Hs slot_compute) as H13. simpl in *. congruence.
Qed.

Lemma filter_slot_at_most_one chain s :
  NoDup (slot_of <$> chain) ->
  (length (filter (fun header => slot_of header = Some s) chain) <= 1)%nat.
Proof.
  induction chain as [| header next IH]; intros Hnd; [simpl; lia |].
  rewrite fmap_cons in Hnd. apply NoDup_cons in Hnd as [Hnotin Hnd].
  rewrite filter_cons. destruct (decide (slot_of header = Some s)) as [Hs | Hs].
  - destruct (filter (fun header => slot_of header = Some s) next) as [| h l] eqn:Hf;
      [simpl; lia |].
    exfalso. apply Hnotin.
    assert (Hin : h ∈ filter (fun header => slot_of header = Some s) next)
      by (rewrite Hf; left).
    apply list_elem_of_filter in Hin as [Hhs Hin].
    rewrite Hs, <- Hhs. apply list_elem_of_fmap. exists h. split; [reflexivity | exact Hin].
  - exact (IH Hnd).
Qed.

(** X11. The order of the fragments does not matter where no two are for
    the same slot: two chains of recognized fragments that are permutations
    of each other, with every slot named at most once, are assembled into
    the same descriptor. *)
Theorem pipeline_create_info_init_any_order
    (zeroed : intel_pipeline_create_info H) chain chain' :
  Forall (fun header => is_Some (slot_of header)) chain ->
  NoDup (slot_of <$> chain) ->
  chain ≡ₚ chain' ->
  pipeline_create_info_init zeroed chain' = pipeline_create_info_init zeroed chain /\
  (pipeline_create_info_init zeroed chain).1 = XGL_SUCCESS.
Proof.
  intros Hall Hnd Hperm.
  assert (Hall' : Forall (fun header => is_Some (slot_of header)) chain')
    by (rewrite <- Hperm; exact Hall).
  assert (Hnd' : NoDup (slot_of <$> chain')) by (rewrite <- Hperm; exact Hnd).
  unfold pipeline_create_info_init.
  destruct (create_info_walk_last chain zeroed Hall) as (info & -> & Hslots).
  destruct (create_info_walk_last chain' zeroed Hall') as (info' & -> & Hslots').
  split; [| reflexivity]. f_equal. apply slot_content_inj. intros s.
  rewrite Hslots, Hslots'. f_equal. unfold last_for_slot.
  pose proof (filter_slot_at_most_one chain s Hnd) as Hl.
  pose proof (filter_slot_at_most_one chain' s Hnd') as Hl'.
  assert (Hp : filter (fun header => slot_of header = Some s) chain
               ≡ₚ filter (fun header => slot_of header = Some s) chain')
    by (rewrite Hperm; reflexivity).
  destruct (filter (fun header => slot_of header = Some s) chain) as [| a [| b l]];
    destruct (filter (fun header => slot_of header = Some s) chain') as [| a' [| b' l']];
    simpl in Hl, Hl'; try lia.
  - reflexivity.
  - apply Permutation_nil_cons in Hp. destruct Hp.
  - symmetry in Hp. apply Permutation_nil_cons in Hp. destruct Hp.
  - apply Permutation_singleton_l in Hp. injection Hp as ->. reflexivity.
Qed.

End AssemblerMoreFacts.

(** A chain and the same chain reversed. *)
Lemma pipeline_create_info_init_any_order_witness :
  let chain := Sample.scenario_chain in
  Forall (fun header => is_Some (Stated.slot_of header)) chain /\
  NoDup (Stated.slot_of <$> chain) /\
  chain ≡ₚ reverse chain /\
  Assembler.pipeline_create_info_init Sample.zeroed (reverse chain)
  = Assembler.pipeline_create_info_init Sample.zeroed chain.
Proof.
  intros chain.
  assert (Hall : Forall (fun header => is_Some (Stated.slot_of header)) chain)
    by (repeat constructor; eexists; reflexivity).
  assert (Hnd : NoDup (Stated.slot_of <$> chain))
    by (apply (bool_decide_unpack _); vm_compute; exact I).
  assert (Hperm : chain ≡ₚ reverse chain) by (symmetry; apply reverse_Permutation).
  split; [exact Hall |]. split; [exact Hnd |]. split; [exact Hperm |].
  exact (proj1 (pipeline_create_info_init_any_order Sample.zeroed chain (reverse chain)
                  Hall Hnd Hperm)).
Defined.

(** ** The creation of a pipeline *)

Section CreateFacts.
Import Pipeline Stated.
Context {H : Headers}.
Variable pipeline_build_shaders :
  intel_pipeline H -> Assembler.intel_pipeline_create_info H ->
  XGL_RESULT * intel_pipeline H.
Variable intel_base_create : intel_dev -> option (intel_pipeline H).
Variable zeroed : Assembler.intel_pipeline_create_info H.

(** X12. How [graphics_pipeline_create] can end. The caller receives a
    pipeline exactly when the result is success. A chain with a fragment that
    is not recognized is turned down with the bad-pipeline-data error before
    anything is allocated; the return taken when the allocator gives no
    object is taken only on a chain that was accepted; an object that is
    destroyed is destroyed with an error, never with success. A pipeline that is handed
    back has passed the validator: with stage masks that do not overlap, its
    vertex stage is active, it has no tessellation and no compute stage and
    its topology is not patch-list. An assertion can stop the creation only
    after the chain was accepted and an object allocated. *)
Theorem graphics_pipeline_create_outcomes dev info_ :
  stage_flags_ok H ->
  let recognized := Forall (fun header => is_Some (slot_of header)) info_ in
  match graphics_pipeline_create pipeline_build_shaders intel_base_create zeroed
          dev info_ with
  | None => recognized /\ is_Some (intel_base_create dev)
  | Some o =>
      (create_result o = XGL_SUCCESS <-> is_Some (pipeline_ret o)) /\
      match o with
      | Rejected_by_info_init ret =>
          ret = XGL_ERROR_BAD_PIPELINE_DATA /\ ~ recognized
      | Out_of_memory => recognized /\ intel_base_create dev = None
      | Destroyed ret _ => recognized /\ ret <> XGL_SUCCESS
      | Created pipeline =>
          recognized /\
          pipeline_validate pipeline = XGL_SUCCESS /\
          stage_active (active_shaders pipeline) (SHADER_VERTEX_FLAG H) /\
          ~ stage_active (active_shaders pipeline) (SHADER_TESS_CONTROL_FLAG H) /\
          ~ stage_active (active_shaders pipeline) (SHADER_TESS_EVAL_FLAG H) /\
          ~ stage_active (active_shaders pipeline) (SHADER_COMPUTE_FLAG H) /\
          topology pipeline <> XGL_TOPOLOGY_PATCH
      end
  end.
Proof.
  intros Hok recognized. unfold graphics_pipeline_create.
  unfold Assembler.pipeline_create_info_init.
  pose proof (create_info_walk_result info_ zeroed) as Hres.
  pose proof (create_info_walk_SUCCESS info_ zeroed) as Hrec.
  pose proof (create_info_walk_last info_ zeroed) as Hlast.
  destruct (Assembler.create_info_walk zeroed info_) as [ret info].
  cbn [fst] in Hres, Hrec. fold recognized in Hrec.
  destruct Hres as [-> | ->]; cbn [XGL_RESULT_eqb negb].
  2: { split; [split; [discriminate | intros [p Hp]; discriminate Hp] |].
       split; [reflexivity |]. intros Hall.
       destruct (Hlast Hall) as (info' & Hw & _). discriminate Hw. }
  specialize (Hrec eq_refl).
  destruct (intel_base_create dev) as [p |] eqn:Halloc.
  2: { split; [split; [discriminate | intros [q Hq]; discriminate Hq] |].
       split; [exact Hrec | reflexivity]. }
  destruct (pipeline_build_all pipeline_build_shaders (set_dev p dev) info)
    as [[ret2 p2] |] eqn:Hb; cbn [mbind option_bind].
  2: { split; [exact Hrec | eexists; reflexivity]. }
  pose proof (XGL_RESULT_eqb_SUCCESS ret2) as Heq2.
  pose proof (XGL_RESULT_eqb_SUCCESS (pipeline_validate p2)) as Heqv.
  destruct (XGL_RESULT_eqb ret2 XGL_SUCCESS) eqn:He2.
  - destruct (XGL_RESULT_eqb (pipeline_validate p2) XGL_SUCCESS); cbn [negb].
    + destruct Heqv as [Heqv _]. specialize (Heqv eq_refl).
      split; [split; [intros _; eexists; reflexivity | reflexivity] |].
      split; [exact Hrec |]. split; [exact Heqv |].
      exact (pipeline_validate_SUCCESS_stages p2 Hok Heqv).
    + split; [split; [intros Hs; apply Heqv in Hs; discriminate Hs
                     | intros [q Hq]; discriminate Hq] |].
      split; [exact Hrec |]. intros Hs. apply Heqv in Hs. discriminate Hs.
  - cbv beta iota zeta. rewrite He2. cbn [negb].
    split; [split; [intros Hs; apply Heq2 in Hs; discriminate Hs
                   | intros [q Hq]; discriminate Hq] |].
    split; [exact Hrec |]. intros Hs. apply Heq2 in Hs. discriminate Hs.
Qed.

End CreateFacts.

(** The chain of the first scenario on a generation-7 device, with the
    flags of the sample. *)
Lemma graphics_pipeline_create_outcomes_witness :
  let dev := {| Pipeline.gpu := Sample.gen7_gt2 |} in
  let recognized :=
    Forall (fun header => is_Some (Stated.slot_of header)) Sample.scenario_chain in
  stage_flags_ok Sample.headers /\
  match Pipeline.graphics_pipeline_create Sample.resolve_shaders Sample.allocate
          Sample.zeroed dev Sample.scenario_chain with
  | None => recognized /\ is_Some (Sample.allocate dev)
  | Some o =>
      (Pipeline.create_result o = XGL_SUCCESS <-> is_Some (Pipeline.pipeline_ret o)) /\
      match o with
      | Pipeline.Rejected_by_info_init ret =>
          ret = XGL_ERROR_BAD_PIPELINE_DATA /\ ~ recognized
      | Pipeline.Out_of_memory => recognized /\ Sample.allocate dev = None
      | Pipeline.Destroyed ret _ => recognized /\ ret <> XGL_SUCCESS
      | Pipeline.Created pipeline =>
          recognized /\
          Pipeline.pipeline_validate pipeline = XGL_SUCCESS /\
          Stated.stage_active (Pipeline.active_shaders pipeline)
            (SHADER_VERTEX_FLAG Sample.headers) /\
          ~ Stated.stage_active (Pipeline.active_shaders pipeline)
              (SHADER_TESS_CONTROL_FLAG Sample.headers) /\
          ~ Stated.stage_active (Pipeline.active_shaders pipeline)
              (SHADER_TESS_EVAL_FLAG Sample.headers) /\
          ~ Stated.stage_active (Pipeline.active_shaders pipeline)
              (SHADER_COMPUTE_FLAG Sample.headers) /\
          Pipeline.topology pipeline <> XGL_TOPOLOGY_PATCH
      end
  end.
Proof.
  intros dev recognized. split; [exact sample_stage_flags_ok |].
  exact (graphics_pipeline_create_outcomes Sample.resolve_shaders Sample.allocate
           Sample.zeroed dev Sample.scenario_chain sample_stage_flags_ok).
Defined.

(** ** The URB commands of the newer generation *)

Section UrbEmitFacts.
Import Pipeline CInt CIntFacts Stated.
Context {H : Headers}.
Implicit Types pipeline : intel_pipeline H.

(** X13. When the URB allocator of the newer generation gets past its
    checks and the sink has room, it appends eight words: the vertex, geometry,
    hull and domain URB commands, two words each. The start fields are exact
    in units of 8 KiB: the vertex partition starts at the reserved offset and
    the other three start where the vertex partition ends when the geometry
    stage is active, and at the reserved offset otherwise. The hull and domain
    commands get no entry size and no entry. *)
Theorem urb_alloc_gen7_emits pipeline u :
  urb_layout_gen7 pipeline = Some u ->
  sink_ok pipeline ->
  cmd_len pipeline + 8 < INTEL_PSO_CMD_ENTRIES H ->
  let geometry := stage_active (active_shaders pipeline) (SHADER_GEOMETRY_FLAG H) in
  let word (op : render_cmd) := Z.lor (RENDER_CMD_3D H op) 0 in
  let start (units : Z) := Z.shiftl units (GEN7_URB_ANY_DW1_OFFSET__SHIFT H) in
  let size (rows : Z) := Z.shiftl (rows - 1) (GEN7_URB_ANY_DW1_ENTRY_SIZE__SHIFT H) in
  exists pipeline' vs_start rest_start,
    pipeline_build_urb_alloc_gen7 pipeline = Some pipeline' /\
    cmd_len pipeline' = cmd_len pipeline + 8 /\
    8192 * vs_start = urb_offset u /\
    (geometry -> 8192 * rest_start = urb_offset u + vs_size u) /\
    (~ geometry -> rest_start = vs_start) /\
    arr_get (cmds pipeline') (cmd_len pipeline) =
      Some (to_uint32 (word GEN7_3DSTATE_URB_VS)) /\
    arr_get (cmds pipeline') (cmd_len pipeline + 1) =
      Some (to_uint32 (Z.lor (Z.lor (start vs_start) (size (vs_alloc_size u)))
                             (vs_entry_count u))) /\
    arr_get (cmds pipeline') (cmd_len pipeline + 2) =
      Some (to_uint32 (word GEN7_3DSTATE_URB_GS)) /\
    arr_get (cmds pipeline') (cmd_len pipeline + 3) =
      Some (to_uint32 (Z.lor (Z.lor (start rest_start) (size (gs_alloc_size u)))
                             (gs_entry_count u))) /\
    arr_get (cmds pipeline') (cmd_len pipeline + 4) =
      Some (to_uint32 (word GEN7_3DSTATE_URB_HS)) /\
    arr_get (cmds pipeline') (cmd_len pipeline + 5) =
      Some (to_uint32 (start rest_start)) /\
    arr_get (cmds pipeline') (cmd_len pipeline + 6) =
      Some (to_uint32 (word GEN7_3DSTATE_URB_DS)) /\
    arr_get (cmds pipeline') (cmd_len pipeline + 7) =
      Some (to_uint32 (start rest_start)).
Proof.
  intros Hu [Hlen Hcmds] Hroom geometry word start size.
  destruct (urb_layout_gen7_inv pipeline u Hu) as (_ & _ & Hoff & Hvs & Hgs & _).
  cbv zeta in Hoff, Hvs, Hgs.
  unfold pipeline_build_urb_alloc_gen7. rewrite Hu, Some_bind. cbv zeta.
  rewrite pipeline_cmd_ptr_fits by exact Hroom. rewrite Some_bind.
  eexists.
  exists (urb_offset u ÷ 8192).
  exists ((if truthy (gs_size u) then to_int (urb_offset u + vs_size u)
           else urb_offset u) ÷ 8192).
  split; [reflexivity |]. split; [reflexivity |].
  assert (Hunits :
    8192 * (urb_offset u ÷ 8192) = urb_offset u /\
    (geometry ->
     8192 * ((if truthy (gs_size u) then to_int (urb_offset u + vs_size u)
              else urb_offset u) ÷ 8192) = urb_offset u + vs_size u) /\
    (~ geometry ->
     (if truthy (gs_size u) then to_int (urb_offset u + vs_size u)
      else urb_offset u) ÷ 8192 = urb_offset u ÷ 8192)).
  { subst geometry. rewrite Hoff, Hvs, Hgs.
    destruct (truthy (Z.land (active_shaders pipeline) (SHADER_GEOMETRY_FLAG H)))
      eqn:Hg.
    - apply truthy_active in Hg.
      destruct (gen7_urb_room (gpu (dev pipeline))) as [[-> [-> | ->]] | [-> ->]];
        (split; [reflexivity |]);
        (split; [intros _; reflexivity | intros Hn; contradiction (Hn Hg)]).
    - apply truthy_inactive in Hg.
      split; [| split; [intros Hy; contradiction (Hg Hy) | intros _; reflexivity]].
      destruct (gen7_urb_room (gpu (dev pipeline))) as [[-> _] | [-> _]]; reflexivity. }
  destruct Hunits as (Hu1 & Hu2 & Hu3).
  split; [exact Hu1 |]. split; [exact Hu2 |]. split; [exact Hu3 |].
  repeat split.
  all: read_back; reflexivity.
Qed.

End UrbEmitFacts.

(** A newer GT2 part with the geometry stage active: the vertex partition
    starts at unit 2 (16 KiB) and the others at unit 17 (136 KiB). *)
Lemma urb_alloc_gen7_emits_witness :
  let pipeline :=
    Sample.pipeline_of Sample.gen7_gt2 128 0 9 XGL_TOPOLOGY_TRIANGLE_LIST
      {| Pipeline.in_count := 20; Pipeline.out_count := 4; Pipeline.uses := 0 |}
      {| Pipeline.in_count := 4; Pipeline.out_count := 20; Pipeline.uses := 0 |} in
  exists u,
    Pipeline.urb_layout_gen7 pipeline = Some u /\
    Stated.sink_ok pipeline /\
    Pipeline.cmd_len pipeline + 8 < INTEL_PSO_CMD_ENTRIES Sample.headers /\
    exists pipeline' vs_start rest_start,
      Pipeline.pipeline_build_urb_alloc_gen7 pipeline = Some pipeline' /\
      Pipeline.cmd_len pipeline' = Pipeline.cmd_len pipeline + 8 /\
      8192 * vs_start = Pipeline.urb_offset u /\
      (Stated.stage_active (Pipeline.active_shaders pipeline)
         (SHADER_GEOMETRY_FLAG Sample.headers) ->
       8192 * rest_start = Pipeline.urb_offset u + Pipeline.vs_size u).
Proof.
  intros pipeline.
  destruct (Pipeline.urb_layout_gen7 pipeline) as [u |] eqn:Hu;
    [| vm_compute in Hu; discriminate Hu].
  assert (Hok : Stated.sink_ok pipeline)
    by (split; [vm_compute; discriminate | reflexivity]).
  assert (Hroom : Pipeline.cmd_len pipeline + 8 < INTEL_PSO_CMD_ENTRIES Sample.headers)
    by reflexivity.
  exists u. split; [reflexivity |]. split; [exact Hok |]. split; [exact Hroom |].
  destruct (urb_alloc_gen7_emits pipeline u Hu Hok Hroom)
    as (pipeline' & vs_start & rest_start & Hb & Hl & Hv & Hr & _).
  exists pipeline', vs_start, rest_start.
  split; [exact Hb |]. split; [exact Hl |]. split; [exact Hv | exact Hr].
Defined.

(** ** The hull, tessellator and domain commands *)

Section StubFacts.
Import Pipeline CInt CIntFacts Stated.
Context {H : Headers}.
Implicit Types pipeline : intel_pipeline H.

Lemma build_zero_cmd_outside op len pipeline :
  ~ INTEL_GEN_7 H <= gpu_gen (gpu (dev pipeline)) <= INTEL_GEN_7_5 H ->
  build_zero_cmd op len pipeline = None.
Proof.
  intros Hgen. unfold build_zero_cmd, INTEL_GPU_ASSERT. cbv zeta.
  destruct ((INTEL_GEN_7 H <=? gpu_gen (gpu (dev pipeline)))
            && (gpu_gen (gpu (dev pipeline)) <=? INTEL_GEN_7_5 H)) eqn:Hc;
    [| reflexivity].
  apply andb_true_iff in Hc as [Hlo Hhi]. apply Z.leb_le in Hlo, Hhi. lia.
Qed.

Lemma store_zeros_get pipeline dw n j :
  0 <= dw -> dw + Z.of_nat n < Z.of_nat (length (cmds pipeline)) ->
  arr_get (cmds (store_zeros pipeline dw n)) j =
    if (dw + 1 <=? j) && (j <=? dw + Z.of_nat n) then Some 0
    else arr_get (cmds pipeline) j.
Proof.
  intros Hdw. induction n as [| n IH]; intros Hfit.
  - cbn [store_zeros].
    destruct (Z.leb_spec (dw + 1) j), (Z.leb_spec j (dw + Z.of_nat 0));
      cbn [andb]; first [reflexivity | lia].
  - cbn [store_zeros]. rewrite cmds_store.
    assert (Hlen : length (cmds (store_zeros pipeline dw n)) = length (cmds pipeline)).
    { clear. induction n as [| n IH]; [reflexivity |].
      cbn [store_zeros]. rewrite cmds_store, arr_set_length. exact IH. }
    destruct (Z.eq_dec j (dw + Z.of_nat (S n))) as [-> | Hne].
    + rewrite arr_get_set_eq by (rewrite Hlen; lia).
      destruct (Z.leb_spec (dw + 1) (dw + Z.of_nat (S n))),
        (Z.leb_spec (dw + Z.of_nat (S n)) (dw + Z.of_nat (S n)));
        cbn [andb]; first [reflexivity | lia].
    + rewrite arr_get_set_ne by exact Hne. rewrite IH by lia.
      destruct (Z.leb_spec (dw + 1) j), (Z.leb_spec j (dw + Z.of_nat n)),
        (Z.leb_spec j (dw + Z.of_nat (S n)));
        cbn [andb]; first [reflexivity | lia].
Qed.

Lemma build_zero_cmd_emits op len pipeline :
  INTEL_GEN_7 H <= gpu_gen (gpu (dev pipeline)) <= INTEL_GEN_7_5 H ->
  sink_ok pipeline -> 1 <= len ->
  cmd_len pipeline + len < INTEL_PSO_CMD_ENTRIES H ->
  exists pipeline',
    build_zero_cmd op len pipeline = Some pipeline' /\
    cmd_len pipeline' = cmd_len pipeline + len /\
    sink_ok pipeline' /\ dev pipeline' = dev pipeline /\
    arr_get (cmds pipeline') (cmd_len pipeline)
    = Some (to_uint32 (Z.lor (RENDER_CMD_3D H op) (len - 2))) /\
    (forall k, 1 <= k < len ->
       arr_get (cmds pipeline') (cmd_len pipeline + k) = Some 0) /\
    (forall j, j < cmd_len pipeline ->
       arr_get (cmds pipeline') j = arr_get (cmds pipeline) j).
Proof.
  intros [Hlo Hhi] [Hlen Hcmds] Hone Hroom.
  destruct (build_zero_cmd op len pipeline) as [pipeline' |] eqn:Hb.
  - exists pipeline'. split; [reflexivity |].
    destruct (build_zero_cmd_appends _ _ _ _ Hb) as [[Hl (Hsz & Hd & _ & _ & _ & Hw)] _].
    split; [exact Hl |]. split; [split; [lia | rewrite Hsz; exact Hcmds] |].
    split; [exact Hd |].
    unfold build_zero_cmd in Hb. cbv zeta in Hb.
    apply bind_Some in Hb as (x & _ & Hb). cbv beta in Hb.
    open_cmd_ptr Hb. injection Hb as <-.
    assert (Hz : forall j,
              arr_get (cmds (store_zeros
                               (store (set_cmd_len pipeline (cmd_len pipeline + len))
                                  (cmd_len pipeline) 0
                                  (Z.lor (RENDER_CMD_3D H op) (len - 2)))
                               (cmd_len pipeline) (Z.to_nat (len - 1)))) j
              = if (cmd_len pipeline + 1 <=? j)
                   && (j <=? cmd_len pipeline + Z.of_nat (Z.to_nat (len - 1)))
                then Some 0
                else arr_get (cmds (store (set_cmd_len pipeline (cmd_len pipeline + len))
                                      (cmd_len pipeline) 0
                                      (Z.lor (RENDER_CMD_3D H op) (len - 2)))) j).
    { intros j. apply store_zeros_get; [exact Hlen |].
      rewrite cmds_store, arr_set_length, cmds_set_cmd_len. lia. }
    split; [| split].
    + rewrite Hz.
      destruct (Z.leb_spec (cmd_len pipeline + 1) (cmd_len pipeline)); [lia |].
      cbn [andb]. read_back. reflexivity.
    + intros k Hk. rewrite Hz.
      destruct (Z.leb_spec (cmd_len pipeline + 1) (cmd_len pipeline + k)),
        (Z.leb_spec (cmd_len pipeline + k)
           (cmd_len pipeline + Z.of_nat (Z.to_nat (len - 1))));
        cbn [andb]; first [reflexivity | lia].
    + exact Hw.
  - exfalso. unfold build_zero_cmd, INTEL_GPU_ASSERT in Hb. cbv zeta in Hb.
    rewrite assert_bind_true in Hb
      by (apply andb_true_iff; split; apply Z.leb_le; assumption).
    rewrite pipeline_cmd_ptr_fits in Hb by exact Hroom.
    rewrite Some_bind in Hb. discriminate Hb.
Qed.

(** X14. [pipeline_build_hs], [pipeline_build_te] and [pipeline_build_ds],
    run one after the other as the build does, append seventeen words on
    generations 7 and 7.5 when the sink has room: a header with length field
    5, 2 and 4 for the three commands, at offsets 0, 7 and 11, and zero in
    every other word. On any other generation each of the three stops at its
    assertion. *)
Theorem tessellation_stubs_emit pipeline :
  sink_ok pipeline ->
  cmd_len pipeline + 17 < INTEL_PSO_CMD_ENTRIES H ->
  let header (op : render_cmd) (len : Z) :=
    to_uint32 (Z.lor (RENDER_CMD_3D H op) (len - 2)) in
  (INTEL_GEN_7 H <= gpu_gen (gpu (dev pipeline)) <= INTEL_GEN_7_5 H ->
   exists pipeline',
     (pipeline ← pipeline_build_hs pipeline;
      pipeline ← pipeline_build_te pipeline;
      pipeline_build_ds pipeline) = Some pipeline' /\
     cmd_len pipeline' = cmd_len pipeline + 17 /\
     arr_get (cmds pipeline') (cmd_len pipeline) = Some (header GEN7_3DSTATE_HS 7) /\
     arr_get (cmds pipeline') (cmd_len pipeline + 7) = Some (header GEN7_3DSTATE_TE 4) /\
     arr_get (cmds pipeline') (cmd_len pipeline + 11) = Some (header GEN7_3DSTATE_DS 6) /\
     forall k, 0 <= k < 17 -> k <> 0 -> k <> 7 -> k <> 11 ->
       arr_get (cmds pipeline') (cmd_len pipeline + k) = Some 0) /\
  (~ INTEL_GEN_7 H <= gpu_gen (gpu (dev pipeline)) <= INTEL_GEN_7_5 H ->
   pipeline_build_hs pipeline = None /\
   pipeline_build_te pipeline = None /\
   pipeline_build_ds pipeline = None).
Proof.
  intros Hok Hroom header. split.
  - intros Hgen. pose proof Hok as [Hlen _].
    unfold pipeline_build_hs, pipeline_build_te, pipeline_build_ds.
    destruct (build_zero_cmd_emits GEN7_3DSTATE_HS 7 pipeline Hgen Hok
                ltac:(lia) ltac:(lia))
      as (p1 & -> & Hl1 & Hok1 & Hd1 & Hh1 & Hz1 & _).
    rewrite Some_bind.
    destruct (build_zero_cmd_emits GEN7_3DSTATE_TE 4 p1 ltac:(rewrite Hd1; exact Hgen)
                Hok1 ltac:(lia) ltac:(lia))
      as (p2 & -> & Hl2 & Hok2 & Hd2 & Hh2 & Hz2 & Hf2).
    rewrite Some_bind.
    destruct (build_zero_cmd_emits GEN7_3DSTATE_DS 6 p2
                ltac:(rewrite Hd2, Hd1; exact Hgen) Hok2 ltac:(lia) ltac:(lia))
      as (p3 & -> & Hl3 & Hok3 & Hd3 & Hh3 & Hz3 & Hf3).
    exists p3. split; [reflexivity |]. split; [lia |].
    rewrite Hl1 in Hh2, Hz2, Hf2. rewrite Hl2, Hl1 in Hh3, Hz3, Hf3.
    split; [rewrite Hf3, Hf2 by lia; exact Hh1 |].
    split; [rewrite Hf3 by lia; exact Hh2 |].
    split; [replace (cmd_len pipeline + 11) with (cmd_len pipeline + 7 + 4) by lia;
            exact Hh3 |].
    intros k Hk H0 H7 H11.
    destruct (Z.lt_ge_cases k 7) as [Hk7 | Hk7];
      [rewrite Hf3, Hf2 by lia; apply Hz1; lia |].
    destruct (Z.lt_ge_cases k 11) as [Hk11 | Hk11].
    + rewrite Hf3 by lia.
      replace (cmd_len pipeline + k) with (cmd_len pipeline + 7 + (k - 7)) by lia.
      apply Hz2. lia.
    + replace (cmd_len pipeline + k) with (cmd_len pipeline + 7 + 4 + (k - 11)) by lia.
      apply Hz3. lia.
  - intros Hgen.
    split; [| split]; apply build_zero_cmd_outside; exact Hgen.
Qed.

End StubFacts.

(** A fresh object on a newer GT2 part. *)
Lemma tessellation_stubs_emit_witness :
  let pipeline := Sample.fresh_pipeline Sample.gen7_gt2 128 in
  Stated.sink_ok pipeline /\
  Pipeline.cmd_len pipeline + 17 < INTEL_PSO_CMD_ENTRIES Sample.headers /\
  INTEL_GEN_7 Sample.headers <= gpu_gen (Pipeline.gpu (Pipeline.dev pipeline))
    <= INTEL_GEN_7_5 Sample.headers /\
  exists pipeline',
    (pipeline ← Pipeline.pipeline_build_hs pipeline;
     pipeline ← Pipeline.pipeline_build_te pipeline;
     Pipeline.pipeline_build_ds pipeline) = Some pipeline' /\
    Pipeline.cmd_len pipeline' = Pipeline.cmd_len pipeline + 17 /\
    Pipeline.arr_get (Pipeline.cmds pipeline') (Pipeline.cmd_len pipeline + 12) = Some 0.
Proof.
  intros pipeline.
  assert (Hgen : INTEL_GEN_7 Sample.headers
                 <= gpu_gen (Pipeline.gpu (Pipeline.dev pipeline))
                 <= INTEL_GEN_7_5 Sample.headers) by (vm_compute; split; discriminate).
  assert (Hok : Stated.sink_ok pipeline)
    by (split; [vm_compute; discriminate | reflexivity]).
  assert (Hroom : Pipeline.cmd_len pipeline + 17 < INTEL_PSO_CMD_ENTRIES Sample.headers)
    by reflexivity.
  split; [exact Hok |]. split; [exact Hroom |]. split; [exact Hgen |].
  destruct (tessellation_stubs_emit pipeline Hok Hroom) as [Hemit _].
  destruct (Hemit Hgen) as (pipeline' & Hb & Hl & _ & _ & _ & Hz).
  exists pipeline'. split; [exact Hb |]. split; [exact Hl |].
  apply Hz; lia.
Defined.

(** ** The vertex-elements command *)

Section VertexElementMoreFacts.
Import Pipeline CInt CIntFacts Stated.
Context {H : Headers}.
Implicit Types pipeline : intel_pipeline H.
Implicit Types attr : Xgl.XGL_VERTEX_INPUT_ATTRIBUTE_DESCRIPTION H.


Lemma vertex_elements_loop_fatal attrs :
  forall dw pipeline,
    Exists (fun attr => 2047 < Xgl.offsetInBytes attr) attrs ->
    vertex_elements_loop attrs dw pipeline = None.
Proof.
  induction attrs as [| attr attrs IH]; intros dw pipeline Hex.
  - apply Exists_nil in Hex. destruct Hex.
  - cbn [vertex_elements_loop]. cbv zeta.
    destruct (Z.le_gt_cases (Xgl.offsetInBytes attr) 2047) as [Hle | Hgt].
    + rewrite assert_bind_true by (apply Z.leb_le; exact Hle).
      apply Exists_cons in Hex as [Hhd | Htl]; [lia |].
      apply IH. exact Htl.
    + replace (Xgl.offsetInBytes attr <=? 2047) with false
        by (symmetry; apply Z.leb_gt; lia).
      reflexivity.
Qed.

(** X16. An attribute offset beyond 2047 bytes is not answered with an
    error code: with at most 126 attributes, one such offset among them stops
    the process at an assertion, whatever the generation and the room in the
    sink. *)
Theorem vertex_elements_offset_fatal pipeline info :
  let vi := Assembler.vi info in
  let attrs :=
    take (Z.to_nat (Xgl.attributeCount vi)) (Xgl.pVertexAttributeDescriptions vi) in
  Xgl.attributeCount vi <= 126 ->
  Exists (fun attr => 2047 < Xgl.offsetInBytes attr) attrs ->
  pipeline_build_vertex_elements pipeline info = None.
Proof.
  intros vi attrs Hmax Hex.
  assert (Hpos : 1 <= Xgl.attributeCount vi).
  { destruct (Z.lt_ge_cases (Xgl.attributeCount vi) 1) as [Hlt | Hge]; [| exact Hge].
    exfalso. subst attrs. replace (Z.to_nat (Xgl.attributeCount vi)) with 0%nat in Hex by lia.
    apply Exists_nil in Hex. exact Hex. }
  unfold pipeline_build_vertex_elements. cbv zeta. fold vi. fold attrs.
  destruct (INTEL_GPU_ASSERT (gpu (dev pipeline)) (INTEL_GEN_6 H) (INTEL_GEN_7_5 H))
    as [[] |]; [| reflexivity].
  rewrite Some_bind.
  rewrite (to_uint8_small (1 + 2 * Xgl.attributeCount vi)) by lia.
  rewrite (to_uint8_small (1 + 2 * Xgl.attributeCount vi + 2)) by lia.
  set (len := if uses_vid_or_iid H (vs pipeline)
              then 1 + 2 * Xgl.attributeCount vi + 2
              else 1 + 2 * Xgl.attributeCount vi).
  destruct (Z.eqb_spec len 1) as [Hone | _];
    [exfalso; subst len; destruct (uses_vid_or_iid H (vs pipeline)); lia |].
  destruct (pipeline_cmd_ptr pipeline len) as [[dw p1] |]; [| reflexivity].
  rewrite Some_bind. cbv beta iota zeta.
  rewrite vertex_elements_loop_fatal by exact Hex. reflexivity.
Qed.

(** Past the bound the eight-bit length wraps: with 128 attributes and no
    generated element it is 1 again, and nothing is emitted. *)
Lemma vertex_elements_count_wraps pipeline info :
  INTEL_GEN_6 H <= gpu_gen (gpu (dev pipeline)) <= INTEL_GEN_7_5 H ->
  Xgl.attributeCount (Assembler.vi info) = 128 ->
  uses_vid_or_iid H (vs pipeline) = false ->
  pipeline_build_vertex_elements pipeline info = Some pipeline.
Proof.
  intros [Hlo Hhi] Hcount Hgenerated.
  unfold pipeline_build_vertex_elements, INTEL_GPU_ASSERT. cbv zeta.
  rewrite assert_bind_true by (apply andb_true_iff; split; apply Z.leb_le; assumption).
  rewrite Hcount, Hgenerated. reflexivity.
Qed.

End VertexElementMoreFacts.


(** One attribute at offset 4096. *)
Lemma vertex_elements_offset_fatal_witness :
  let attr : Xgl.XGL_VERTEX_INPUT_ATTRIBUTE_DESCRIPTION Sample.headers :=
    {| Xgl.binding := 0;
       Xgl.format := ({| Sample.channels := 3; Sample.is_int := false |}
                        : XGL_FORMAT Sample.headers);
       Xgl.offsetInBytes := 4096 |} in
  let info :=
    Assembler.set_vi Sample.headers
      {| Xgl.bindingCount := 0; Xgl.pVertexBindingDescriptions := [];
         Xgl.attributeCount := 1; Xgl.pVertexAttributeDescriptions := [attr] |}
      Sample.zeroed in
  let pipeline := Sample.fresh_pipeline Sample.gen6_gt2 128 in
  let vi := Assembler.vi info in
  let attrs :=
    take (Z.to_nat (Xgl.attributeCount vi)) (Xgl.pVertexAttributeDescriptions vi) in
  Xgl.attributeCount vi <= 126 /\
  Exists (fun attr => 2047 < Xgl.offsetInBytes attr) attrs /\
  Pipeline.pipeline_build_vertex_elements pipeline info = None.
Proof.
  intros attr info pipeline vi attrs.
  assert (Hmax : Xgl.attributeCount vi <= 126) by (vm_compute; discriminate).
  assert (Hex : Exists (fun attr => 2047 < Xgl.offsetInBytes attr) attrs)
    by (apply Exists_cons_hd; reflexivity).
  split; [exact Hmax |]. split; [exact Hex |].
  exact (vertex_elements_offset_fatal pipeline info Hmax Hex).
Defined.

(** ** A build that cannot stop at an assertion *)

Section BuildCompletes.
Import Pipeline CInt CIntFacts Stated Behaviour.
Context {H : Headers}.
Implicit Types pipeline : intel_pipeline H.
Implicit Types info : Assembler.intel_pipeline_create_info H.
Variable pipeline_build_shaders :
  intel_pipeline H -> Assembler.intel_pipeline_create_info H ->
  XGL_RESULT * intel_pipeline H.

Lemma vertex_element_words_small vsh count :
  0 <= count <= 126 ->
  vertex_element_words H vsh count
  = let len := 1 + 2 * count + (if uses_vid_or_iid H vsh then 2 else 0) in
    if len =? 1 then 0 else len.
Proof.
  intros Hc. unfold vertex_element_words. cbv zeta.
  rewrite (to_uint8_small (1 + 2 * count)) by lia.
  rewrite (to_uint8_small (1 + 2 * count + 2)) by lia.
  destruct (uses_vid_or_iid H vsh); rewrite ?Z.add_0_r; reflexivity.
Qed.

Lemma pipeline_build_vertex_elements_defined pipeline info :
  let vi := Assembler.vi info in
  let attrs := Xgl.pVertexAttributeDescriptions vi in
  INTEL_GEN_6 H <= gpu_gen (gpu (dev pipeline)) <= INTEL_GEN_7_5 H ->
  Xgl.attributeCount vi = Z.of_nat (length attrs) ->
  Xgl.attributeCount vi <= 126 ->
  Forall (fun attr => Xgl.offsetInBytes attr <= 2047) attrs ->
  sink_ok pipeline ->
  cmd_len pipeline + vertex_element_words H (vs pipeline) (Xgl.attributeCount vi)
    < INTEL_PSO_CMD_ENTRIES H ->
  exists pipeline', pipeline_build_vertex_elements pipeline info = Some pipeline'.
Proof.
  intros vi attrs [Hlo Hhi] Hcount Hmax Hoff [Hlen Hcmds] Hroom.
  rewrite vertex_element_words_small in Hroom by lia. cbv zeta in Hroom.
  unfold pipeline_build_vertex_elements, INTEL_GPU_ASSERT. cbv zeta.
  fold vi. fold attrs.
  rewrite assert_bind_true by (apply andb_true_iff; split; apply Z.leb_le; assumption).
  rewrite (to_uint8_small (1 + 2 * Xgl.attributeCount vi)) by lia.
  rewrite (to_uint8_small (1 + 2 * Xgl.attributeCount vi + 2)) by lia.
  assert (Htake : take (Z.to_nat (Xgl.attributeCount vi)) attrs = attrs)
    by (rewrite Hcount, Nat2Z.id; apply firstn_all).
  rewrite Htake.
  set (len := if uses_vid_or_iid H (vs pipeline)
              then 1 + 2 * Xgl.attributeCount vi + 2
              else 1 + 2 * Xgl.attributeCount vi).
  assert (Hlen' : 1 + 2 * Xgl.attributeCount vi
                  + (if uses_vid_or_iid H (vs pipeline) then 2 else 0) = len)
    by (subst len; destruct (uses_vid_or_iid H (vs pipeline)); lia).
  rewrite Hlen' in Hroom.
  destruct (len =? 1); [eexists; reflexivity |].
  rewrite pipeline_cmd_ptr_fits by exact Hroom. rewrite Some_bind.
  set (p1 := store (set_cmd_len pipeline (cmd_len pipeline + len)) (cmd_len pipeline) 0
               (Z.lor (RENDER_CMD_3D H GEN6_3DSTATE_VERTEX_ELEMENTS) (len - 2))).
  assert (Hlen1 : length (cmds p1) = length (cmds pipeline))
    by (subst p1; rewrite cmds_store, arr_set_length; reflexivity).
  assert (Hfit : cmd_len pipeline + 1 + 2 * Z.of_nat (length attrs)
                 <= Z.of_nat (length (cmds p1)))
    by (rewrite Hlen1; subst len; destruct (uses_vid_or_iid H (vs pipeline)); lia).
  destruct (vertex_elements_loop_spec attrs (cmd_len pipeline + 1) p1 Hoff
              ltac:(lia) Hfit) as (p2 & Hloop & _).
  rewrite Hloop, Some_bind.
  destruct (uses_vid_or_iid H (vs pipeline)); eexists; reflexivity.
Qed.

Lemma pipeline_build_urb_alloc_gen7_defined pipeline :
  INTEL_GEN_7 H <= gpu_gen (gpu (dev pipeline)) <= INTEL_GEN_7_5 H ->
  0 <= vs_slot_count (vs pipeline) <= 112 ->
  cmd_len pipeline + 8 < INTEL_PSO_CMD_ENTRIES H ->
  exists pipeline', pipeline_build_urb_alloc_gen7 pipeline = Some pipeline'.
Proof.
  intros Hgen Hslots Hroom.
  destruct (urb_layout_gen7_defined pipeline Hgen Hslots) as [u Hu].
  unfold pipeline_build_urb_alloc_gen7. rewrite Hu, Some_bind. cbv zeta.
  rewrite pipeline_cmd_ptr_fits by exact Hroom. rewrite Some_bind.
  eexists. reflexivity.
Qed.

Lemma pipeline_build_push_const_alloc_gen7_defined pipeline :
  INTEL_GEN_7 H <= gpu_gen (gpu (dev pipeline)) <= INTEL_GEN_7_5 H ->
  cmd_len pipeline + 10 < INTEL_PSO_CMD_ENTRIES H ->
  exists pipeline', pipeline_build_push_const_alloc_gen7 pipeline = Some pipeline'.
Proof.
  intros [Hlo Hhi] Hroom.
  unfold pipeline_build_push_const_alloc_gen7, INTEL_GPU_ASSERT. cbv zeta.
  rewrite assert_bind_true by (apply andb_true_iff; split; apply Z.leb_le; assumption).
  rewrite push_const_offset_size_eq, Some_bind. cbv beta iota.
  rewrite pipeline_cmd_ptr_fits by exact Hroom. rewrite Some_bind.
  eexists. reflexivity.
Qed.

Lemma pipeline_build_ia_ret pipeline pipeline' info :
  (pipeline_build_ia pipeline info).1 = (pipeline_build_ia pipeline' info).1.
Proof.
  unfold pipeline_build_ia. cbv zeta.
  destruct (Xgl.provokingVertex (Assembler.ia info)),
    (Xgl.primitiveRestartEnable (Assembler.ia info)),
    (Xgl.topology (Assembler.ia info));
    try destruct ((Xgl.patchControlPoints (Assembler.tess info) =? 0)
                  || (Xgl.patchControlPoints (Assembler.tess info) >? 32));
    reflexivity.
Qed.

(** X17. Conditions under which a build on generations 7 to 7.5 cannot
    stop at an assertion. When the shaders resolve, the binding and attribute
    counts are within a binding table of at most 126 entries, the attribute
    count is the length of the attribute array, every attribute offset is at
    most 2047, the vertex stage has at most 112 slots and the sink has room
    for the vertex-elements command and 35 words more, [pipeline_build_all]
    returns: its result code is the one of the input-assembly step, and the
    length has advanced by exactly those words. *)
Theorem pipeline_build_all_completes pipeline info :
  let r0 := pipeline_build_shaders pipeline info in
  let vi := Assembler.vi info in
  let attrs := Xgl.pVertexAttributeDescriptions vi in
  r0.1 = XGL_SUCCESS ->
  Xgl.bindingCount vi <= vb_ARRAY_SIZE H ->
  Xgl.attributeCount vi <= vb_ARRAY_SIZE H ->
  vb_ARRAY_SIZE H <= 126 ->
  Xgl.attributeCount vi = Z.of_nat (length attrs) ->
  Forall (fun attr => Xgl.offsetInBytes attr <= 2047) attrs ->
  INTEL_GEN_6 H <= INTEL_GEN_7 H ->
  INTEL_GEN_7 H <= gpu_gen (gpu (dev r0.2)) <= INTEL_GEN_7_5 H ->
  0 <= vs_slot_count (vs r0.2) <= 112 ->
  sink_ok r0.2 ->
  cmd_len r0.2 + vertex_element_words H (vs r0.2) (Xgl.attributeCount vi) + 35
    < INTEL_PSO_CMD_ENTRIES H ->
  exists pipeline',
    pipeline_build_all pipeline_build_shaders pipeline info
    = Some ((pipeline_build_ia r0.2 info).1, pipeline') /\
    cmd_len pipeline'
    = cmd_len r0.2 + vertex_element_words H (vs r0.2) (Xgl.attributeCount vi) + 35.
Proof.
  intros r0 vi attrs Hret Hbc Hac Hvb Hcount Hoff H67 Hgen Hslots Hok Hroom.
  subst r0. unfold pipeline_build_all.
  destruct (pipeline_build_shaders pipeline info) as [ret0 p0].
  cbn [fst snd] in *. subst ret0. cbn [XGL_RESULT_eqb negb]. cbv zeta. fold vi.
  replace (Xgl.bindingCount vi >? vb_ARRAY_SIZE H) with false
    by (symmetry; rewrite Z.gtb_ltb; apply Z.ltb_ge; exact Hbc).
  replace (Xgl.attributeCount vi >? vb_ARRAY_SIZE H) with false
    by (symmetry; rewrite Z.gtb_ltb; apply Z.ltb_ge; exact Hac).
  cbn [orb].
  pose proof (vertex_element_words_nonneg (H := H) (vs p0) (Xgl.attributeCount vi))
    as Hw0.
  set (pv := set_vb p0 (Xgl.bindingCount vi)
               (take (Z.to_nat (Xgl.bindingCount vi)) (Xgl.pVertexBindingDescriptions vi)
                ++ drop (Z.to_nat (Xgl.bindingCount vi)) (vb p0))).
  assert (Hgen0 : INTEL_GEN_6 H <= gpu_gen (gpu (dev pv)) <= INTEL_GEN_7_5 H)
    by (subst pv; cbn [set_vb dev]; lia).
  assert (Hmax : Xgl.attributeCount vi <= 126) by lia.
  assert (Hroom0 : cmd_len pv
                   + vertex_element_words H (vs pv) (Xgl.attributeCount vi)
                   < INTEL_PSO_CMD_ENTRIES H)
    by (subst pv; cbn [set_vb cmd_len vs]; lia).
  destruct (pipeline_build_vertex_elements_defined pv info Hgen0 Hcount Hmax Hoff Hok
              Hroom0) as [p1 Hve].
  rewrite Hve, Some_bind.
  apply pipeline_build_vertex_elements_appends in Hve as [[Hl1 (Hs1 & Hd1 & _ & Hv1 & _)] _].
  cbv zeta in Hl1. subst pv. cbn [set_vb cmd_len vs dev cmds] in Hl1, Hs1, Hd1, Hv1.
  fold vi in Hl1.
  assert (Hgen1 : INTEL_GEN_7 H <= gpu_gen (gpu (dev p1)) <= INTEL_GEN_7_5 H)
    by (rewrite Hd1; exact Hgen).
  replace (gpu_gen (gpu (dev p1)) >=? INTEL_GEN_7 H) with true
    by (symmetry; apply Z.geb_le; lia).
  assert (Hslots1 : 0 <= vs_slot_count (vs p1) <= 112) by (rewrite Hv1; exact Hslots).
  assert (Hroom1 : cmd_len p1 + 8 < INTEL_PSO_CMD_ENTRIES H) by lia.
  destruct (pipeline_build_urb_alloc_gen7_defined p1 Hgen1 Hslots1 Hroom1) as [p2 Hurb].
  rewrite Hurb, Some_bind.
  apply pipeline_build_urb_alloc_gen7_appends in Hurb as [[Hl2 (Hs2 & Hd2 & _)] _].
  assert (Hgen2 : INTEL_GEN_7 H <= gpu_gen (gpu (dev p2)) <= INTEL_GEN_7_5 H)
    by (rewrite Hd2; exact Hgen1).
  assert (Hroom2 : cmd_len p2 + 10 < INTEL_PSO_CMD_ENTRIES H) by lia.
  destruct (pipeline_build_push_const_alloc_gen7_defined p2 Hgen2 Hroom2) as [p3 Hpcb].
  rewrite Hpcb, Some_bind.
  apply pipeline_build_push_const_alloc_gen7_appends in Hpcb as [[Hl3 (Hs3 & Hd3 & _)] _].
  unfold pipeline_build_gs. rewrite Some_bind.
  assert (Hgen3 : INTEL_GEN_7 H <= gpu_gen (gpu (dev p3)) <= INTEL_GEN_7_5 H)
    by (rewrite Hd3; exact Hgen2).
  destruct Hok as [Hlen0 Hcmds0].
  assert (Hok3 : sink_ok p3) by (split; [lia | rewrite Hs3, Hs2, Hs1; exact Hcmds0]).
  unfold pipeline_build_hs, pipeline_build_te, pipeline_build_ds.
  assert (Hroom3 : cmd_len p3 + 7 < INTEL_PSO_CMD_ENTRIES H) by lia.
  destruct (build_zero_cmd_emits GEN7_3DSTATE_HS 7 p3 Hgen3 Hok3 ltac:(lia) Hroom3)
    as (p4 & -> & Hl4 & Hok4 & Hd4 & _).
  rewrite Some_bind.
  assert (Hgen4 : INTEL_GEN_7 H <= gpu_gen (gpu (dev p4)) <= INTEL_GEN_7_5 H)
    by (rewrite Hd4; exact Hgen3).
  assert (Hroom4 : cmd_len p4 + 4 < INTEL_PSO_CMD_ENTRIES H) by lia.
  destruct (build_zero_cmd_emits GEN7_3DSTATE_TE 4 p4 Hgen4 Hok4 ltac:(lia) Hroom4)
    as (p5 & -> & Hl5 & Hok5 & Hd5 & _).
  rewrite Some_bind.
  assert (Hgen5 : INTEL_GEN_7 H <= gpu_gen (gpu (dev p5)) <= INTEL_GEN_7_5 H)
    by (rewrite Hd5; exact Hgen4).
  assert (Hroom5 : cmd_len p5 + 6 < INTEL_PSO_CMD_ENTRIES H) by lia.
  destruct (build_zero_cmd_emits GEN7_3DSTATE_DS 6 p5 Hgen5 Hok5 ltac:(lia) Hroom5)
    as (p6 & -> & Hl6 & Hok6 & Hd6 & _).
  rewrite !Some_bind.
  set (p7 := set_wa_flags p6 (wa_flags_gen7 H)).
  rewrite (pipeline_build_ia_ret p0 p7 info).
  pose proof (pipeline_build_ia_keeps p7 info) as [Hres [Hl8 _]].
  cbv zeta in Hres, Hl8.
  destruct (pipeline_build_ia p7 info) as [ret8 p8]. cbn [fst snd] in Hres, Hl8 |- *.
  unfold pipeline_rs_state.
  destruct Hres as [-> | ->]; cbn [XGL_RESULT_eqb]; cbv beta iota;
    eexists; (split; [reflexivity |]);
    cbn [set_fixed_state set_rs cmd_len]; subst p7; cbn [set_wa_flags cmd_len] in Hl8; lia.
Qed.

End BuildCompletes.

(** A fresh object on a newer GT2 part and a descriptor of zeros, with the
    stand-in for the shader compiler. *)
Lemma pipeline_build_all_completes_witness :
  let pipeline := Sample.fresh_pipeline Sample.gen7_gt2 128 in
  let info := Sample.zeroed in
  let r0 := Sample.resolve_shaders pipeline info in
  let vi := Assembler.vi info in
  let attrs := Xgl.pVertexAttributeDescriptions vi in
  r0.1 = XGL_SUCCESS /\
  Xgl.bindingCount vi <= vb_ARRAY_SIZE Sample.headers /\
  Xgl.attributeCount vi <= vb_ARRAY_SIZE Sample.headers /\
  vb_ARRAY_SIZE Sample.headers <= 126 /\
  Xgl.attributeCount vi = Z.of_nat (length attrs) /\
  Forall (fun attr => Xgl.offsetInBytes attr <= 2047) attrs /\
  INTEL_GEN_6 Sample.headers <= INTEL_GEN_7 Sample.headers /\
  INTEL_GEN_7 Sample.headers <= gpu_gen (Pipeline.gpu (Pipeline.dev r0.2))
    <= INTEL_GEN_7_5 Sample.headers /\
  0 <= Pipeline.vs_slot_count (Pipeline.vs r0.2) <= 112 /\
  Stated.sink_ok r0.2 /\
  Pipeline.cmd_len r0.2
    + Behaviour.vertex_element_words Sample.headers (Pipeline.vs r0.2)
        (Xgl.attributeCount vi) + 35
    < INTEL_PSO_CMD_ENTRIES Sample.headers /\
  exists pipeline',
    Pipeline.pipeline_build_all Sample.resolve_shaders pipeline info
    = Some ((Pipeline.pipeline_build_ia r0.2 info).1, pipeline') /\
    Pipeline.cmd_len pipeline'
    = Pipeline.cmd_len r0.2
      + Behaviour.vertex_element_words Sample.headers (Pipeline.vs r0.2)
          (Xgl.attributeCount vi) + 35.
Proof.
  intros pipeline info r0 vi attrs.
  assert (H1 : r0.1 = XGL_SUCCESS) by reflexivity.
  assert (H2 : Xgl.bindingCount vi <= vb_ARRAY_SIZE Sample.headers)
    by (vm_compute; discriminate).
  assert (H3 : Xgl.attributeCount vi <= vb_ARRAY_SIZE Sample.headers)
    by (vm_compute; discriminate).
  assert (H4 : vb_ARRAY_SIZE Sample.headers <= 126) by (vm_compute; discriminate).
  assert (H5 : Xgl.attributeCount vi = Z.of_nat (length attrs)) by reflexivity.
  assert (H6 : Forall (fun attr => Xgl.offsetInBytes attr <= 2047) attrs) by constructor.
  assert (H7 : INTEL_GEN_6 Sample.headers <= INTEL_GEN_7 Sample.headers)
    by (vm_compute; discriminate).
  assert (H8 : INTEL_GEN_7 Sample.headers <= gpu_gen (Pipeline.gpu (Pipeline.dev r0.2))
               <= INTEL_GEN_7_5 Sample.headers) by (vm_compute; split; discriminate).
  assert (H9 : 0 <= Pipeline.vs_slot_count (Pipeline.vs r0.2) <= 112)
    by (vm_compute; split; discriminate).
  assert (H10 : Stated.sink_ok r0.2)
    by (split; [vm_compute; discriminate | reflexivity]).
  assert (H11 : Pipeline.cmd_len r0.2
                + Behaviour.vertex_element_words Sample.headers (Pipeline.vs r0.2)
                    (Xgl.attributeCount vi) + 35
                < INTEL_PSO_CMD_ENTRIES Sample.headers) by reflexivity.
  repeat (split; [assumption |]).
  exact (pipeline_build_all_completes Sample.resolve_shaders pipeline info
           H1 H2 H3 H4 H5 H6 H7 H8 H9 H10 H11).
Defined.

(** ** A fence that was created and not submitted *)

Section FreshFenceFacts.
Import Fence FenceStatus.
Context {bo kernel : Type}.
Variable intel_bo_is_busy : kernel -> bo -> kernel * bool.
Variable intel_bo_wait : kernel -> bo -> Z -> kernel * Z.

(** X18. [intel_fence_create] fails only for want of memory, for the fence
    or for its debug record when the device has one, and hands back a fence
    exactly when it succeeds. Until that fence is submitted, its status and
    every wait on it, alone through [intelWaitForFences] too, with or without
    [waitAll] and whatever the timeout, give the unavailable error, and the
    kernel is not called. *)
Theorem fresh_fence_unavailable (alloc_fence dbg alloc_dbg : bool) :
  let r := intel_fence_create (bo := bo) alloc_fence dbg alloc_dbg in
  (r.1 = XGL_SUCCESS <-> is_Some r.2) /\
  (r.1 = XGL_SUCCESS \/ r.1 = XGL_ERROR_OUT_OF_MEMORY) /\
  (r.1 = XGL_ERROR_OUT_OF_MEMORY <->
   alloc_fence = false \/ (dbg = true /\ alloc_dbg = false)) /\
  forall fence, r.2 = Some fence ->
    forall (k : kernel) (ns timeout : Z) (waitAll : bool),
      intel_fence_get_status intel_bo_is_busy k fence = (k, XGL_ERROR_UNAVAILABLE) /\
      intel_fence_wait intel_bo_wait k fence ns = (k, XGL_ERROR_UNAVAILABLE) /\
      (intelWaitForFences intel_bo_wait k [fence] waitAll timeout).1
      = (k, XGL_ERROR_UNAVAILABLE).
Proof.
  intros r. subst r. unfold intel_fence_create.
  destruct alloc_fence, dbg, alloc_dbg; cbn [negb andb fst snd].
  all: split; [split; [first [intros _; eexists; reflexivity | discriminate]
                      | first [reflexivity | intros [x Hx]; discriminate Hx]] |].
  all: split; [first [left; reflexivity | right; reflexivity] |].
  all: split;
    [split; [first [discriminate | intros _; first [left; reflexivity
                                                    | right; split; reflexivity]]
            | first [reflexivity
                    | intros [Hf | [Hd Ha]]; discriminate]] |].
  all: intros fence Hfence; try discriminate Hfence; injection Hfence as <-.
  all: intros k ns timeout waitAll; repeat split; destruct waitAll; reflexivity.
Qed.

End FreshFenceFacts.

(** ** The slot limit of the older generation *)

Section UrbGen6Facts.
Import Pipeline CInt CIntFacts Stated.
Context {H : Headers}.
Implicit Types pipeline : intel_pipeline H.

Lemma gen6_urb_size_values g :
  gen6_urb_size g = 64 * 1024 \/ gen6_urb_size g = 32 * 1024.
Proof. unfold gen6_urb_size. destruct (gt g =? 2); [left | right]; reflexivity. Qed.

Lemma rows_128_le_5 count :
  0 <= count -> (Z.max 1 ((16 * count + 128 - 1) / 128) <= 5 <-> count <= 40).
Proof.
  intros Hc.
  pose proof (Z.div_mod (16 * count + 128 - 1) 128 ltac:(lia)) as Hdm.
  pose proof (Z.mod_pos_bound (16 * count + 128 - 1) 128 ltac:(lia)) as Hmod.
  split; intros Hle; lia.
Qed.

Lemma urb_layout_gen6_defined_any pipeline :
  gpu_gen (gpu (dev pipeline)) = INTEL_GEN_6 H ->
  0 <= vs_slot_count (vs pipeline) <= 40 ->
  0 <= out_count (gs pipeline) <= 40 ->
  exists u, urb_layout_gen6 pipeline = Some u.
Proof.
  intros Hgen Hvs Hgs. unfold urb_layout_gen6, INTEL_GPU_ASSERT. cbv zeta.
  rewrite Hgen.
  rewrite assert_bind_true by (rewrite Z.leb_refl; reflexivity).
  rewrite (entry_size_bytes_eq (vs_slot_count (vs pipeline))) by lia.
  rewrite (entry_size_bytes_eq (out_count (gs pipeline))) by lia.
  rewrite (urb_alloc_size_eq 128 (16 * vs_slot_count (vs pipeline))) by lia.
  rewrite (urb_alloc_size_eq 128 (16 * out_count (gs pipeline))) by lia.
  pose proof (proj2 (rows_128_le_5 (vs_slot_count (vs pipeline)) ltac:(lia))
                ltac:(lia)) as Hva.
  pose proof (proj2 (rows_128_le_5 (out_count (gs pipeline)) ltac:(lia))
                ltac:(lia)) as Hga.
  set (va := Z.max 1 ((16 * vs_slot_count (vs pipeline) + 128 - 1) / 128)) in *.
  set (ga := Z.max 1 ((16 * out_count (gs pipeline) + 128 - 1) / 128)) in *.
  assert (Hva1 : 1 <= va) by (subst va; lia).
  assert (Hga1 : 1 <= ga) by (subst ga; lia).
  clearbody va ga.
  assert (Hcases : va = 1 \/ va = 2 \/ va = 3 \/ va = 4 \/ va = 5) by lia.
  destruct (gen6_urb_size_values (gpu (dev pipeline))) as [-> | ->];
    destruct (truthy (Z.land (active_shaders pipeline) (SHADER_GEOMETRY_FLAG H)));
    cbv beta iota.
  all: rewrite assert_bind_true
    by (apply andb_true_iff; split; apply Z.leb_le; lia).
  all: rewrite assert_bind_true;
    [eexists; reflexivity |
     destruct Hcases as [-> | [-> | [-> | [-> | ->]]]]; reflexivity].
Qed.

(** X19. On generation 6, for stages of 0 to [2^26 - 1] slots (where the
    [int] arithmetic does not wrap), the URB allocator gets past its
    assertions exactly when the vertex stage and the geometry stage have at
    most 40 slots each, on every GT tier and whether or not the geometry
    stage is active: the record of an inactive geometry stage counts too.
    When it does, the two partitions make up the whole URB and both entry
    counts are multiples of 4 of at most 256, the vertex count at least 24.
    Slot counts beyond that range are not spoken of: with wrap-around some of
    them pass the assertions. *)
Theorem urb_alloc_gen6_slot_limit pipeline :
  gpu_gen (gpu (dev pipeline)) = INTEL_GEN_6 H ->
  0 <= vs_slot_count (vs pipeline) < 2 ^ 26 ->
  0 <= out_count (gs pipeline) < 2 ^ 26 ->
  (is_Some (urb_layout_gen6 pipeline) <->
   vs_slot_count (vs pipeline) <= 40 /\ out_count (gs pipeline) <= 40) /\
  (forall u, urb_layout_gen6 pipeline = Some u ->
     vs_size u + gs_size u = urb_size u /\
     Z.divide 4 (vs_entry_count u) /\ 24 <= vs_entry_count u <= 256 /\
     Z.divide 4 (gs_entry_count u) /\ 0 <= gs_entry_count u <= 256).
Proof.
  intros Hgen Hvs Hgs.
  assert (Hinv : forall u, urb_layout_gen6 pipeline = Some u ->
            (vs_slot_count (vs pipeline) <= 40 /\ out_count (gs pipeline) <= 40) /\
            vs_size u + gs_size u = urb_size u /\
            Z.divide 4 (vs_entry_count u) /\ 24 <= vs_entry_count u <= 256 /\
            Z.divide 4 (gs_entry_count u) /\ 0 <= gs_entry_count u <= 256).
  { intros u Hu.
    destruct (urb_layout_gen6_Some pipeline u Hu)
      as (_ & Hsize & Hvsz & Hgsz & Hva & Hga & Hva5 & Hga5 & Hcount & Hrange).
    cbv zeta in Hsize, Hvsz, Hgsz.
    rewrite (entry_size_bytes_eq (vs_slot_count (vs pipeline))) in Hva by lia.
    rewrite (entry_size_bytes_eq (out_count (gs pipeline))) in Hga by lia.
    rewrite (urb_alloc_size_eq 128 (16 * vs_slot_count (vs pipeline))) in Hva by lia.
    rewrite (urb_alloc_size_eq 128 (16 * out_count (gs pipeline))) in Hga by lia.
    split.
    { split; [apply rows_128_le_5; [lia | rewrite <- Hva; exact Hva5]
             | apply rows_128_le_5; [lia | rewrite <- Hga; exact Hga5]]. }
    split.
    { rewrite Hvsz, Hgsz, Hsize.
      destruct (gen6_urb_size_values (gpu (dev pipeline))) as [-> | ->];
        destruct (truthy (Z.land (active_shaders pipeline) (SHADER_GEOMETRY_FLAG H)));
        reflexivity. }
    split.
    { destruct Hcount as [-> | ->]; [exists 64; reflexivity |].
      rewrite land_lnot_3. eexists. apply Z.mul_comm. }
    split; [exact Hrange |].
    assert (Hgs0 : 0 <= gs_size u).
    { rewrite Hgsz.
      destruct (gen6_urb_size_values (gpu (dev pipeline))) as [-> | ->];
        destruct (truthy (Z.land (active_shaders pipeline) (SHADER_GEOMETRY_FLAG H)));
        vm_compute; discriminate. }
    assert (Hga1 : 1 <= gs_alloc_size u) by (rewrite Hga; lia).
    assert (Hgc : gs_entry_count u
                  = (if Z.land (gs_size u ÷ 128 ÷ gs_alloc_size u) (Z.lnot 3) >? 256
                     then 256
                     else Z.land (gs_size u ÷ 128 ÷ gs_alloc_size u) (Z.lnot 3))).
    { clear - Hu. unfold urb_layout_gen6, INTEL_GPU_ASSERT in Hu. cbv zeta in Hu.
      step_assert Hu.
      destruct (truthy (Z.land (active_shaders pipeline) (SHADER_GEOMETRY_FLAG H)));
        cbv beta iota in Hu.
      all: step_assert Hu; step_assert Hu.
      all: injection Hu as <-;
        cbv beta iota delta [gs_size gs_alloc_size gs_entry_count]; reflexivity. }
    rewrite Hgc, land_lnot_3.
    set (q := gs_size u ÷ 128 ÷ gs_alloc_size u).
    assert (Hq : 0 <= q).
    { subst q. rewrite (Z.quot_div_nonneg (gs_size u) 128) by lia.
      assert (0 <= gs_size u / 128) by (apply Z.div_pos; lia).
      rewrite Z.quot_div_nonneg by lia. apply Z.div_pos; lia. }
    assert (Hq4 : 0 <= q / 4) by (apply Z.div_pos; lia).
    destruct (Z.gtb_spec (4 * (q / 4)) 256).
    - split; [exists 64; reflexivity | lia].
    - split; [exists (q / 4); lia | lia]. }
  split.
  - split.
    + intros [u Hu]. exact (proj1 (Hinv u Hu)).
    + intros [Hv Hg].
      destruct (urb_layout_gen6_defined_any pipeline Hgen ltac:(lia) ltac:(lia))
        as [u Hu].
      exists u. exact Hu.
  - intros u Hu. exact (proj2 (Hinv u Hu)).
Qed.

End UrbGen6Facts.

(** A GT1 part with the geometry stage active and forty slots a stage: the
    allocator gets through. *)
Lemma urb_alloc_gen6_slot_limit_witness :
  let pipeline :=
    Sample.pipeline_of {| gpu_gen := 600; gt := 1 |} 128 0 9 XGL_TOPOLOGY_TRIANGLE_LIST
      {| Pipeline.in_count := 40; Pipeline.out_count := 4; Pipeline.uses := 0 |}
      {| Pipeline.in_count := 4; Pipeline.out_count := 40; Pipeline.uses := 0 |} in
  gpu_gen (Pipeline.gpu (Pipeline.dev pipeline)) = INTEL_GEN_6 Sample.headers /\
  0 <= Pipeline.vs_slot_count (Pipeline.vs pipeline) < 2 ^ 26 /\
  0 <= Pipeline.out_count (Pipeline.gs pipeline) < 2 ^ 26 /\
  is_Some (Pipeline.urb_layout_gen6 pipeline).
Proof.
  intros pipeline.
  assert (Hgen : gpu_gen (Pipeline.gpu (Pipeline.dev pipeline))
                 = INTEL_GEN_6 Sample.headers) by reflexivity.
  assert (Hvs : 0 <= Pipeline.vs_slot_count (Pipeline.vs pipeline) < 2 ^ 26)
    by (vm_compute; split; [discriminate | reflexivity]).
  assert (Hgs : 0 <= Pipeline.out_count (Pipeline.gs pipeline) < 2 ^ 26)
    by (vm_compute; split; [discriminate | reflexivity]).
  split; [exact Hgen |]. split; [exact Hvs |]. split; [exact Hgs |].
  apply (urb_alloc_gen6_slot_limit pipeline Hgen Hvs Hgs).
  split; vm_compute; discriminate.
Defined.
